(** * SWRC task tracker: request intake and status workflow

    A shallow embedding of the server side of the tracker:
    - [schema.ts]  the zod schemas ([requestSchema],
      [requestStatusUpdateSchema]) and the lot of the flat
      [src/schema.ts];
    - [server.ts]  [toMySqlDateTime], the [POST /api/requests] handler and
      the [PATCH /api/requests/:id/status] handler.

    JavaScript strings are sequences of UTF-16 code units, JSON numbers are
    rationals extended with the non-finite doubles, a [Date] is its time
    value in milliseconds.  The relational store is a record of tables with
    one connection that buffers the writes of an open transaction; every
    store call of a handler can be refused by a fault oracle. *)

From Stdlib Require Import ZArith QArith List String Ascii Bool Lia.
From Stdlib Require Import DecimalString.
Import ListNotations.

Set Warnings "-register-all".

Local Open Scope Z_scope.

(* ================================================================== *)
(** ** JavaScript strings *)
(* ================================================================== *)

(** A string is its sequence of UTF-16 code units. *)
Definition jsstring := list N.

(** A source literal (ASCII) as a JavaScript string. *)
Definition lit (s : string) : jsstring :=
  List.map N_of_ascii (list_ascii_of_string s).

Fixpoint js_eqb (a b : jsstring) : bool :=
  match a, b with
  | [], [] => true
  | x :: a', y :: b' => N.eqb x y && js_eqb a' b'
  | _, _ => false
  end.

(** [s.length] *)
Definition js_length (s : jsstring) : Z := Z.of_nat (List.length s).

(** ECMAScript WhiteSpace and LineTerminator code points, the characters
    [String.prototype.trim] removes.  All of them are single code units. *)
Definition is_space (c : N) : bool :=
  (N.leb 9 c && N.leb c 13)
  || N.eqb c 32 || N.eqb c 160 || N.eqb c 5760
  || (N.leb 8192 c && N.leb c 8202)
  || N.eqb c 8232 || N.eqb c 8233 || N.eqb c 8239
  || N.eqb c 8287 || N.eqb c 12288 || N.eqb c 65279.

Fixpoint trim_start (s : jsstring) : jsstring :=
  match s with
  | c :: s' => if is_space c then trim_start s' else s
  | [] => []
  end.

Definition trim_end (s : jsstring) : jsstring :=
  rev (trim_start (rev s)).

(** [s.trim()] *)
Definition trim (s : jsstring) : jsstring := trim_end (trim_start s).

(** Decimal rendering of an integer, as a template literal prints it. *)
Definition js_of_Z (n : Z) : jsstring :=
  lit (NilZero.string_of_int (Z.to_int n)).

(* ================================================================== *)
(** ** Numbers and JSON values *)
(* ================================================================== *)

(** A JavaScript number: [NaN], an infinity, or a finite value. Finite
    doubles are rationals; only integrality and sign are ever inspected. *)
Inductive jsnum : Type :=
| NaN
| Inf (negative : bool)
| Fin (q : Q).

(** [Number.isFinite] *)
Definition isFinite (n : jsnum) : bool :=
  match n with Fin _ => true | _ => false end.

(** Integrality of a rational and its integer value. *)
Definition q_is_int (q : Q) : bool := (Qnum q mod Zpos (Qden q)) =? 0.
Definition q_to_Z (q : Q) : Z := Qnum q / Zpos (Qden q).

(** [Number.isInteger] *)
Definition isInteger (n : jsnum) : bool :=
  match n with Fin q => q_is_int q | _ => false end.

(** [n < 0] and [n <= 0] on numbers that are not [NaN]. *)
Definition num_neg (n : jsnum) : bool :=
  match n with
  | NaN => false
  | Inf neg => neg
  | Fin q => Qnum q <? 0
  end.

Definition num_nonpos (n : jsnum) : bool :=
  match n with
  | NaN => false
  | Inf neg => neg
  | Fin q => Qnum q <=? 0
  end.

(** The body of a request after [express.json()]. *)
Inductive json : Type :=
| JNull
| JBool (b : bool)
| JNum (n : jsnum)
| JStr (s : jsstring)
| JArr (xs : list json)
| JObj (fields : list (jsstring * json)).

(** Property read [o[k]] for a source-level key; [None] is [undefined]. *)
Fixpoint get (k : string) (fields : list (jsstring * json)) : option json :=
  match fields with
  | [] => None
  | (k', v) :: rest => if js_eqb (lit k) k' then Some v else get k rest
  end.

(** A value that may be [undefined] or [null], as [.optional().nullable()]
    leaves it. *)
Inductive nullish (A : Type) : Type :=
| Undef
| Null
| Val (a : A).
Arguments Undef {A}.
Arguments Null {A}.
Arguments Val {A} a.

(** [x ?? null] *)
Definition or_null {A} (x : nullish A) : option A :=
  match x with Val a => Some a | _ => None end.

(* ================================================================== *)
(** ** The zod combinators the schemas are written with *)
(* ================================================================== *)

Inductive seg : Type :=
| Key (k : string)
| Idx (i : nat).

Inductive zcode : Type :=
| invalid_type
| too_small
| invalid_enum_value
| invalid_literal
| invalid_date
| invalid_union_discriminator
| custom (message : string).

Record issue : Type := mk_issue { path : list seg; code : zcode }.

(** The outcome of [safeParse]: the typed data, or every issue found. *)
Inductive result (A : Type) : Type :=
| Ok (a : A)
| Err (issues : list issue).
Arguments Ok {A} a.
Arguments Err {A} issues.

Definition success {A} (r : result A) : bool :=
  match r with Ok _ => true | Err _ => false end.

(** A schema reads a possibly [undefined] value. *)
Definition schema (A : Type) : Type := option json -> result A.

Definition fail {A} (c : zcode) : result A := Err [mk_issue [] c].

Definition rmap {A B} (f : A -> B) (r : result A) : result B :=
  match r with Ok a => Ok (f a) | Err e => Err e end.

(** Fields of an object are parsed independently and their issues
    concatenated in the order of the shape. *)
Definition ap {A B} (f : result (A -> B)) (x : result A) : result B :=
  match f, x with
  | Ok g, Ok a => Ok (g a)
  | Ok _, Err e => Err e
  | Err e, Ok _ => Err e
  | Err e1, Err e2 => Err (e1 ++ e2)
  end.

Declare Scope zod_scope.
Delimit Scope zod_scope with zod.
Notation "f <*> x" := (ap f x) (at level 52, left associativity) : zod_scope.

Definition under (s : seg) (i : issue) : issue :=
  mk_issue (s :: path i) (code i).

Definition at_seg {A} (s : seg) (r : result A) : result A :=
  match r with Ok a => Ok a | Err e => Err (List.map (under s) e) end.

(** One key of an object shape. *)
Definition field {A} (k : string) (p : schema A)
  (o : list (jsstring * json)) : result A :=
  at_seg (Key k) (p (get k o)).

(** [z.string()] and [z.string().min(n)] *)
Definition z_string : schema jsstring := fun v =>
  match v with
  | Some (JStr s) => Ok s
  | _ => fail invalid_type
  end.

Definition z_string_min (n : Z) : schema jsstring := fun v =>
  match z_string v with
  | Ok s => if js_length s <? n then fail too_small else Ok s
  | Err e => Err e
  end.

(** [z.boolean()] *)
Definition z_boolean : schema bool := fun v =>
  match v with
  | Some (JBool b) => Ok b
  | _ => fail invalid_type
  end.

(** [z.enum([...])] and [z.literal(...)], with the typed value of each
    member. *)
Fixpoint member {A} (table : list (string * A)) (s : jsstring) : option A :=
  match table with
  | [] => None
  | (k, a) :: rest => if js_eqb (lit k) s then Some a else member rest s
  end.

Definition z_enum {A} (table : list (string * A)) : schema A := fun v =>
  match v with
  | Some (JStr s) =>
      match member table s with
      | Some a => Ok a
      | None => fail invalid_enum_value
      end
  | _ => fail invalid_type
  end.

Definition z_literal {A} (k : string) (a : A) : schema A := fun v =>
  match v with
  | Some (JStr s) => if js_eqb (lit k) s then Ok a else fail invalid_literal
  | _ => fail invalid_literal
  end.

(** [p.optional().nullable()] (and [p.nullable().optional()]) *)
Definition optional_nullable {A} (p : schema A) : schema (nullish A) :=
  fun v =>
    match v with
    | None => Ok Undef
    | Some JNull => Ok Null
    | Some _ => rmap Val (p v)
    end.

(** The checks chained on [z.number()]; all of them run. *)
Inductive num_check : Type :=
| int
| nonnegative
| positive.

Definition check_num (n : jsnum) (c : num_check) : list issue :=
  match c with
  | int => if isInteger n then [] else [mk_issue [] invalid_type]
  | nonnegative => if num_neg n then [mk_issue [] too_small] else []
  | positive => if num_nonpos n then [mk_issue [] too_small] else []
  end.

Definition run_checks (n : jsnum) (cs : list num_check) : result jsnum :=
  match List.flat_map (check_num n) cs with
  | [] => Ok n
  | e => Err e
  end.

(** [z.number()] followed by checks: the input must be a number other
    than [NaN]. *)
Definition z_number (cs : list num_check) : schema jsnum := fun v =>
  match v with
  | Some (JNum NaN) => fail invalid_type
  | Some (JNum n) => run_checks n cs
  | _ => fail invalid_type
  end.

(** [z.array(p).min(n)]: the length check and every element's issues. *)
Fixpoint parse_items {A} (p : schema A) (i : nat) (xs : list json)
  : result (list A) :=
  match xs with
  | [] => Ok []
  | x :: rest =>
      (Ok cons <*> at_seg (Idx i) (p (Some x))
               <*> parse_items p (S i) rest)%zod
  end.

Definition z_array_min {A} (p : schema A) (n : Z) : schema (list A) :=
  fun v =>
    match v with
    | Some (JArr xs) =>
        let small : result unit :=
          if Z.of_nat (List.length xs) <? n then fail too_small else Ok tt in
        (Ok (fun _ l => l) <*> small <*> parse_items p 0 xs)%zod
    | _ => fail invalid_type
    end.

(** [p.refine(ok, message)] *)
Definition refine {A} (p : schema A) (ok : A -> bool) (message : string)
  : schema A := fun v =>
  match p v with
  | Ok a => if ok a then Ok a else fail (custom message)
  | Err e => Err e
  end.

(** [z.object(shape)] (unknown keys are stripped) *)
Definition z_object {A} (shape : list (jsstring * json) -> result A)
  : schema A := fun v =>
  match v with
  | Some (JObj o) => shape o
  | _ => fail invalid_type
  end.

(** [z.discriminatedUnion(key, options)]: the option is chosen by the
    value of the discriminator; an unknown value is one issue on it. *)
Definition z_discriminatedUnion {A} (key : string)
  (options : list (string * schema A)) : schema A := fun v =>
  match v with
  | Some (JObj o) =>
      match get key o with
      | Some (JStr s) =>
          match member options s with
          | Some p => p v
          | None => Err [mk_issue [Key key] invalid_union_discriminator]
          end
      | _ => Err [mk_issue [Key key] invalid_union_discriminator]
      end
  | _ => fail invalid_type
  end.

(** [schema.safeParse(body)] *)
Definition safeParse {A} (p : schema A) (body : json) : result A :=
  p (Some body).

(* ================================================================== *)
(** ** Dates *)
(* ================================================================== *)

(** What the JavaScript engine supplies: [Date.parse], the numeric value
    of a string and the string an array or object converts to. *)
Record Engine : Type := {
  DateParse : jsstring -> option Z;
  StringToNumber : jsstring -> jsnum;
  ToPrimitive : json -> jsstring
}.

(** Local time: the calendar day an instant falls on, the instant at
    which a day starts, and the calendar fields [Date] getters return. *)
Record Zone : Type := {
  local_day : Z -> Z;
  day_start : Z -> Z;
  day_start_mono : forall a b, a < b -> day_start a < day_start b;
  getFullYear : Z -> Z;
  getMonth : Z -> Z;
  getDate : Z -> Z;
  getHours : Z -> Z;
  getMinutes : Z -> Z;
  getSeconds : Z -> Z
}.

(** A [Date] is its time value; [None] is an invalid date. *)
Definition max_time : Z := 8640000000000000.

Definition time_clip (t : Z) : option Z :=
  if Z.abs t <=? max_time then Some t else None.

Definition time_of_num (n : jsnum) : option Z :=
  match n with
  | Fin q =>
      if Z.abs (Qnum q) <=? max_time * Zpos (Qden q)
      then Some (Z.quot (Qnum q) (Zpos (Qden q)))
      else None
  | _ => None
  end.

Section Dates.

Variable engine : Engine.
Variable zone : Zone.

(** [new Date(v).getTime()] *)
Definition new_Date (v : option json) : option Z :=
  match v with
  | None => None
  | Some JNull => Some 0
  | Some (JBool b) => Some (if b then 1 else 0)
  | Some (JNum n) => time_of_num n
  | Some (JStr s) => DateParse engine s
  | Some w => DateParse engine (ToPrimitive engine w)
  end.

(** [z.coerce.date()] *)
Definition z_coerce_date : schema Z := fun v =>
  match new_Date v with
  | Some t => Ok t
  | None => fail invalid_date
  end.

(** [d.setHours(0, 0, 0, 0)] on a valid date. *)
Definition setHours0 (t : Z) : option Z :=
  time_clip (day_start zone (local_day zone t)).

(** [Number(v)] *)
Definition to_Number (v : option json) : jsnum :=
  match v with
  | None => NaN
  | Some JNull => Fin 0
  | Some (JBool b) => Fin (if b then 1 else 0)
  | Some (JNum n) => n
  | Some (JStr s) => StringToNumber engine s
  | Some w => StringToNumber engine (ToPrimitive engine w)
  end.

(** [z.coerce.number()] followed by checks. *)
Definition z_coerce_number (cs : list num_check) : schema jsnum := fun v =>
  match to_Number v with
  | NaN => fail invalid_type
  | n => run_checks n cs
  end.

(** [toMySqlDateTime]: the argument is falsy, a string or a [Date]. *)
Inductive datelike : Type :=
| DFalsy
| DString (s : jsstring)
| DDate (time : option Z).

Definition pad (n : Z) : jsstring :=
  if n <? 10 then lit "0" ++ js_of_Z n else js_of_Z n.

Definition toMySqlDateTime (d : datelike) : option jsstring :=
  let date :=
    match d with
    | DFalsy => None
    | DString [] => None
    | DString s => DateParse engine s
    | DDate t => t
    end in
  match date with
  | None => None
  | Some t =>
      let yyyy := getFullYear zone t in
      let mm := pad (getMonth zone t + 1) in
      let dd := pad (getDate zone t) in
      let hh := pad (getHours zone t) in
      let mi := pad (getMinutes zone t) in
      let ss := pad (getSeconds zone t) in
      Some (js_of_Z yyyy ++ lit "-" ++ mm ++ lit "-" ++ dd ++ lit " "
            ++ hh ++ lit ":" ++ mi ++ lit ":" ++ ss)
  end.

End Dates.

(* ================================================================== *)
(** ** schema.ts *)
(* ================================================================== *)

Inductive Status : Type := New | InProgress | Completed | Issue.

Inductive Priority : Type := P1 | P2 | P3.

Inductive Shipping : Type := Domestic | International.

Inductive RequestType : Type :=
| LotTransfer
| ShipmentRequest
| ScrapRequest
| SamplingRequest.

(** [statusEnum] *)
Definition statusEnum : schema Status :=
  z_enum [("New", New); ("In Progress", InProgress);
          ("Completed", Completed); ("Issue", Issue)]%string.

(** The parsed body of a status update. *)
Record RequestStatusUpdateInput : Type := {
  status : Status;
  executor : nullish jsstring;
  note : nullish jsstring
}.

Definition requestStatusUpdateSchema : schema RequestStatusUpdateInput :=
  z_object (fun o =>
    (Ok Build_RequestStatusUpdateInput
      <*> field "status" statusEnum o
      <*> field "executor" (optional_nullable (z_string_min 1)) o
      <*> field "note" (optional_nullable z_string) o)%zod).

(** Shared fields of every request type. *)
Record Base : Type := {
  username : jsstring;
  taskPriority : Priority;
  dateOfRequest : Z;
  facilityLocation : nullish jsstring;
  receiverName : nullish jsstring;
  qawrNumber : nullish jsstring;
  jiraLink : nullish jsstring;
  lotLocation : nullish jsstring;
  attentionTo : nullish jsstring;
  returnable : nullish bool;
  domesticInternational : nullish Shipping;
  shippingAddress : nullish jsstring
}.

Module Lot.
Record t : Type := make {
  lotId : jsstring;
  unitsQuantity : nullish jsnum;
  serialNumber : nullish jsstring
}.
End Lot.

Module SamplingLot.
Record t : Type := make {
  lotId : jsstring;
  unitQuantity : jsnum;
  reliabilityTest : jsstring;
  testCondition : jsstring;
  attributeToTag : jsstring
}.
End SamplingLot.

(** [RequestInput]: the three lot-carrying request types share a shape. *)
Inductive RequestInput : Type :=
| LotInput (requestType : RequestType) (base : Base) (lots : list Lot.t)
| SamplingInput (base : Base) (samplingType : jsstring) (qrDate : Z)
    (projectName : jsstring) (samplingLots : list SamplingLot.t).

Definition requestType (d : RequestInput) : RequestType :=
  match d with
  | LotInput k _ _ => k
  | SamplingInput _ _ _ _ _ => SamplingRequest
  end.

Definition base_of (d : RequestInput) : Base :=
  match d with
  | LotInput _ b _ => b
  | SamplingInput b _ _ _ _ => b
  end.

Definition requestType_name (k : RequestType) : string :=
  match k with
  | LotTransfer => "Lot Transfer"
  | ShipmentRequest => "Shipment Request"
  | ScrapRequest => "Scrap Request"
  | SamplingRequest => "Sampling Request"
  end.

Section Schema.

Variable engine : Engine.
Variable zone : Zone.
(** The instant [new Date()] returns while the payload is validated. *)
Variable now : Z.

Definition baseRequest (o : list (jsstring * json)) : result Base :=
  (Ok Build_Base
    <*> field "username" (z_string_min 1) o
    <*> field "taskPriority"
          (z_enum [("P1", P1); ("P2", P2); ("P3", P3)]%string) o
    <*> field "dateOfRequest" (z_coerce_date engine) o
    <*> field "facilityLocation" (optional_nullable z_string) o
    <*> field "receiverName" (optional_nullable z_string) o
    <*> field "qawrNumber" (optional_nullable z_string) o
    <*> field "jiraLink" (optional_nullable z_string) o
    <*> field "lotLocation" (optional_nullable z_string) o
    <*> field "attentionTo" (optional_nullable z_string) o
    <*> field "returnable" (optional_nullable z_boolean) o
    <*> field "domesticInternational"
          (optional_nullable
             (z_enum [("Domestic", Domestic);
                      ("International", International)]%string)) o
    <*> field "shippingAddress" (optional_nullable z_string) o)%zod.

Definition lotSchema : schema Lot.t :=
  z_object (fun o =>
    (Ok Lot.make
      <*> field "lotId" (z_string_min 1) o
      <*> field "unitsQuantity"
            (optional_nullable (z_number [int; nonnegative])) o
      <*> field "serialNumber" (optional_nullable z_string) o)%zod).

Definition samplingLotSchema : schema SamplingLot.t :=
  z_object (fun o =>
    (Ok SamplingLot.make
      <*> field "lotId" (z_string_min 1) o
      <*> field "unitQuantity" (z_number [int; positive]) o
      <*> field "reliabilityTest" (z_string_min 1) o
      <*> field "testCondition" (z_string_min 1) o
      <*> field "attributeToTag" (z_string_min 1) o)%zod).

(** [baseRequest.extend({ requestType: z.literal(k), lots: ... })] *)
Definition lotRequest (k : RequestType) : schema RequestInput :=
  z_object (fun o =>
    (Ok (fun b k' l => LotInput k' b l)
      <*> baseRequest o
      <*> field "requestType" (z_literal (requestType_name k) k) o
      <*> field "lots" (z_array_min lotSchema 1) o)%zod).

Definition lotTransferSchema := lotRequest LotTransfer.
Definition shipmentRequestSchema := lotRequest ShipmentRequest.
Definition scrapRequestSchema := lotRequest ScrapRequest.

(** The refinement of [qrDate]: both dates are moved to their local
    midnight and compared. *)
Definition qr_not_past (d : Z) : bool :=
  match setHours0 zone now, setHours0 zone d with
  | Some t, Some q => q >=? t
  | _, _ => false
  end.

Definition samplingRequestSchema : schema RequestInput :=
  z_object (fun o =>
    (Ok (fun b (_ : RequestType) st qr pn sl => SamplingInput b st qr pn sl)
      <*> baseRequest o
      <*> field "requestType"
            (z_literal (requestType_name SamplingRequest) SamplingRequest) o
      <*> field "samplingType" (z_string_min 1) o
      <*> field "qrDate"
            (refine (z_coerce_date engine) qr_not_past
                    "QR date cannot be in the past") o
      <*> field "projectName" (z_string_min 1) o
      <*> field "samplingLots" (z_array_min samplingLotSchema 1) o)%zod).

Definition requestSchema : schema RequestInput :=
  z_discriminatedUnion "requestType"
    [("Lot Transfer", lotTransferSchema);
     ("Shipment Request", shipmentRequestSchema);
     ("Scrap Request", scrapRequestSchema);
     ("Sampling Request", samplingRequestSchema)]%string.

End Schema.

(** The flat schema of [src/schema.ts]: its lot coerces the quantity
    with [Number]. *)
Module Legacy.

Record Lot : Type := make {
  lotId : jsstring;
  unitsQuantity : jsnum;
  serialNumber : nullish jsstring
}.

Definition lotSchema (engine : Engine) : schema Lot :=
  z_object (fun o =>
    (Ok make
      <*> field "lotId" (z_string_min 1) o
      <*> field "unitsQuantity"
            (z_coerce_number engine [int; nonnegative]) o
      <*> field "serialNumber" (optional_nullable z_string) o)%zod).

End Legacy.

(* ================================================================== *)
(** ** The relational store *)
(* ================================================================== *)

(** The columns of [requests] the create handler binds a parameter to. *)
Record Submitted : Type := {
  c_username : jsstring;
  request_type : RequestType;
  task_priority : Priority;
  date_of_request : option jsstring;
  facility_location : option jsstring;
  receiver_name : option jsstring;
  qawr_number : option jsstring;
  jira_link : option jsstring;
  lot_location : option jsstring;
  attention_to : option jsstring;
  c_returnable : option bool;
  domestic_international : option Shipping;
  shipping_address : option jsstring;
  sampling_type : option jsstring;
  qr_date : option jsstring;
  project_name : option jsstring
}.

Module Requests.
Record row : Type := make {
  id : Z;
  submitted : Submitted;
  created_at : option jsstring;
  updated_at : option jsstring;
  status : option Status;
  executor : option jsstring;
  issue_note : option jsstring;
  started_at : option jsstring;
  completed_at : option jsstring
}.
End Requests.

Module Lots.
Record row : Type := make {
  request_id : Z;
  lot_id : jsstring;
  units_quantity : option jsnum;
  serial_number : option jsstring
}.
End Lots.

Module SamplingLots.
Record row : Type := make {
  request_id : Z;
  lot_id : jsstring;
  unit_quantity : jsnum;
  reliability_test : jsstring;
  test_condition : jsstring;
  attribute_to_tag : jsstring
}.
End SamplingLots.

Module History.
Record row : Type := make {
  request_id : Z;
  old_status : option Status;
  new_status : Status;
  executor : option jsstring;
  note : option jsstring
}.
End History.

Record Tables : Type := {
  requests : list Requests.row;
  lots : list Lots.row;
  sampling_lots : list SamplingLots.row;
  request_status_history : list History.row
}.

(** What every reader sees, and the counter of [requests.id], which a
    rollback does not rewind. *)
Record Store : Type := {
  committed : Tables;
  auto_increment : Z
}.

(** Modelled from the spec: the table definition of [requests] is not
    among the sources. A new row gets the columns the [INSERT] does not
    name from it: the status is the initial state [New], the executor,
    the issue note and both transition timestamps are null. *)
Definition new_row (id : Z) (s : Submitted) (db_now : jsstring)
  : Requests.row :=
  Requests.make id s (Some db_now) (Some db_now) (Some New) None None None
    None.

(** The store calls a handler awaits. Each can be refused, [rollback]
    included, and then throws. [conn.release()] is not awaited: it hands
    the connection back to the pool as it is, with its transaction when
    one is still open. *)
Inductive call : Type :=
| getConnection
| beginTransaction
| insert_requests
| insert_lots
| insert_sampling_lots
| select_status
| update_requests
| insert_history
| commit
| rollback.

Inductive event : Type :=
| Done (c : call)
| Refused (c : call)
| Released.

(** A handler at work: the store, the writes of the open transaction of
    its connection, every store event so far with the tables a reader
    could see right after it (latest first), and the error console. *)
Record Session : Type := {
  store : Store;
  pending : option Tables;
  journal : list (event * Tables);
  console : list jsstring
}.

(** A handler starts with no store event behind it and, on the
    connection the pool will give it, no transaction open. *)
Definition open (s : Store) : Session :=
  {| store := s; pending := None; journal := []; console := [] |}.

(** The tables the connection itself reads. *)
Definition view (s : Session) : Tables :=
  match pending s with
  | Some w => w
  | None => committed (store s)
  end.

Definition record (e : event) (s : Session) : Session :=
  {| store := store s; pending := pending s;
     journal := (e, committed (store s)) :: journal s;
     console := console s |}.

(** A statement writes to the open transaction, or straight to the store
    when none is open. *)
Definition write (f : Tables -> Tables) (s : Session) : Session :=
  match pending s with
  | Some w =>
      {| store := store s; pending := Some (f w);
         journal := journal s; console := console s |}
  | None =>
      {| store := {| committed := f (committed (store s));
                     auto_increment := auto_increment (store s) |};
         pending := None; journal := journal s; console := console s |}
  end.

Definition bump (s : Session) : Session :=
  {| store := {| committed := committed (store s);
                 auto_increment := auto_increment (store s) + 1 |};
     pending := pending s; journal := journal s; console := console s |}.

(** Starting a transaction commits one that is still open. *)
Definition do_begin (s : Session) : Session :=
  {| store := {| committed := view s;
                 auto_increment := auto_increment (store s) |};
     pending := Some (view s); journal := journal s; console := console s |}.

Definition do_commit (s : Session) : Session :=
  {| store := {| committed := view s;
                 auto_increment := auto_increment (store s) |};
     pending := None; journal := journal s; console := console s |}.

(** A rollback that completes discards the writes of the open
    transaction. *)
Definition do_rollback (s : Session) : Session :=
  {| store := store s; pending := None; journal := journal s;
     console := console s |}.

Definition do_release (s : Session) : Session := record Released s.

Definition console_error (e : jsstring) (s : Session) : Session :=
  {| store := store s; pending := pending s; journal := journal s;
     console := e :: console s |}.

(** *** Awaited code: a state and exception monad *)

Definition M (A : Type) : Type := Session -> (jsstring + A) * Session.

Definition ret {A} (a : A) : M A := fun s => (inr a, s).

Definition bind {A B} (m : M A) (k : A -> M B) : M B := fun s =>
  match m s with
  | (inr a, s') => k a s'
  | (inl e, s') => (inl e, s')
  end.

Declare Scope await_scope.
Delimit Scope await_scope with await.
Notation "x <- m ;; k" := (bind m (fun x => k))
  (at level 61, m at next level, right associativity) : await_scope.
Notation "m ;; k" := (bind m (fun _ => k))
  (at level 61, right associativity) : await_scope.

Definition effect (f : Session -> Session) : M unit :=
  fun s => (inr tt, f s).

(** [try { body } catch (err) { handler err } finally { cleanup }] *)
Definition try_catch_finally {A} (body : M A) (handler : jsstring -> M A)
  (cleanup : Session -> Session) : M A := fun s =>
  match body s with
  | (inr a, s') => (inr a, cleanup s')
  | (inl e, s') =>
      match handler e s' with
      | (r, s'') => (r, cleanup s'')
      end
  end.

(* ================================================================== *)
(** ** server.ts *)
(* ================================================================== *)

Inductive body : Type :=
| body_id (id : Z)
| body_ok
| body_message (message : string)
| body_invalid (message : string) (issues : list issue).

Record response : Type := respond { http_status : Z; sent : body }.

(** One [SET] item of the dynamic [UPDATE] with its bound value. *)
Inductive assignment : Type :=
| set_status (s : Status)
| set_updated_at (t : option jsstring)
| set_executor (e : option jsstring)
| coalesce_started_at (t : option jsstring)
| coalesce_completed_at (t : option jsstring)
| set_issue_note (n : option jsstring).

(** [COALESCE(a, b)] *)
Definition COALESCE {A} (a b : option A) : option A :=
  match a with Some _ => a | None => b end.

Definition assign (r : Requests.row) (a : assignment) : Requests.row :=
  let '(Requests.make id sub created updated st ex note started completed)
    := r in
  match a with
  | set_status s =>
      Requests.make id sub created updated (Some s) ex note started completed
  | set_updated_at t =>
      Requests.make id sub created t st ex note started completed
  | set_executor e =>
      Requests.make id sub created updated st e note started completed
  | coalesce_started_at t =>
      Requests.make id sub created updated st ex note (COALESCE started t)
        completed
  | coalesce_completed_at t =>
      Requests.make id sub created updated st ex note started
        (COALESCE completed t)
  | set_issue_note n =>
      Requests.make id sub created updated st ex n started completed
  end.

(** The row key is an integer column: a number selects the rows whose key
    equals it. *)
Definition key_is (q : Q) (id : Z) : bool :=
  Qnum q =? id * Zpos (Qden q).

Definition status_eqb (a b : Status) : bool :=
  match a, b with
  | New, New | InProgress, InProgress | Completed, Completed
  | Issue, Issue => true
  | _, _ => false
  end.

(** The [fields] and [values] arrays of the status handler. *)
Definition update_fields (u : RequestStatusUpdateInput)
  (nowSQL : option jsstring) : list assignment :=
  [set_status (status u); set_updated_at nowSQL]
  ++ (match executor u with
      | Undef => []
      | e => [set_executor (or_null e)]
      end)
  ++ (if status_eqb (status u) InProgress
      then [coalesce_started_at nowSQL] else [])
  ++ (if status_eqb (status u) Completed
      then [coalesce_completed_at nowSQL] else [])
  ++ (if status_eqb (status u) Issue
      then [set_issue_note (or_null (note u))] else []).

(** [UPDATE requests SET ... WHERE id = ?] on the table. *)
Definition update_where (q : Q) (fields : list assignment)
  (rows : list Requests.row) : list Requests.row :=
  List.map (fun r =>
    if key_is q (Requests.id r) then fold_left assign fields r else r) rows.

Definition with_requests (f : list Requests.row -> list Requests.row)
  (t : Tables) : Tables :=
  {| requests := f (requests t); lots := lots t;
     sampling_lots := sampling_lots t;
     request_status_history := request_status_history t |}.

Definition add_lots (rows : list Lots.row) (t : Tables) : Tables :=
  {| requests := requests t; lots := lots t ++ rows;
     sampling_lots := sampling_lots t;
     request_status_history := request_status_history t |}.

Definition add_sampling_lots (rows : list SamplingLots.row) (t : Tables)
  : Tables :=
  {| requests := requests t; lots := lots t;
     sampling_lots := sampling_lots t ++ rows;
     request_status_history := request_status_history t |}.

Definition add_history (h : History.row) (t : Tables) : Tables :=
  {| requests := requests t; lots := lots t;
     sampling_lots := sampling_lots t;
     request_status_history := request_status_history t ++ [h] |}.

(** The parameters of the [INSERT INTO requests]. *)
Definition submitted_of (engine : Engine) (zone : Zone) (data : RequestInput)
  : Submitted :=
  let b := base_of data in
  {| c_username := username b;
     request_type := requestType data;
     task_priority := taskPriority b;
     date_of_request :=
       toMySqlDateTime engine zone (DDate (Some (dateOfRequest b)));
     facility_location := or_null (facilityLocation b);
     receiver_name := or_null (receiverName b);
     qawr_number := or_null (qawrNumber b);
     jira_link := or_null (jiraLink b);
     lot_location := or_null (lotLocation b);
     attention_to := or_null (attentionTo b);
     c_returnable := or_null (returnable b);
     domestic_international := or_null (domesticInternational b);
     shipping_address := or_null (shippingAddress b);
     sampling_type :=
       match data with
       | SamplingInput _ st _ _ _ => Some st
       | _ => None
       end;
     qr_date :=
       match data with
       | SamplingInput _ _ qr _ _ =>
           toMySqlDateTime engine zone (DDate (Some qr))
       | _ => None
       end;
     project_name :=
       match data with
       | SamplingInput _ _ _ pn _ => Some pn
       | _ => None
       end |}.

(** The rows of the two bulk inserts. *)
Definition lot_rows (requestId : Z) (ls : list Lot.t) : list Lots.row :=
  List.map (fun l =>
    Lots.make requestId (trim (Lot.lotId l))
      (or_null (Lot.unitsQuantity l)) (or_null (Lot.serialNumber l))) ls.

Definition sampling_lot_rows (requestId : Z) (ls : list SamplingLot.t)
  : list SamplingLots.row :=
  List.map (fun s =>
    SamplingLots.make requestId (trim (SamplingLot.lotId s))
      (SamplingLot.unitQuantity s)
      (trim (SamplingLot.reliabilityTest s))
      (trim (SamplingLot.testCondition s))
      (trim (SamplingLot.attributeToTag s))) ls.

Section Server.

Variable engine : Engine.
Variable zone : Zone.
(** The clock of the server process, the value of [NOW()] in the store
    and the store calls that are refused, each with its error. *)
Variable now : Z.
Variable db_now : jsstring.
Variable faults : call -> option jsstring.

(** An awaited store call: it throws the store's error when refused. A
    call that is refused is refused each time the handler makes it, the
    two rollbacks of a status update for an unknown request included. *)
Definition await {A} (c : call) (run : Session -> A * Session) : M A :=
  fun s =>
    match faults c with
    | Some e => (inl e, record (Refused c) s)
    | None => let (a, s') := run s in (inr a, record (Done c) s')
    end.

Definition pool_getConnection : M unit :=
  await getConnection (fun s => (tt, s)).

Definition conn_beginTransaction : M unit :=
  await beginTransaction (fun s => (tt, do_begin s)).

Definition conn_commit : M unit :=
  await commit (fun s => (tt, do_commit s)).

Definition conn_rollback : M unit :=
  await rollback (fun s => (tt, do_rollback s)).

(** [INSERT INTO requests (...) VALUES (...)]; the result is [insertId]. *)
Definition INSERT_requests (p : Submitted) : M Z :=
  await insert_requests (fun s =>
    let id := auto_increment (store s) in
    (id, write (with_requests (fun rs => rs ++ [new_row id p db_now]))
           (bump s))).

Definition INSERT_lots (rows : list Lots.row) : M unit :=
  await insert_lots (fun s => (tt, write (add_lots rows) s)).

Definition INSERT_sampling_lots (rows : list SamplingLots.row) : M unit :=
  await insert_sampling_lots (fun s =>
    (tt, write (add_sampling_lots rows) s)).

(** [SELECT status FROM requests WHERE id = ?] *)
Definition SELECT_status (q : Q) : M (list (option Status)) :=
  await select_status (fun s =>
    (List.map Requests.status
       (List.filter (fun r => key_is q (Requests.id r)) (requests (view s))),
     s)).

Definition UPDATE_requests (fields : list assignment) (q : Q) : M unit :=
  await update_requests (fun s =>
    (tt, write (with_requests (update_where q fields)) s)).

Definition INSERT_history (h : History.row) : M unit :=
  await insert_history (fun s => (tt, write (add_history h) s)).

(** ["lots" in data], with the array then found *)
Definition data_lots (data : RequestInput) : option (list Lot.t) :=
  match data with
  | LotInput _ _ ls => Some ls
  | SamplingInput _ _ _ _ _ => None
  end.

(** [app.post("/api/requests", ...)] *)
Definition post_requests (req_body : json) : M response :=
  match safeParse (requestSchema engine zone now) req_body with
  | Err issues => ret (respond 400 (body_invalid "Invalid payload" issues))
  | Ok data =>
      (pool_getConnection ;;
       try_catch_finally
         (conn_beginTransaction ;;
          requestId <- INSERT_requests (submitted_of engine zone data) ;;
          match data_lots data with
          | Some (l :: ls) => INSERT_lots (lot_rows requestId (l :: ls))
          | _ => ret tt
          end ;;
          match data with
          | SamplingInput _ _ _ _ (l :: ls) =>
              INSERT_sampling_lots (sampling_lot_rows requestId (l :: ls))
          | _ => ret tt
          end ;;
          conn_commit ;;
          ret (respond 200 (body_id requestId)))
         (fun err =>
            conn_rollback ;;
            effect (console_error err) ;;
            ret (respond 500 (body_message "Failed to save request")))
         do_release)%await
  end.

(** [app.patch("/api/requests/:id/status", ...)]; [id] is
    [Number(req.params.id)]. *)
Definition patch_status (id : jsnum) (req_body : json) : M response :=
  match id with
  | Fin q =>
      match safeParse requestStatusUpdateSchema req_body with
      | Err issues =>
          ret (respond 400 (body_invalid "Invalid payload" issues))
      | Ok u =>
          (pool_getConnection ;;
           try_catch_finally
             (conn_beginTransaction ;;
              rows <- SELECT_status q ;;
              match rows with
              | [] =>
                  conn_rollback ;;
                  ret (respond 404 (body_message "Request not found"))
              | oldStatus :: _ =>
                  let nowSQL :=
                    toMySqlDateTime engine zone (DDate (Some now)) in
                  UPDATE_requests (update_fields u nowSQL) q ;;
                  INSERT_history
                    (History.make (q_to_Z q) oldStatus (status u)
                       (or_null (executor u)) (or_null (note u))) ;;
                  conn_commit ;;
                  ret (respond 200 body_ok)
              end)
             (fun e =>
                conn_rollback ;;
                effect (console_error e) ;;
                ret (respond 500 (body_message "Failed to update status")))
             do_release)%await
      end
  | _ => ret (respond 400 (body_message "Invalid id"))
  end.

End Server.

(** What the caller of a handler observes: the response sent, or an
    error that left the handler uncaught. *)
Inductive outcome : Type :=
| Sent (r : response)
| Uncaught (error : jsstring).

Definition run (m : M response) (s : Store) : outcome * Session :=
  match m (open s) with
  | (inr r, s') => (Sent r, s')
  | (inl e, s') => (Uncaught e, s')
  end.

(* ================================================================== *)
(** ** A concrete zone and engine *)
(* ================================================================== *)

(** Local time at a fixed offset from UTC, with the proleptic Gregorian
    calendar. *)
Definition ms_per_day : Z := 86400000.

Definition civil_from_days (z : Z) : Z * Z * Z :=
  let z := z + 719468 in
  let era := z / 146097 in
  let doe := z mod 146097 in
  let yoe := (doe - doe / 1460 + doe / 36524 - doe / 146096) / 365 in
  let doy := doe - (365 * yoe + yoe / 4 - yoe / 100) in
  let mp := (5 * doy + 2) / 153 in
  let d := doy - (153 * mp + 2) / 5 + 1 in
  let m := if mp <? 10 then mp + 3 else mp - 9 in
  let y := yoe + era * 400 in
  (if m <=? 2 then y + 1 else y, m, d).

Definition days_from_civil (y m d : Z) : Z :=
  let y := if m <=? 2 then y - 1 else y in
  let era := y / 400 in
  let yoe := y mod 400 in
  let doy := (153 * (if 2 <? m then m - 3 else m + 9) + 2) / 5 + d - 1 in
  let doe := yoe * 365 + yoe / 4 - yoe / 100 + doy in
  era * 146097 + doe - 719468.

Definition fixed_zone (offset : Z) : Zone :=
  let day t := (t + offset) / ms_per_day in
  let of_day t := (t + offset) mod ms_per_day in
  {| local_day := day;
     day_start := fun d => d * ms_per_day - offset;
     day_start_mono := fun a b H =>
       proj1 (Z.sub_lt_mono_r _ _ offset)
         (Zmult_lt_compat_r a b ms_per_day eq_refl H);
     getFullYear := fun t => fst (fst (civil_from_days (day t)));
     getMonth := fun t => snd (fst (civil_from_days (day t))) - 1;
     getDate := fun t => snd (civil_from_days (day t));
     getHours := fun t => of_day t / 3600000;
     getMinutes := fun t => (of_day t / 60000) mod 60;
     getSeconds := fun t => (of_day t / 1000) mod 60 |}.

Definition utc : Zone := fixed_zone 0.

(** An engine for the worked examples.  Its [Date.parse] reads the two
    ISO forms [YYYY-MM-DD] and [YYYY-MM-DDTHH:mm:ss.sssZ]; its numeric
    conversion reads an optionally signed run of decimal digits between
    white space; arrays and objects convert as plain objects do. *)
Fixpoint digits_from (acc : Z) (s : jsstring) : option Z :=
  match s with
  | [] => Some acc
  | c :: s' =>
      if (N.leb 48 c && N.leb c 57)%bool
      then digits_from (10 * acc + (Z.of_N c - 48)) s'
      else None
  end.

Definition digits (s : jsstring) : option Z :=
  match s with
  | [] => None
  | _ => digits_from 0 s
  end.

Definition slice (from len : nat) (s : jsstring) : jsstring :=
  firstn len (skipn from s).

Definition iso_date (s : jsstring) : option Z :=
  match digits (slice 0 4 s), digits (slice 5 2 s), digits (slice 8 2 s) with
  | Some y, Some m, Some d =>
      if (js_eqb (slice 4 1 s) (lit "-") && js_eqb (slice 7 1 s) (lit "-")
          && (1 <=? m) && (m <=? 12) && (1 <=? d) && (d <=? 31))%bool
      then Some (days_from_civil y m d * ms_per_day)
      else None
  | _, _, _ => None
  end.

Definition iso_time (s : jsstring) : option Z :=
  match digits (slice 11 2 s), digits (slice 14 2 s), digits (slice 17 2 s),
        digits (slice 20 3 s) with
  | Some h, Some mi, Some sec, Some ms =>
      if (js_eqb (slice 10 1 s) (lit "T") && js_eqb (slice 13 1 s) (lit ":")
          && js_eqb (slice 16 1 s) (lit ":")
          && js_eqb (slice 19 1 s) (lit ".")
          && js_eqb (slice 23 1 s) (lit "Z")
          && (h <? 24) && (mi <? 60) && (sec <? 60))%bool
      then Some (h * 3600000 + mi * 60000 + sec * 1000 + ms)
      else None
  | _, _, _, _ => None
  end.

Definition iso_parse (s : jsstring) : option Z :=
  match List.length s, iso_date s with
  | 10%nat, Some d => Some d
  | 24%nat, Some d =>
      match iso_time s with
      | Some t => Some (d + t)
      | None => None
      end
  | _, _ => None
  end.

Definition decimal_number (s : jsstring) : jsnum :=
  match trim s with
  | [] => Fin 0
  | 45%N :: r =>
      match digits r with
      | Some n => Fin (inject_Z (- n))
      | None => NaN
      end
  | 43%N :: r =>
      match digits r with
      | Some n => Fin (inject_Z n)
      | None => NaN
      end
  | r =>
      match digits r with
      | Some n => Fin (inject_Z n)
      | None => NaN
      end
  end.

Definition example_engine : Engine :=
  {| DateParse := iso_parse;
     StringToNumber := decimal_number;
     ToPrimitive := fun _ => lit "[object Object]" |}.

(* ================================================================== *)
(** ** What a reader of the store sees *)
(* ================================================================== *)

(** The rows of one request: its parent rows and its line items in both
    child tables. *)
Definition rows_of (t : Tables) (rid : Z)
  : list Requests.row * list Lots.row * list SamplingLots.row :=
  (List.filter (fun r => Requests.id r =? rid) (requests t),
   List.filter (fun l => Lots.request_id l =? rid) (lots t),
   List.filter (fun l => SamplingLots.request_id l =? rid) (sampling_lots t)).


(** The tables once the writes of a create request are committed. *)
Definition created (engine : Engine) (zone : Zone) (db_now : jsstring)
  (data : RequestInput) (rid : Z) (t : Tables) : Tables :=
  let t' :=
    with_requests
      (fun rs => rs ++ [new_row rid (submitted_of engine zone data) db_now])
      t in
  match data with
  | LotInput _ _ ls => add_lots (lot_rows rid ls) t'
  | SamplingInput _ _ _ _ sl => add_sampling_lots (sampling_lot_rows rid sl) t'
  end.

(** The store calls of the transactional unit of a create request. *)
Definition create_unit (data : RequestInput) : list call :=
  [beginTransaction; insert_requests]
  ++ match data with
     | LotInput _ _ _ => [insert_lots]
     | SamplingInput _ _ _ _ _ => [insert_sampling_lots]
     end
  ++ [commit].

Definition refused (faults : call -> option jsstring) (c : call) : bool :=
  match faults c with Some _ => true | None => false end.

(** Whether a request with the given key is stored. *)
Definition stored (id : jsnum) (t : Tables) : bool :=
  match id with
  | Fin q => existsb (fun r => key_is q (Requests.id r)) (requests t)
  | _ => false
  end.

(** The first row a key selects. *)
Definition find_request (rid : Z) (t : Tables) : option Requests.row :=
  List.find (fun r => Requests.id r =? rid) (requests t).

(** The status the [SELECT] of an update reads: that of the first row the
    key selects. *)
Definition old_status (q : Q) (t : Tables) : option Status :=
  match List.filter (fun r => key_is q (Requests.id r)) (requests t) with
  | r0 :: _ => Requests.status r0
  | [] => None
  end.

(** The tables once the writes of a status update are committed. *)
Definition updated (q : Q) (u : RequestStatusUpdateInput)
  (nowSQL : option jsstring) (t : Tables) : Tables :=
  add_history
    (History.make (q_to_Z q) (old_status q t) (status u)
       (or_null (executor u)) (or_null (note u)))
    (with_requests (update_where q (update_fields u nowSQL)) t).

(** One call of the status endpoint: the clock, the refused store calls,
    the [:id] parameter as a number and the body. *)
Record patch_call : Type := {
  at_time : Z;
  refusing : call -> option jsstring;
  target : jsnum;
  payload : json
}.

Definition patch_step (engine : Engine) (zone : Zone) (s : Store)
  (c : patch_call) : Store :=
  store (snd (run (patch_status engine zone (at_time c) (refusing c)
                     (target c) (payload c)) s)).

(** What the caller of one call gets back. *)
Definition answer (engine : Engine) (zone : Zone) (s : Store)
  (c : patch_call) : outcome :=
  fst (run (patch_status engine zone (at_time c) (refusing c) (target c)
              (payload c)) s).

Definition patch_all (engine : Engine) (zone : Zone)
  (calls : list patch_call) (s : Store) : Store :=
  fold_left (patch_step engine zone) calls s.

(** The store calls of a status update, in the order they are awaited. *)
Definition update_calls : list call :=
  [getConnection; beginTransaction; select_status; update_requests;
   insert_history; commit].

(** The target row after a status update, column by column. *)
Definition row_after (u : RequestStatusUpdateInput)
  (nowSQL : option jsstring) (r : Requests.row) : Requests.row :=
  Requests.make
    (Requests.id r)
    (Requests.submitted r)
    (Requests.created_at r)
    nowSQL
    (Some (status u))
    (match executor u with
     | Undef => Requests.executor r
     | e => or_null e
     end)
    (match status u with
     | Issue => or_null (note u)
     | _ => Requests.issue_note r
     end)
    (match status u with
     | InProgress => COALESCE (Requests.started_at r) nowSQL
     | _ => Requests.started_at r
     end)
    (match status u with
     | Completed => COALESCE (Requests.completed_at r) nowSQL
     | _ => Requests.completed_at r
     end).

(** The parsed body of a call that reaches the commit for request [rid]:
    the key selects it, the body is valid, no store call is refused. *)
Definition moves (rid : Z) (c : patch_call)
  : option RequestStatusUpdateInput :=
  match target c, safeParse requestStatusUpdateSchema (payload c) with
  | Fin q, Ok u =>
      if key_is q rid && negb (existsb (refused (refusing c)) update_calls)
      then Some u else None
  | _, _ => None
  end.

(** A call that moves request [rid] into status [st] and goes through:
    the body is valid and no store call is refused. *)
Definition enters (st : Status) (rid : Z) (c : patch_call) : bool :=
  match target c, safeParse requestStatusUpdateSchema (payload c) with
  | Fin q, Ok u =>
      key_is q rid && status_eqb (status u) st
      && negb (existsb (refused (refusing c)) update_calls)
  | _, _ => false
  end.

(** The timestamp of the first call that enters a status. *)
Definition first_entry (engine : Engine) (zone : Zone) (st : Status)
  (rid : Z) (calls : list patch_call) : option jsstring :=
  match List.find (enters st rid) calls with
  | Some c => toMySqlDateTime engine zone (DDate (Some (at_time c)))
  | None => None
  end.

Definition issues_of {A} (r : result A) : list issue :=
  match r with Ok _ => [] | Err e => e end.

(** The column value of a descriptive field of the payload. *)
Definition text_column (v : option json) : option jsstring :=
  match v with
  | Some (JStr s) => Some s
  | _ => None
  end.

(** How an optional descriptive field of the payload is read. *)
Inductive reads_as : option json -> nullish jsstring -> Prop :=
| reads_absent : reads_as None Undef
| reads_null : reads_as (Some JNull) Null
| reads_string (s : jsstring) : reads_as (Some (JStr s)) (Val s).

(* ================================================================== *)
(** ** Worked inputs *)
(* ================================================================== *)

Definition jstr (s : string) : json := JStr (lit s).

Definition obj (fields : list (string * json)) : json :=
  JObj (List.map (fun kv => (lit (fst kv), snd kv)) fields).

Definition no_tables : Tables :=
  {| requests := []; lots := []; sampling_lots := [];
     request_status_history := [] |}.

Definition empty_store : Store :=
  {| committed := no_tables; auto_increment := 1 |}.

Definition no_faults : call -> option jsstring := fun _ => None.

(** The store refuses the bulk insert of the lots. *)
Definition lots_refused : call -> option jsstring := fun c =>
  match c with
  | insert_lots => Some (lit "ER_DATA_TOO_LONG: Data too long for column")
  | _ => None
  end.

(** The store refuses the bulk insert of the lots and then the rollback
    of the catch block. *)
Definition lots_and_rollback_refused : call -> option jsstring := fun c =>
  match c with
  | insert_lots => Some (lit "ER_DATA_TOO_LONG: Data too long for column")
  | rollback =>
      Some (lit "ER_QUERY_INTERRUPTED: Query execution was interrupted")
  | _ => None
  end.

(** The store refuses every rollback. *)
Definition rollback_refused : call -> option jsstring := fun c =>
  match c with
  | rollback =>
      Some (lit "ER_QUERY_INTERRUPTED: Query execution was interrupted")
  | _ => None
  end.

(** A Lot Transfer request of one lot, as the form posts it. *)
Definition lot_transfer : json :=
  obj [("username", jstr "alice");
       ("requestType", jstr "Lot Transfer");
       ("taskPriority", jstr "P1");
       ("dateOfRequest", jstr "2024-05-06T07:08:09.000Z");
       ("lots", JArr [obj [("lotId", jstr "L1");
                           ("unitsQuantity", JNum (Fin 5))]])]%string.

(** The Lot Transfer request with every descriptive text field present
    and empty. *)
Definition blank_descriptions : json :=
  obj [("username", jstr "alice");
       ("requestType", jstr "Lot Transfer");
       ("taskPriority", jstr "P1");
       ("dateOfRequest", jstr "2024-05-06T07:08:09.000Z");
       ("facilityLocation", jstr "");
       ("receiverName", jstr "");
       ("qawrNumber", jstr "");
       ("jiraLink", jstr "");
       ("lotLocation", jstr "");
       ("attentionTo", jstr "");
       ("shippingAddress", jstr "");
       ("lots", JArr [obj [("lotId", jstr "L1");
                           ("unitsQuantity", JNum (Fin 5))]])]%string.

(** What the validator makes of it. *)
Definition blank_data : RequestInput :=
  LotInput LotTransfer
    (Build_Base (lit "alice") P1 1714979289000 (Val []) (Val []) (Val [])
       (Val []) (Val []) (Val []) Undef Undef (Val []))
    [Lot.make (lit "L1") (Val (Fin 5)) Undef].

(** The Lot Transfer request with the quantity sent as the string "5". *)
Definition quantity_as_string : json :=
  obj [("username", jstr "alice");
       ("requestType", jstr "Lot Transfer");
       ("taskPriority", jstr "P1");
       ("dateOfRequest", jstr "2024-05-06T07:08:09.000Z");
       ("lots", JArr [obj [("lotId", jstr "L1");
                           ("unitsQuantity", jstr "5")]])]%string.

(** The Lot Transfer request with a lot identifier of two spaces. *)
Definition blank_lot_id : json :=
  obj [("username", jstr "alice");
       ("requestType", jstr "Lot Transfer");
       ("taskPriority", jstr "P1");
       ("dateOfRequest", jstr "2024-05-06T07:08:09.000Z");
       ("lots", JArr [obj [("lotId", jstr "  ");
                           ("unitsQuantity", JNum (Fin 5))]])]%string.

(** A Sampling request of one lot released at the given date. *)
Definition sampling_released (qr : string) : json :=
  obj [("username", jstr "bob");
       ("requestType", jstr "Sampling Request");
       ("taskPriority", jstr "P2");
       ("dateOfRequest", jstr "2024-05-06T07:08:09.000Z");
       ("samplingType", jstr "Reliability");
       ("qrDate", jstr qr);
       ("projectName", jstr "Falcon");
       ("samplingLots",
        JArr [obj [("lotId", jstr "S1");
                   ("unitQuantity", JNum (Fin 3));
                   ("reliabilityTest", jstr "HTOL");
                   ("testCondition", jstr "125C");
                   ("attributeToTag", jstr "A")]])]%string.

(** 2024-05-06 12:00:00 UTC, and the store's rendering of that instant. *)
Definition noon : Z := 1714996800000.
Definition noon_sql : jsstring := lit "2024-05-06 12:00:00".

(** The store after the Lot Transfer request was created: request 1 in
    status [New] with its lot. *)
Definition one_request : Store :=
  store (snd (run (post_requests example_engine utc noon noon_sql no_faults
                     lot_transfer) empty_store)).

(** A status update of request [id] sent at instant [t], no call refused. *)
Definition status_call (t : Z) (id : Z) (fields : list (string * json))
  : patch_call :=
  {| at_time := t; refusing := no_faults; target := Fin (inject_Z id);
     payload := obj fields |}.

Definition hour : Z := 3600000.

(** The row of request 1 as created. *)
Definition request_1 : Requests.row :=
  new_row 1
    (submitted_of example_engine utc
       (LotInput LotTransfer
          (Build_Base (lit "alice") P1 1714979289000 Undef Undef Undef Undef
             Undef Undef Undef Undef Undef)
          [Lot.make (lit "L1") (Val (Fin 5)) Undef]))
    noon_sql.

Definition start_at_noon : patch_call :=
  status_call noon 1 [("status", jstr "In Progress")]%string.

Definition start_again : patch_call :=
  status_call (noon + hour) 1 [("status", jstr "In Progress")]%string.

Definition complete_later : patch_call :=
  status_call (noon + hour) 1 [("status", jstr "Completed")]%string.

(** Every key in use was handed out by the counter: the invariant that
    makes the next identifier a fresh one. *)
Definition well_keyed (s : Store) : Prop :=
  (forall r, In r (requests (committed s)) ->
     Requests.id r < auto_increment s)
  /\ (forall l, In l (lots (committed s)) ->
        Lots.request_id l < auto_increment s)
  /\ (forall l, In l (sampling_lots (committed s)) ->
        SamplingLots.request_id l < auto_increment s).

(** The stores the two endpoints can lead to from an empty one. *)
Inductive reachable (engine : Engine) (zone : Zone) : Store -> Prop :=
| reach_empty (n : Z) :
    reachable engine zone {| committed := no_tables; auto_increment := n |}
| reach_post (s : Store) (now : Z) (db_now : jsstring)
    (faults : call -> option jsstring) (req_body : json) :
    reachable engine zone s ->
    reachable engine zone
      (store (snd (run (post_requests engine zone now db_now faults
                          req_body) s)))
| reach_patch (s : Store) (now : Z) (faults : call -> option jsstring)
    (id : jsnum) (req_body : json) :
    reachable engine zone s ->
    reachable engine zone
      (store (snd (run (patch_status engine zone now faults id req_body)
                     s))).

(* ================================================================== *)
(** ** src/schema.ts and src/server.ts *)
(* ================================================================== *)

(** [Boolean(v)] *)
Definition to_Boolean (v : option json) : bool :=
  match v with
  | None => false
  | Some JNull => false
  | Some (JBool b) => b
  | Some (JNum NaN) => false
  | Some (JNum (Inf _)) => true
  | Some (JNum (Fin q)) => negb (Qnum q =? 0)
  | Some (JStr s) => match s with [] => false | _ => true end
  | Some (JArr _) => true
  | Some (JObj _) => true
  end.

(** [z.coerce.boolean()] *)
Definition z_coerce_boolean : schema bool := fun v => Ok (to_Boolean v).

(** A bound parameter of a statement. *)
Inductive sqlvalue : Type :=
| SqlInt (z : Z)
| SqlNum (n : jsnum)
| SqlText (s : jsstring)
| SqlNull.

(** [xs.join(sep)] *)
Fixpoint join (sep : jsstring) (xs : list jsstring) : jsstring :=
  match xs with
  | [] => []
  | [x] => x
  | x :: rest => x ++ sep ++ join sep rest
  end.

(** The store reads a bulk insert of lots back: the text after [VALUES]
    is one group [(?,?,?,?)] per row, separated by commas, and the bound
    values fill the groups in order. Anything else is refused. *)
Definition lot_of_values (vs : list sqlvalue) : option Lots.row :=
  match vs with
  | [SqlInt rid; SqlText lot; qty; serial] =>
      match
        match qty with
        | SqlNum n => Some (Some n)
        | SqlNull => Some None
        | _ => None
        end,
        match serial with
        | SqlText s => Some (Some s)
        | SqlNull => Some None
        | _ => None
        end
      with
      | Some q, Some sn => Some (Lots.make rid lot q sn)
      | _, _ => None
      end
  | _ => None
  end.

Fixpoint rows_of_values (groups : nat) (vs : list sqlvalue)
  : option (list Lots.row) :=
  match groups with
  | O => match vs with [] => Some [] | _ => None end
  | S n =>
      match lot_of_values (firstn 4 vs), rows_of_values n (skipn 4 vs) with
      | Some r, Some rs => Some (r :: rs)
      | _, _ => None
      end
  end.

Definition bulk_rows (placeholders : jsstring) (vs : list sqlvalue)
  : option (list Lots.row) :=
  let groups := (List.length vs / 4)%nat in
  match groups with
  | O => None
  | _ =>
      if js_eqb placeholders
           (join (lit ",") (repeat (lit "(?,?,?,?)") groups))
      then rows_of_values groups vs
      else None
  end.

Module Flat.

(** [RequestInput] of the flat schema. *)
Record RequestInput : Type := make {
  username : jsstring;
  requestType : RequestType;
  taskPriority : Priority;
  dateOfRequest : Z;
  facilityLocation : nullish jsstring;
  receiverName : nullish jsstring;
  qawrNumber : nullish jsstring;
  jiraNumber : nullish jsstring;
  lotLocation : nullish jsstring;
  attentionTo : nullish jsstring;
  returnable : nullish bool;
  domesticInternational : nullish Shipping;
  shippingAddress : nullish jsstring;
  lots : list Legacy.Lot
}.

Definition requestSchema (engine : Engine) : schema RequestInput :=
  z_object (fun o =>
    (Ok make
      <*> field "username" (z_string_min 1) o
      <*> field "requestType"
            (z_enum [("Lot Transfer", LotTransfer);
                     ("Scrap Request", ScrapRequest);
                     ("Shipment Request", ShipmentRequest)]%string) o
      <*> field "taskPriority"
            (z_enum [("P1", P1); ("P2", P2); ("P3", P3)]%string) o
      <*> field "dateOfRequest" (z_coerce_date engine) o
      <*> field "facilityLocation" (optional_nullable z_string) o
      <*> field "receiverName" (optional_nullable z_string) o
      <*> field "qawrNumber" (optional_nullable z_string) o
      <*> field "jiraNumber" (optional_nullable z_string) o
      <*> field "lotLocation" (optional_nullable z_string) o
      <*> field "attentionTo" (optional_nullable z_string) o
      <*> field "returnable" (optional_nullable z_coerce_boolean) o
      <*> field "domesticInternational"
            (optional_nullable
               (z_enum [("Domestic", Domestic);
                        ("International", International)]%string)) o
      <*> field "shippingAddress" (optional_nullable z_string) o
      <*> field "lots" (z_array_min (Legacy.lotSchema engine) 1) o)%zod).

(** The response of [src/server.ts]: [{ id }] or [{ error }]. *)
Inductive body : Type :=
| body_id (id : Z)
| body_error (message : jsstring).

Record response : Type := respond { http_status : Z; sent : body }.

(** The parameters of its [INSERT INTO requests]; the date goes to the
    driver as a [Date]. The sampling columns are not named by the
    statement. *)
Definition submitted_of (date_to_sql : Z -> jsstring) (d : RequestInput)
  : Submitted :=
  {| c_username := username d;
     request_type := requestType d;
     task_priority := taskPriority d;
     date_of_request := Some (date_to_sql (dateOfRequest d));
     facility_location := or_null (facilityLocation d);
     receiver_name := or_null (receiverName d);
     qawr_number := or_null (qawrNumber d);
     jira_link := or_null (jiraNumber d);
     lot_location := or_null (lotLocation d);
     attention_to := or_null (attentionTo d);
     c_returnable := or_null (returnable d);
     domestic_international := or_null (domesticInternational d);
     shipping_address := or_null (shippingAddress d);
     sampling_type := None;
     qr_date := None;
     project_name := None |}.

(** [parsed.lots.map(l => [requestId, l.lotId, l.unitsQuantity,
    l.serialNumber ?? null])] *)
Definition lotValues (requestId : Z) (ls : list Legacy.Lot)
  : list (list sqlvalue) :=
  List.map (fun l =>
    [SqlInt requestId; SqlText (Legacy.lotId l);
     SqlNum (Legacy.unitsQuantity l);
     match Legacy.serialNumber l with
     | Val s => SqlText s
     | _ => SqlNull
     end]) ls.

(** [lotValues.map(() => '(?,?,?,?)').join(',')] *)
Definition placeholders (values : list (list sqlvalue)) : jsstring :=
  join (lit ",") (List.map (fun _ => lit "(?,?,?,?)") values).

(** [throw err] *)
Definition throw {A} (e : jsstring) : M A := fun s => (inl e, s).

(** [try { body } catch (e) { handler e }] *)
Definition try_catch {A} (body : M A) (handler : jsstring -> M A) : M A :=
  fun s =>
    match body s with
    | (inr a, s') => (inr a, s')
    | (inl e, s') => handler e s'
    end.

Section Server.

Variable engine : Engine.
(** The text of [e.message] for a [ZodError], the [DATETIME] the driver
    stores for a [Date], the value of [NOW()], the error of the store for
    a statement it cannot read and the store calls that are refused. *)
Variable zod_message : list issue -> jsstring.
Variable date_to_sql : Z -> jsstring.
Variable db_now : jsstring.
Variable parse_error : jsstring.
Variable faults : call -> option jsstring.

(** [conn.query(`INSERT INTO lots (...) VALUES ${placeholders}`, values)] *)
Definition INSERT_lots (text : jsstring) (values : list sqlvalue) : M unit :=
  fun s =>
    match faults insert_lots with
    | Some e => (inl e, record (Refused insert_lots) s)
    | None =>
        match bulk_rows text values with
        | Some rows =>
            (inr tt, record (Done insert_lots) (write (add_lots rows) s))
        | None => (inl parse_error, record (Refused insert_lots) s)
        end
    end.

(** [app.post('/api/requests', ...)] of [src/server.ts] *)
Definition post_requests (req_body : json) : M response :=
  try_catch
    (match safeParse (requestSchema engine) req_body with
     | Err issues => throw (zod_message issues)
     | Ok parsed =>
         (pool_getConnection faults ;;
          try_catch_finally
            (conn_beginTransaction faults ;;
             requestId <-
               INSERT_requests db_now faults
                 (submitted_of date_to_sql parsed) ;;
             let values := lotValues requestId (lots parsed) in
             INSERT_lots (placeholders values) (List.concat values) ;;
             conn_commit faults ;;
             ret (respond 201 (body_id requestId)))
            (fun err => conn_rollback faults ;; throw err)
            do_release)%await
     end)
    (fun e =>
       (effect (console_error e) ;;
        ret (respond 400 (body_error e)))%await).

End Server.

End Flat.

(** Whether a rendering has the given number of code units and reads
    back as the number it renders. *)
Definition renders (width : nat) (n : Z) (s : jsstring) : bool :=
  Nat.eqb (List.length s) width
  && match digits s with
     | Some m => m =? n
     | None => false
     end.

Definition status_name (st : Status) : string :=
  match st with
  | New => "New"
  | InProgress => "In Progress"
  | Completed => "Completed"
  | Issue => "Issue"
  end.

(** How the executor of a status update is read: absent, null or a
    string that is not empty. *)
Inductive executor_reads : option json -> nullish jsstring -> Prop :=
| executor_absent : executor_reads None Undef
| executor_null : executor_reads (Some JNull) Null
| executor_named (s : jsstring) :
    s <> [] -> executor_reads (Some (JStr s)) (Val s).

(** How the two flags of a request are read. *)
Inductive returnable_reads : option json -> nullish bool -> Prop :=
| returnable_absent : returnable_reads None Undef
| returnable_null : returnable_reads (Some JNull) Null
| returnable_given (b : bool) : returnable_reads (Some (JBool b)) (Val b).

Definition shipping_name (x : Shipping) : string :=
  match x with
  | Domestic => "Domestic"
  | International => "International"
  end.

Inductive shipping_reads : option json -> nullish Shipping -> Prop :=
| shipping_absent : shipping_reads None Undef
| shipping_null : shipping_reads (Some JNull) Null
| shipping_given (x : Shipping) :
    shipping_reads (Some (JStr (lit (shipping_name x)))) (Val x).

(** The keys a request of each type must have, with the issue code a
    missing one is reported with. *)
Definition required_keys (k : RequestType) : list (string * zcode) :=
  [("username", invalid_type); ("taskPriority", invalid_type);
   ("dateOfRequest", invalid_date)]%string
  ++ match k with
     | SamplingRequest =>
         [("samplingType", invalid_type); ("qrDate", invalid_date);
          ("projectName", invalid_type); ("samplingLots", invalid_type)]
     | _ => [("lots", invalid_type)]
     end%string.

(** What the handlers may rely on in a parsed payload. *)
Definition whole_number (strictly_positive : bool) (n : jsnum) : Prop :=
  exists q,
    n = Fin q /\ q_is_int q = true
    /\ if strictly_positive then 0 < Qnum q else 0 <= Qnum q.

Definition lot_ok (l : Lot.t) : Prop :=
  Lot.lotId l <> []
  /\ match Lot.unitsQuantity l with
     | Val n => whole_number false n
     | _ => True
     end.

Definition sampling_lot_ok (l : SamplingLot.t) : Prop :=
  SamplingLot.lotId l <> []
  /\ whole_number true (SamplingLot.unitQuantity l)
  /\ SamplingLot.reliabilityTest l <> []
  /\ SamplingLot.testCondition l <> []
  /\ SamplingLot.attributeToTag l <> [].

Definition request_ok (zone : Zone) (now : Z) (d : RequestInput) : Prop :=
  username (base_of d) <> []
  /\ match d with
     | LotInput k _ ls =>
         k <> SamplingRequest /\ ls <> [] /\ Forall lot_ok ls
     | SamplingInput _ st qr pn sl =>
         st <> [] /\ pn <> [] /\ qr_not_past zone now qr = true
         /\ sl <> [] /\ Forall sampling_lot_ok sl
     end.

(** The history entries of one request, oldest first. *)
Definition history_of (rid : Z) (t : Tables) : list History.row :=
  List.filter (fun h => History.request_id h =? rid)
    (request_status_history t).

(** Entries that follow one another: each starts from the status the one
    before it ended in. *)
Fixpoint chained (start : option Status) (hs : list History.row)
  (final : option Status) : Prop :=
  match hs with
  | [] => start = final
  | h :: rest =>
      History.old_status h = start
      /\ chained (Some (History.new_status h)) rest final
  end.

Definition goes_through (rid : Z) (c : patch_call) : bool :=
  match moves rid c with Some _ => true | None => false end.

(** The notes of the calls that move a request into [Issue], in order. *)
Fixpoint issue_notes (rid : Z) (calls : list patch_call)
  : list (option jsstring) :=
  match calls with
  | [] => []
  | c :: rest =>
      match moves rid c with
      | Some u =>
          if status_eqb (status u) Issue
          then or_null (note u) :: issue_notes rid rest
          else issue_notes rid rest
      | None => issue_notes rid rest
      end
  end.

(** The store events of a session, latest first. *)
Definition events (s : Session) : list event := List.map fst (journal s).

(** A text with no white space at either end. *)
Definition tidy (s : jsstring) : Prop :=
  match s with [] => True | c :: _ => is_space c = false end
  /\ match rev s with [] => True | c :: _ => is_space c = false end.

(** The rows the flat handler means to add to [lots]. *)
Definition flat_lot_rows (rid : Z) (ls : list Legacy.Lot) : list Lots.row :=
  List.map (fun l =>
    Lots.make rid (Legacy.lotId l) (Some (Legacy.unitsQuantity l))
      (or_null (Legacy.serialNumber l))) ls.

(** The error of the first call of a list that is refused. *)
Fixpoint first_refusal (faults : call -> option jsstring) (cs : list call)
  : option jsstring :=
  match cs with
  | [] => None
  | c :: rest =>
      match faults c with
      | Some e => Some e
      | None => first_refusal faults rest
      end
  end.

(** The tables once the writes of the flat handler are committed. *)
Definition flat_created (date_to_sql : Z -> jsstring) (db_now : jsstring)
  (d : Flat.RequestInput) (rid : Z) (t : Tables) : Tables :=
  add_lots (flat_lot_rows rid (Flat.lots d))
    (with_requests
       (fun rs =>
          rs ++ [new_row rid (Flat.submitted_of date_to_sql d) db_now])
       t).

(** A quantity " 7 " as a string, a null serial number and the flag
    "No", posted to the flat handler. *)
Definition flat_shipment : json :=
  obj [("username", jstr "alice");
       ("requestType", jstr "Shipment Request");
       ("taskPriority", jstr "P1");
       ("dateOfRequest", jstr "2024-05-06T07:08:09.000Z");
       ("returnable", jstr "No");
       ("lots", JArr [obj [("lotId", jstr " L1 ");
                           ("unitsQuantity", jstr " 7 ");
                           ("serialNumber", JNull)];
                      obj [("lotId", jstr "L2");
                           ("unitsQuantity", JNull)]])]%string.

(** Stand-ins for the text of a [ZodError] and for the driver's
    rendering of a [Date] in the worked runs. *)
Definition issue_count (issues : list issue) : jsstring :=
  js_of_Z (Z.of_nat (List.length issues)) ++ lit " issue(s)".

Definition utc_sql (t : Z) : jsstring :=
  match toMySqlDateTime example_engine utc (DDate (Some t)) with
  | Some s => s
  | None => []
  end.

Definition flat_run (faults : call -> option jsstring) (req_body : json)
  (s : Store) : (jsstring + Flat.response) * Session :=
  Flat.post_requests example_engine issue_count utc_sql noon_sql
    (lit "ER_PARSE_ERROR") faults req_body (open s).

(** How the data of [schema.ts] reads under the flat schema of
    [src/schema.ts]: [Number] turns a null quantity into 0 and an absent
    one into [NaN], which the flat schema refuses. *)
Definition flat_quantity (n : nullish jsnum) : option jsnum :=
  match n with
  | Val q => Some q
  | Null => Some (Fin 0)
  | Undef => None
  end.

Definition flat_lot (l : Lot.t) : option Legacy.Lot :=
  match flat_quantity (Lot.unitsQuantity l) with
  | Some q => Some (Legacy.make (Lot.lotId l) q (Lot.serialNumber l))
  | None => None
  end.

Fixpoint flat_lots (ls : list Lot.t) : option (list Legacy.Lot) :=
  match ls with
  | [] => Some []
  | l :: rest =>
      match flat_lot l, flat_lots rest with
      | Some l', Some rest' => Some (l' :: rest')
      | _, _ => None
      end
  end.

Definition flat_request (k : RequestType) (b : Base)
  (jira : nullish jsstring) (ls : list Legacy.Lot) : Flat.RequestInput :=
  Flat.make (username b) k (taskPriority b) (dateOfRequest b)
    (facilityLocation b) (receiverName b) (qawrNumber b) jira
    (lotLocation b) (attentionTo b) (returnable b)
    (domesticInternational b) (shippingAddress b) ls.

(** The pool has no connection to give. *)
Definition pool_exhausted : call -> option jsstring := fun c =>
  match c with
  | getConnection => Some (lit "ER_CON_COUNT_ERROR: Too many connections")
  | _ => None
  end.

(** The error the flat handler ends with: that of the pool, or that of
    the first call of the unit that is refused, which the error of the
    rollback replaces when the rollback of the catch block is refused
    too. *)
Definition flat_error (faults : call -> option jsstring) : option jsstring :=
  match faults getConnection with
  | Some e => Some e
  | None =>
      match
        first_refusal faults
          [beginTransaction; insert_requests; insert_lots; commit]
      with
      | Some e =>
          match faults rollback with
          | Some e' => Some e'
          | None => Some e
          end
      | None => None
      end
  end.

(** [stored] is [text] stripped of the white space at its two ends: what
    is cut off at either end is white space only, and nothing more could
    be cut. *)
Definition stripped (text stored : jsstring) : Prop :=
  exists pre post,
    text = pre ++ stored ++ post
    /\ forallb is_space pre = true
    /\ forallb is_space post = true
    /\ tidy stored.

(** The line items of a payload under a key, and the lot identifier of a
    line item. *)
Definition line_items (req_body : json) (key : string) : list json :=
  match req_body with
  | JObj o =>
      match get key o with
      | Some (JArr items) => items
      | _ => []
      end
  | _ => []
  end.

Definition lot_id_of (item : json) : option jsstring :=
  match item with
  | JObj fields =>
      match get "lotId" fields with
      | Some (JStr s) => Some s
      | _ => None
      end
  | _ => None
  end.

(** A Lot Transfer whose lot identifier is "L 1" between two spaces in
    front and a tab and a no-break space behind. *)
Definition padded_lot_id : json :=
  obj [("username", jstr "alice");
       ("requestType", jstr "Lot Transfer");
       ("taskPriority", jstr "P1");
       ("dateOfRequest", jstr "2024-05-06T07:08:09.000Z");
       ("lots", JArr [obj [("lotId", JStr [32; 32; 76; 32; 49; 9; 160]%N);
                           ("unitsQuantity", JNum (Fin 5))]])]%string.

(* ================================================================== *)
(** ** Lemmas on the combinators *)
(* ================================================================== *)

Lemma success_ap {A B} (f : result (A -> B)) (x : result A) :
  success (ap f x) = success f && success x.
Proof. destruct f, x; reflexivity. Qed.

Lemma issues_ap {A B} (f : result (A -> B)) (x : result A) :
  issues_of (ap f x) = issues_of f ++ issues_of x.
Proof. destruct f, x; simpl; auto using app_nil_r. Qed.

Lemma ap_ok_inv {A B} (f : result (A -> B)) (x : result A) (b : B) :
  ap f x = Ok b -> exists g a, f = Ok g /\ x = Ok a /\ b = g a.
Proof.
  destruct f as [g|e], x as [a|e']; simpl; try discriminate.
  intros H. injection H as <-. eauto.
Qed.

Lemma success_false_err {A} (r : result A) :
  success r = false -> r = Err (issues_of r).
Proof. destruct r; simpl; congruence. Qed.

Lemma success_true_ok {A} (r : result A) :
  success r = true -> exists a, r = Ok a.
Proof. destruct r; simpl; eauto; discriminate. Qed.

Lemma at_seg_ok_inv {A} (s : seg) (r : result A) (a : A) :
  at_seg s r = Ok a -> r = Ok a.
Proof. destruct r; simpl; congruence. Qed.

Lemma success_at_seg {A} (s : seg) (r : result A) :
  success (at_seg s r) = success r.
Proof. destruct r; reflexivity. Qed.


(** Inversion of a whole shape: [ap_inv H] splits
    [Ok make <*> f1 <*> ... <*> fn = Ok b] into one fact per field. *)
Ltac ap_inv H :=
  lazymatch type of H with
  | ap _ _ = Ok _ =>
      let g := fresh "g" in
      let a := fresh "a" in
      let Hf := fresh "Hf" in
      let Hx := fresh "Hx" in
      let E := fresh "E" in
      destruct (ap_ok_inv _ _ _ H) as (g & a & Hf & Hx & E);
      clear H; ap_inv Hf; subst
  | Ok _ = Ok _ => injection H as H; subst
  end.

Lemma js_eqb_eq (a b : jsstring) : js_eqb a b = true <-> a = b.
Proof.
  revert b. induction a as [|x a IH]; intros [|y b]; simpl;
    try (split; [discriminate | discriminate]); try tauto.
  rewrite andb_true_iff, N.eqb_eq, IH.
  split; [intros [-> ->]; reflexivity | intros H; injection H; auto].
Qed.

Lemma optional_nullable_string (v : option json) (x : nullish jsstring) :
  optional_nullable z_string v = Ok x <-> reads_as v x.
Proof.
  split.
  - destruct v as [[| | |s| |]|]; simpl; intros H;
      try discriminate; injection H as <-; constructor.
  - intros []; reflexivity.
Qed.

Lemma baseRequest_inv (engine : Engine) (o : list (jsstring * json))
  (b : Base) :
  baseRequest engine o = Ok b ->
  field "facilityLocation" (optional_nullable z_string) o
    = Ok (facilityLocation b)
  /\ field "receiverName" (optional_nullable z_string) o
    = Ok (receiverName b)
  /\ field "qawrNumber" (optional_nullable z_string) o = Ok (qawrNumber b)
  /\ field "jiraLink" (optional_nullable z_string) o = Ok (jiraLink b)
  /\ field "lotLocation" (optional_nullable z_string) o = Ok (lotLocation b)
  /\ field "attentionTo" (optional_nullable z_string) o = Ok (attentionTo b)
  /\ field "shippingAddress" (optional_nullable z_string) o
    = Ok (shippingAddress b).
Proof.
  unfold baseRequest. intros H. ap_inv H. simpl. repeat split; assumption.
Qed.

Lemma z_array_min_nonempty {A} (p : schema A) (v : option json)
  (l : list A) :
  z_array_min p 1 v = Ok l -> l <> [].
Proof.
  unfold z_array_min. destruct v as [[| | | |xs|]|]; try discriminate.
  destruct xs as [|x xs]; [discriminate|].
  cbv zeta. cbn [parse_items]. intros H. ap_inv H.
  match goal with Hx : ap _ _ = Ok _ |- _ => ap_inv Hx end.
  discriminate.
Qed.

Lemma field_array_nonempty {A} (k : string) (p : schema A)
  (o : list (jsstring * json)) (l : list A) :
  field k (z_array_min p 1) o = Ok l -> l <> [].
Proof.
  unfold field. intros H. apply at_seg_ok_inv in H.
  eapply z_array_min_nonempty; eassumption.
Qed.

Lemma lotRequest_inv (engine : Engine) (k : RequestType)
  (o : list (jsstring * json)) (data : RequestInput) :
  lotRequest engine k (Some (JObj o)) = Ok data ->
  exists b ls,
    data = LotInput k b ls
    /\ baseRequest engine o = Ok b
    /\ field "lots" (z_array_min lotSchema 1) o = Ok ls.
Proof.
  unfold lotRequest, z_object. intros H. ap_inv H.
  match goal with
  | Hk : field "requestType" _ _ = Ok ?a |- _ =>
      unfold field in Hk; apply at_seg_ok_inv in Hk;
      unfold z_literal in Hk;
      destruct (get "requestType" o) as [[| | |s| |]|]; try discriminate;
      destruct (js_eqb _ s); try discriminate; injection Hk as <-
  end.
  eauto.
Qed.

Lemma samplingRequest_inv (engine : Engine) (zone : Zone) (now : Z)
  (o : list (jsstring * json)) (data : RequestInput) :
  samplingRequestSchema engine zone now (Some (JObj o)) = Ok data ->
  exists b st qr pn sl,
    data = SamplingInput b st qr pn sl
    /\ baseRequest engine o = Ok b
    /\ field "qrDate"
         (refine (z_coerce_date engine) (qr_not_past zone now)
            "QR date cannot be in the past") o = Ok qr
    /\ field "samplingLots" (z_array_min samplingLotSchema 1) o = Ok sl.
Proof.
  unfold samplingRequestSchema, z_object. intros H. ap_inv H.
  do 5 eexists. repeat split; eassumption.
Qed.

(** A payload that validates is an object and validates against the
    schema its [requestType] names. *)
Lemma requestSchema_inv (engine : Engine) (zone : Zone) (now : Z)
  (req_body : json) (data : RequestInput) :
  safeParse (requestSchema engine zone now) req_body = Ok data ->
  exists o,
    req_body = JObj o
    /\ baseRequest engine o = Ok (base_of data)
    /\ match data with
       | LotInput k _ ls =>
           get "requestType" o = Some (JStr (lit (requestType_name k)))
           /\ k <> SamplingRequest
           /\ field "lots" (z_array_min lotSchema 1) o = Ok ls
       | SamplingInput _ _ qr _ sl =>
           get "requestType" o = Some (JStr (lit "Sampling Request"))
           /\ field "qrDate"
                (refine (z_coerce_date engine) (qr_not_past zone now)
                   "QR date cannot be in the past") o = Ok qr
           /\ field "samplingLots" (z_array_min samplingLotSchema 1) o
              = Ok sl
       end.
Proof.
  unfold safeParse, requestSchema, z_discriminatedUnion.
  destruct req_body as [| | | | |o]; try discriminate.
  destruct (get "requestType" o) as [[| | |s| |]|] eqn:Hk; try discriminate.
  unfold member.
  destruct (js_eqb (lit "Lot Transfer") s) eqn:E1;
    [|destruct (js_eqb (lit "Shipment Request") s) eqn:E2;
      [|destruct (js_eqb (lit "Scrap Request") s) eqn:E3;
        [|destruct (js_eqb (lit "Sampling Request") s) eqn:E4;
          [|discriminate]]]];
    intros H; exists o; (split; [reflexivity|]).
  - apply lotRequest_inv in H as (b & ls & -> & Hb & Hl).
    apply js_eqb_eq in E1 as <-. simpl. repeat split; auto. discriminate.
  - apply lotRequest_inv in H as (b & ls & -> & Hb & Hl).
    apply js_eqb_eq in E2 as <-. simpl. repeat split; auto. discriminate.
  - apply lotRequest_inv in H as (b & ls & -> & Hb & Hl).
    apply js_eqb_eq in E3 as <-. simpl. repeat split; auto. discriminate.
  - apply samplingRequest_inv in H
      as (b & st & qr & pn & sl & -> & Hb & Hq & Hs).
    apply js_eqb_eq in E4 as <-. simpl. repeat split; auto.
Qed.

(** A validated payload carries at least one line item. *)
Lemma validated_has_line_items (engine : Engine) (zone : Zone) (now : Z)
  (req_body : json) (data : RequestInput) :
  safeParse (requestSchema engine zone now) req_body = Ok data ->
  match data with
  | LotInput _ _ ls => ls <> []
  | SamplingInput _ _ _ _ sl => sl <> []
  end.
Proof.
  intros H. apply requestSchema_inv in H as (o & _ & _ & H).
  destruct data; destruct H as (_ & _ & H);
    eapply field_array_nonempty; eassumption.
Qed.

(* ================================================================== *)
(** ** The create handler *)
(* ================================================================== *)

Section Create.

Variable engine : Engine.
Variable zone : Zone.
Variable now : Z.
Variable db_now : jsstring.
Variable faults : call -> option jsstring.

(** The handler on a payload that validates: the response, the store it
    leaves and every state a reader could have seen, by the store calls
    that are refused. The catch block awaits the rollback before it logs
    and answers: when the rollback is refused too, its error leaves the
    handler. *)
Lemma post_requests_effect (req_body : json) (data : RequestInput)
  (s : Store) :
  safeParse (requestSchema engine zone now) req_body = Ok data ->
  let t0 := committed s in
  let t1 := created engine zone db_now data (auto_increment s) t0 in
  let r := run (post_requests engine zone now db_now faults req_body) s in
  fst r
  = match faults getConnection with
    | Some e => Uncaught e
    | None =>
        if existsb (refused faults) (create_unit data)
        then match faults rollback with
             | Some e => Uncaught e
             | None =>
                 Sent (respond 500 (body_message "Failed to save request"))
             end
        else Sent (respond 200 (body_id (auto_increment s)))
    end
  /\ committed (store (snd r))
     = (if existsb (refused faults) (getConnection :: create_unit data)
        then t0 else t1)
  /\ (forall e t, In (e, t) (journal (snd r)) ->
        t = t0
        \/ (t = t1
            /\ existsb (refused faults) (getConnection :: create_unit data)
               = false))
  /\ (faults rollback = None -> pending (snd r) = None)
  /\ (existsb (refused faults) (getConnection :: create_unit data) = false ->
      pending (snd r) = None)
  /\ console (snd r)
     = match faults getConnection, first_refusal faults (create_unit data),
             faults rollback with
       | None, Some e, None => [e]
       | _, _, _ => []
       end
  /\ auto_increment s <= auto_increment (store (snd r))
  /\ (existsb (refused faults) (getConnection :: create_unit data) = false ->
      auto_increment (store (snd r)) = auto_increment s + 1).
Proof.
  intros Hp. pose proof (validated_has_line_items _ _ _ _ _ Hp) as Hne.
  unfold run, post_requests. rewrite Hp.
  unfold pool_getConnection, conn_beginTransaction, conn_commit,
    conn_rollback, INSERT_requests, INSERT_lots, INSERT_sampling_lots,
    try_catch_finally, bind, await, effect, ret, refused, create_unit.
  destruct data as [k b [|l ls]|b st qr pn [|l ls]]; try congruence;
    cbn [data_lots existsb app first_refusal];
    destruct (faults getConnection);
    destruct (faults beginTransaction);
    destruct (faults insert_requests);
    try destruct (faults insert_lots);
    try destruct (faults insert_sampling_lots);
    destruct (faults commit);
    destruct (faults rollback);
    cbn; (split; [reflexivity|]); (split; [reflexivity|]);
    (split;
     [intros e t Hin;
      repeat (destruct Hin as [Hin|Hin];
              [injection Hin as _ <-; auto|]);
      try contradiction
     |split; [intros; reflexivity || discriminate|];
      split; [intros; reflexivity || discriminate|];
      split; [reflexivity|];
      split; [lia|intros; reflexivity || discriminate]]).
Qed.

End Create.

Lemma existsb_same {A} (f g : A -> bool) (l : list A) :
  (forall x, f x = g x) -> existsb f l = existsb g l.
Proof.
  intros H. induction l as [|x l IH]; [reflexivity|].
  cbn [existsb]. rewrite H, IH. reflexivity.
Qed.








(** C2, as the code has it. Validation comes before the store. A payload
    that fails the schema is answered 400 with every issue found while no
    connection is acquired, no transaction opened and the store
    untouched. Once the payload validates and a connection is held, a
    refusal of any store call of the transactional unit leaves the store
    as it was; the catch block then awaits the rollback, and when that
    completes the answer is 500 with a fixed message, the same whatever
    the errors of the store say, the error going to the console only.
    When the rollback is refused as well, its error leaves the handler:
    nothing is logged and no response is sent. *)
Theorem validation_precedes_store (engine : Engine) (zone : Zone) (now : Z)
  (db_now : jsstring) (faults : call -> option jsstring) (req_body : json)
  (s : Store) :
  let r := run (post_requests engine zone now db_now faults req_body) s in
  (forall issues,
     safeParse (requestSchema engine zone now) req_body = Err issues ->
     r = (Sent (respond 400 (body_invalid "Invalid payload" issues)), open s))
  /\ (forall data,
        safeParse (requestSchema engine zone now) req_body = Ok data ->
        faults getConnection = None ->
        existsb (refused faults) (create_unit data) = true ->
        committed (store (snd r)) = committed s
        /\ (faults rollback = None ->
            fst r = Sent (respond 500 (body_message "Failed to save request"))
            /\ (exists e,
                  first_refusal faults (create_unit data) = Some e
                  /\ console (snd r) = [e])
            /\ forall faults',
                 (forall c, refused faults' c = refused faults c) ->
                 fst (run (post_requests engine zone now db_now faults'
                             req_body) s)
                 = fst r)
        /\ (forall e,
              faults rollback = Some e ->
              fst r = Uncaught e /\ console (snd r) = [])).
Proof.
  intros r. split.
  - intros issues Hp. unfold r, run, post_requests. rewrite Hp. reflexivity.
  - intros data Hp Hg Hu.
    destruct (post_requests_effect engine zone now db_now faults _ _ s Hp)
      as (Hout & Hfin & _ & _ & _ & Hcon & _).
    fold r in Hout, Hfin, Hcon. rewrite Hout, Hfin, Hcon, Hg.
    cbn [existsb]. rewrite Hu, orb_true_r.
    split; [reflexivity|split].
    + intros Hr. rewrite Hr. split; [reflexivity|]. split.
      * destruct (first_refusal faults (create_unit data)) as [e|] eqn:E;
          [eauto|].
        exfalso. clear - Hu E. induction (create_unit data) as [|c l IH];
          [discriminate|].
        cbn [existsb first_refusal] in *. unfold refused in Hu at 1.
        destruct (faults c); [discriminate|]. auto.
      * intros faults' Hsame.
        destruct (post_requests_effect engine zone now db_now faults' _ _ s
                    Hp) as (-> & _).
        pose proof (Hsame getConnection) as Hg'.
        pose proof (Hsame rollback) as Hr'. unfold refused in Hg', Hr'.
        rewrite Hg in Hg'. rewrite Hr in Hr'.
        destruct (faults' getConnection); [discriminate|].
        destruct (faults' rollback); [discriminate|].
        rewrite (existsb_same _ _ (create_unit data) Hsame), Hu.
        reflexivity.
    + intros e Hr. rewrite Hr. split; [reflexivity|].
      destruct (first_refusal faults (create_unit data)); reflexivity.
Qed.

(** The store refuses the lots of a valid request: 500 and the fixed
    message, nothing of the store's error. *)
Lemma validation_precedes_store_witness :
  fst (run (post_requests example_engine utc noon noon_sql lots_refused
              lot_transfer) empty_store)
  = Sent (respond 500 (body_message "Failed to save request")).
Proof.
  refine (proj1 (proj1 (proj2 (proj2
            (validation_precedes_store example_engine utc noon noon_sql
               lots_refused lot_transfer empty_store) _ _ _ _)) _));
    reflexivity.
Defined.

(** C2 as stated fails where it says that any failure inside the unit
    yields a 500 response. The store refuses the lots of alice's request
    and then the rollback: no response is sent and nothing is logged. *)
Lemma refused_rollback_sends_nothing :
  fst (run (post_requests example_engine utc noon noon_sql
              lots_and_rollback_refused lot_transfer) empty_store)
  = Uncaught (lit "ER_QUERY_INTERRUPTED: Query execution was interrupted")
  /\ fst (run (post_requests example_engine utc noon noon_sql
                 lots_and_rollback_refused lot_transfer) empty_store)
     <> Sent (respond 500 (body_message "Failed to save request"))
  /\ console
       (snd (run (post_requests example_engine utc noon noon_sql
                    lots_and_rollback_refused lot_transfer) empty_store))
     = [].
Proof. repeat split; try reflexivity. discriminate. Qed.

(* ================================================================== *)
(** ** The status handler *)
(* ================================================================== *)

Lemma existsb_filter {A} (f : A -> bool) (l : list A) :
  existsb f l = match List.filter f l with [] => false | _ => true end.
Proof.
  induction l as [|x l IH]; simpl; [reflexivity|].
  destruct (f x); simpl; auto.
Qed.

Section Update.

Variable engine : Engine.
Variable zone : Zone.
Variable now : Z.
Variable faults : call -> option jsstring.

(** The handler in full: which response is sent, what the store holds
    afterwards and what a reader could have seen meanwhile. Both the
    branch of the unknown request and the catch block await a rollback
    before they answer; when it is refused its error leaves the
    handler. *)
Lemma patch_status_effect (id : jsnum) (req_body : json) (s : Store) :
  let r := run (patch_status engine zone now faults id req_body) s in
  match id, safeParse requestStatusUpdateSchema req_body with
  | Fin q, Ok u =>
      let t0 := committed s in
      let t1 :=
        updated q u (toMySqlDateTime engine zone (DDate (Some now))) t0 in
      let hit := existsb (fun r => key_is q (Requests.id r)) (requests t0) in
      store (snd r)
      = (if negb (existsb (refused faults) update_calls) && hit
         then {| committed := t1; auto_increment := auto_increment s |}
         else s)
      /\ fst r
         = match faults getConnection with
           | Some e => Uncaught e
           | None =>
               if negb hit
                  || existsb (refused faults) update_calls
               then match faults rollback with
                    | Some e => Uncaught e
                    | None =>
                        if existsb (refused faults)
                             [beginTransaction; select_status]
                        then Sent (respond 500
                                     (body_message "Failed to update status"))
                        else if negb hit
                        then Sent (respond 404
                                     (body_message "Request not found"))
                        else Sent (respond 500
                                     (body_message "Failed to update status"))
                    end
               else Sent (respond 200 body_ok)
           end
      /\ (forall e t, In (e, t) (journal (snd r)) ->
            t = t0
            \/ (t = t1
                /\ negb (existsb (refused faults) update_calls) && hit
                   = true))
      /\ (faults rollback = None
          \/ negb (existsb (refused faults) update_calls) && hit = true ->
          pending (snd r) = None)
  | Fin q, Err issues =>
      r = (Sent (respond 400 (body_invalid "Invalid payload" issues)),
           open s)
  | _, _ => r = (Sent (respond 400 (body_message "Invalid id")), open s)
  end.
Proof.
  destruct s as [t0 n].
  destruct id as [|neg|q]; try reflexivity.
  unfold run, patch_status.
  destruct (safeParse requestStatusUpdateSchema req_body) as [u|issues];
    [|reflexivity].
  cbv zeta. unfold updated, old_status.
  generalize (toMySqlDateTime engine zone (DDate (Some now))) as nowSQL.
  intros nowSQL. generalize (update_fields u nowSQL) as fields.
  intros fields. cbn [committed].
  rewrite (existsb_filter (fun r => key_is q (Requests.id r))
             (requests t0)).
  unfold pool_getConnection, conn_beginTransaction, conn_commit,
    conn_rollback, SELECT_status, UPDATE_requests, INSERT_history,
    try_catch_finally, bind, await, effect, ret, refused, update_calls.
  cbn [existsb].
  destruct (faults getConnection);
    destruct (faults beginTransaction);
    destruct (faults select_status);
    destruct (faults update_requests);
    destruct (faults insert_history);
    destruct (faults commit);
    destruct (faults rollback);
    cbn;
    destruct (List.filter (fun r => key_is q (Requests.id r)) (requests t0));
    cbn; (split; [reflexivity|]); (split; [reflexivity|]);
    (split; [|intros [H|H]; reflexivity || discriminate]);
    intros e t Hin;
    repeat (destruct Hin as [Hin|Hin];
            [injection Hin as _ <-; auto|]);
    try contradiction.
Qed.

End Update.

Lemma assign_all (u : RequestStatusUpdateInput) (nowSQL : option jsstring)
  (r : Requests.row) :
  fold_left assign (update_fields u nowSQL) r = row_after u nowSQL r.
Proof.
  destruct r, u as [st ex nt]. unfold update_fields, row_after.
  destruct st, ex; reflexivity.
Qed.

Lemma update_where_rows (q : Q) (u : RequestStatusUpdateInput)
  (nowSQL : option jsstring) (rows : list Requests.row) :
  update_where q (update_fields u nowSQL) rows
  = List.map (fun r =>
      if key_is q (Requests.id r) then row_after u nowSQL r else r) rows.
Proof.
  unfold update_where. apply map_ext. intros r.
  rewrite assign_all. reflexivity.
Qed.

(** A number equal to an integer key selects exactly that key. *)
Lemma key_is_same (q : Q) (rid i : Z) :
  key_is q rid = true -> key_is q i = (i =? rid).
Proof.
  unfold key_is. destruct q as [n d]. cbn [Qnum Qden].
  intros H. apply Z.eqb_eq in H. subst n.
  destruct (Z.eqb_spec i rid) as [->|Hne].
  - apply Z.eqb_refl.
  - apply Z.eqb_neq. intros H. apply Hne.
    apply Z.mul_cancel_r in H; [congruence | discriminate].
Qed.


Lemma key_is_value (q : Q) (rid : Z) :
  key_is q rid = true -> q_to_Z q = rid.
Proof.
  unfold key_is, q_to_Z. destruct q as [n d]. cbn [Qnum Qden].
  intros H. apply Z.eqb_eq in H. subst n. apply Z.div_mul. discriminate.
Qed.

Lemma toMySqlDateTime_date (engine : Engine) (zone : Zone) (t : Z) :
  toMySqlDateTime engine zone (DDate (Some t)) <> None.
Proof. unfold toMySqlDateTime. discriminate. Qed.

Lemma enters_moves (st : Status) (rid : Z) (c : patch_call) :
  enters st rid c
  = match moves rid c with
    | Some u => status_eqb (status u) st
    | None => false
    end.
Proof.
  unfold enters, moves.
  destruct (target c) as [| |q]; try reflexivity.
  destruct (safeParse requestStatusUpdateSchema (payload c)) as [u|];
    try reflexivity.
  destruct (key_is q rid), (existsb (refused (refusing c)) update_calls);
    cbn; try reflexivity; destruct (status_eqb (status u) st); reflexivity.
Qed.

Lemma find_filter_head {A} (f : A -> bool) (l : list A) (a : A) :
  List.find f l = Some a -> exists tl, List.filter f l = a :: tl.
Proof.
  induction l as [|x l IH]; simpl; [discriminate|].
  destruct (f x); [intros H; injection H as ->; eauto | exact IH].
Qed.

Lemma old_status_found (q : Q) (rid : Z) (t : Tables) (r : Requests.row) :
  key_is q rid = true -> find_request rid t = Some r ->
  old_status q t = Requests.status r
  /\ existsb (fun x => key_is q (Requests.id x)) (requests t) = true.
Proof.
  intros Hk Hf. unfold old_status. rewrite existsb_filter.
  rewrite (filter_ext (fun x => key_is q (Requests.id x))
             (fun x => Requests.id x =? rid))
    by (intros x; apply key_is_same; exact Hk).
  apply find_filter_head in Hf as (tl & ->). auto.
Qed.

Lemma find_request_updated (q : Q) (u : RequestStatusUpdateInput)
  (nowSQL : option jsstring) (rid : Z) (t : Tables) (r : Requests.row) :
  find_request rid t = Some r ->
  find_request rid (updated q u nowSQL t)
  = Some (if key_is q rid then row_after u nowSQL r else r).
Proof.
  unfold find_request, updated. cbn [requests add_history with_requests].
  rewrite update_where_rows.
  induction (requests t) as [|x l IH]; cbn [List.find List.map];
    [discriminate|].
  destruct (Requests.id x =? rid) eqn:E.
  - intros H. injection H as ->. apply Z.eqb_eq in E.
    rewrite E. destruct (key_is q rid); cbn [row_after Requests.id];
      rewrite E, Z.eqb_refl; reflexivity.
  - intros H.
    destruct (key_is q (Requests.id x)); cbn [row_after Requests.id];
      rewrite E; auto.
Qed.

Section Steps.

Variable engine : Engine.
Variable zone : Zone.

Lemma patch_step_committed (s : Store) (c : patch_call) :
  committed (patch_step engine zone s c)
  = match target c, safeParse requestStatusUpdateSchema (payload c) with
    | Fin q, Ok u =>
        if negb (existsb (refused (refusing c)) update_calls)
           && existsb (fun r => key_is q (Requests.id r))
                (requests (committed s))
        then updated q u
               (toMySqlDateTime engine zone (DDate (Some (at_time c))))
               (committed s)
        else committed s
    | _, _ => committed s
    end.
Proof.
  unfold patch_step.
  pose proof (patch_status_effect engine zone (at_time c) (refusing c)
                (target c) (payload c) s) as H.
  cbv zeta in H.
  destruct (target c) as [| |q]; try (rewrite H; reflexivity).
  destruct (safeParse requestStatusUpdateSchema (payload c)) as [u|];
    [|rewrite H; reflexivity].
  destruct H as (-> & _).
  destruct (negb _ && _); reflexivity.
Qed.

(** One call of the endpoint, seen from the row of request [rid]. *)
Lemma patch_step_row (s : Store) (c : patch_call) (rid : Z)
  (r : Requests.row) :
  find_request rid (committed s) = Some r ->
  find_request rid (committed (patch_step engine zone s c))
  = Some match moves rid c with
         | Some u =>
             row_after u
               (toMySqlDateTime engine zone (DDate (Some (at_time c)))) r
         | None => r
         end.
Proof.
  intros Hf. rewrite patch_step_committed. unfold moves.
  destruct (target c) as [| |q]; try exact Hf.
  destruct (safeParse requestStatusUpdateSchema (payload c)) as [u|];
    try exact Hf.
  destruct (key_is q rid) eqn:Hk.
  - destruct (old_status_found q rid _ r Hk Hf) as (_ & ->).
    rewrite andb_true_r, andb_true_l.
    destruct (negb _); [|exact Hf].
    rewrite (find_request_updated q u _ rid _ r Hf), Hk. reflexivity.
  - rewrite andb_false_l.
    destruct (negb _ && _); [|exact Hf].
    rewrite (find_request_updated q u _ rid _ r Hf), Hk. reflexivity.
Qed.


End Steps.

Section UpdateFacts.

Variable engine : Engine.
Variable zone : Zone.
Variable now : Z.
Variable faults : call -> option jsstring.

(** The update is answered [200] exactly when the key is a finite number
    that selects a row, the body is valid and no store call is refused. *)
Lemma patch_status_ok (id : jsnum) (req_body : json) (s : Store) :
  fst (run (patch_status engine zone now faults id req_body) s)
  = Sent (respond 200 body_ok) ->
  exists q u,
    id = Fin q
    /\ safeParse requestStatusUpdateSchema req_body = Ok u
    /\ existsb (refused faults) update_calls = false
    /\ existsb (fun r => key_is q (Requests.id r)) (requests (committed s))
       = true.
Proof.
  pose proof (patch_status_effect engine zone now faults id req_body s) as H.
  cbv zeta in H.
  destruct id as [| |q]; try (rewrite H; discriminate).
  destruct (safeParse requestStatusUpdateSchema req_body) as [u|];
    [|rewrite H; discriminate].
  destruct H as (_ & -> & _). intros H. exists q, u.
  unfold update_calls, refused in *. cbn [existsb] in *.
  destruct (existsb _ (requests (committed s)));
    destruct (faults getConnection);
    destruct (faults beginTransaction);
    destruct (faults select_status);
    destruct (faults update_requests);
    destruct (faults insert_history);
    destruct (faults commit);
    destruct (faults rollback);
    cbn in H; try discriminate; auto.
Qed.

Lemma patch_status_store (q : Q) (u : RequestStatusUpdateInput)
  (req_body : json) (s : Store) :
  safeParse requestStatusUpdateSchema req_body = Ok u ->
  existsb (refused faults) update_calls = false ->
  existsb (fun r => key_is q (Requests.id r)) (requests (committed s))
  = true ->
  let r := run (patch_status engine zone now faults (Fin q) req_body) s in
  store (snd r)
  = {| committed :=
         updated q u (toMySqlDateTime engine zone (DDate (Some now)))
           (committed s);
       auto_increment := auto_increment s |}
  /\ forall e t, In (e, t) (journal (snd r)) ->
       t = committed s \/ t = committed (store (snd r)).
Proof.
  intros Hp Hr Hh r.
  pose proof (patch_status_effect engine zone now faults (Fin q) req_body s)
    as H.
  cbv zeta in H. rewrite Hp, Hr, Hh in H. cbn [negb andb] in H.
  destruct H as (Hs & _ & Hj & _). fold r in Hs, Hj.
  rewrite Hs. split; [reflexivity|].
  intros e t Hin. destruct (Hj e t Hin) as [->|[-> _]]; auto.
Qed.

Lemma patch_status_answers (q : Q) (u : RequestStatusUpdateInput)
  (req_body : json) (s : Store) :
  safeParse requestStatusUpdateSchema req_body = Ok u ->
  existsb (refused faults) update_calls = false ->
  existsb (fun r => key_is q (Requests.id r)) (requests (committed s))
  = true ->
  fst (run (patch_status engine zone now faults (Fin q) req_body) s)
  = Sent (respond 200 body_ok).
Proof.
  intros Hp Hr Hh.
  pose proof (patch_status_effect engine zone now faults (Fin q) req_body s)
    as H.
  cbv zeta in H. rewrite Hp, Hh, Hr in H. destruct H as (_ & -> & _).
  unfold update_calls, refused in Hr. cbn [existsb] in Hr.
  destruct (faults getConnection); [discriminate|reflexivity].
Qed.

End UpdateFacts.

(** A call goes through for a stored request exactly when it is answered
    [200] and its key selects the request. *)
Lemma moves_answered (engine : Engine) (zone : Zone) (s : Store)
  (c : patch_call) (rid : Z) (r : Requests.row)
  (u : RequestStatusUpdateInput) :
  find_request rid (committed s) = Some r ->
  moves rid c = Some u <->
  answer engine zone s c = Sent (respond 200 body_ok)
  /\ exists q,
       target c = Fin q /\ key_is q rid = true
       /\ safeParse requestStatusUpdateSchema (payload c) = Ok u.
Proof.
  intros Hf. unfold moves, answer. split.
  - destruct (target c) as [| |q]; try discriminate.
    destruct (safeParse requestStatusUpdateSchema (payload c))
      as [u'|] eqn:Hp; try discriminate.
    destruct (key_is q rid) eqn:Hk; [|discriminate].
    destruct (existsb (refused (refusing c)) update_calls) eqn:Hr;
      [discriminate|].
    intros H. injection H as ->. split; [|eauto].
    apply (patch_status_answers engine zone _ _ q u _ s Hp Hr).
    apply (old_status_found q rid _ r Hk Hf).
  - intros (Hok & q & Ht & Hk & Hp). rewrite Ht in *.
    apply patch_status_ok in Hok as (q' & u' & Hq & Hp' & Hr & _).
    rewrite Hp, Hk, Hr. reflexivity.
Qed.

(** A call enters a status for a stored request exactly when it is
    answered [200], its key selects the request and its body asks for
    that status. *)
Lemma enters_answered (engine : Engine) (zone : Zone) (s : Store)
  (c : patch_call) (rid : Z) (r : Requests.row) (st : Status) :
  find_request rid (committed s) = Some r ->
  enters st rid c = true <->
  answer engine zone s c = Sent (respond 200 body_ok)
  /\ exists q u,
       target c = Fin q /\ key_is q rid = true
       /\ safeParse requestStatusUpdateSchema (payload c) = Ok u
       /\ status u = st.
Proof.
  intros Hf. rewrite enters_moves. split.
  - destruct (moves rid c) as [u|] eqn:Hm; [|discriminate].
    intros Hst.
    apply (moves_answered engine zone s c rid r u Hf) in Hm
      as (Hok & q & Ht & Hk & Hp).
    split; [exact Hok|]. exists q, u. repeat split; auto.
    destruct (status u), st; try discriminate; reflexivity.
  - intros (Hok & q & u & Ht & Hk & Hp & <-).
    assert (Hm : moves rid c = Some u)
      by (apply (moves_answered engine zone s c rid r u Hf); eauto).
    rewrite Hm. destruct (status u); reflexivity.
Qed.

(** C3. The transition timestamps are set once. Over any sequence of
    calls of the status endpoint, valid or not, refused by the store or
    not, aimed at this request or at others, the started-at column of a
    request ends as the value it had, or when it was null as the timestamp
    of the first call that moved the request into [In Progress]; later
    such calls do not change it. The same holds of completed-at and
    [Completed]. Such a first call always supplies a timestamp. *)
Theorem timestamps_set_once (engine : Engine) (zone : Zone)
  (calls : list patch_call) (s : Store) (rid : Z) (r : Requests.row) :
  find_request rid (committed s) = Some r ->
  exists r',
    find_request rid (committed (patch_all engine zone calls s)) = Some r'
    /\ Requests.started_at r'
       = COALESCE (Requests.started_at r)
           (first_entry engine zone InProgress rid calls)
    /\ Requests.completed_at r'
       = COALESCE (Requests.completed_at r)
           (first_entry engine zone Completed rid calls)
    /\ (forall st c, List.find (enters st rid) calls = Some c ->
          first_entry engine zone st rid calls <> None).
Proof.
  revert s r. induction calls as [|c cs IH]; intros s r Hf.
  - exists r. unfold first_entry. cbn. split; [exact Hf|].
    split; [destruct (Requests.started_at r); reflexivity|].
    split; [destruct (Requests.completed_at r); reflexivity|].
    discriminate.
  - pose proof (patch_step_row engine zone s c rid r Hf) as Hstep.
    destruct (IH _ _ Hstep) as (r' & Hf' & Hs & Hc & _).
    exists r'. split; [exact Hf'|].
    unfold first_entry in *. cbn [List.find].
    rewrite !enters_moves.
    rewrite Hs, Hc.
    pose proof (toMySqlDateTime_date engine zone (at_time c)) as Hnow.
    destruct (toMySqlDateTime engine zone (DDate (Some (at_time c))))
      as [t|] eqn:Et; [clear Hnow|congruence].
    repeat split.
    + destruct (moves rid c) as [[st ex nt]|]; [|reflexivity].
      destruct st; cbn -[toMySqlDateTime]; rewrite ?Et; try reflexivity.
      destruct (Requests.started_at r); reflexivity.
    + destruct (moves rid c) as [[st ex nt]|]; [|reflexivity].
      destruct st; cbn -[toMySqlDateTime]; rewrite ?Et; try reflexivity.
      destruct (Requests.completed_at r); reflexivity.
    + intros st c'. cbn [List.find]. rewrite enters_moves.
      destruct (match moves rid c with
                | Some u => status_eqb (status u) st
                | None => false
                end).
      * intros _. apply toMySqlDateTime_date.
      * intros H. rewrite H. apply toMySqlDateTime_date.
Qed.

(** Request 1 is moved into [In Progress] at noon and again an hour
    later: started-at is the noon timestamp. *)
Lemma timestamps_set_once_witness :
  exists r',
    find_request 1
      (committed
         (patch_all example_engine utc [start_at_noon; start_again]
            one_request)) = Some r'
    /\ Requests.started_at r' = Some noon_sql.
Proof.
  destruct (timestamps_set_once example_engine utc
              [start_at_noon; start_again] one_request 1 request_1 eq_refl)
    as (r' & Hf & Hs & _).
  exists r'. split; [exact Hf|exact Hs].
Defined.

(** C4, as the code has it. An unknown request leaves the store as it
    was. When no stored request has the key of a status update, no
    request row is updated and no history row is inserted, whatever the
    body and whatever the store refuses, and every state a reader could
    see meanwhile is that same state. The call is answered [404] with the
    message "Request not found" exactly when the key is a finite number,
    the body is valid and the store answers the connection, the start of
    the transaction, the lookup and the rollback that precedes the
    answer. The two checks of the handler come first: a key that is not
    a finite number gets [400] "Invalid id", an invalid body [400]
    "Invalid payload". When the store refuses one of the four calls the
    answer is [500], or none at all when the error leaves the handler. *)
Theorem unknown_request_is_not_found (engine : Engine) (zone : Zone)
  (now : Z) (faults : call -> option jsstring) (id : jsnum)
  (req_body : json) (s : Store) :
  stored id (committed s) = false ->
  let r := run (patch_status engine zone now faults id req_body) s in
  store (snd r) = s
  /\ (forall e t, In (e, t) (journal (snd r)) -> t = committed s)
  /\ (fst r = Sent (respond 404 (body_message "Request not found")) <->
      isFinite id = true
      /\ success (safeParse requestStatusUpdateSchema req_body) = true
      /\ existsb (refused faults)
           [getConnection; beginTransaction; select_status; rollback]
         = false)
  /\ (isFinite id = false ->
      fst r = Sent (respond 400 (body_message "Invalid id")))
  /\ (forall issues,
        isFinite id = true ->
        safeParse requestStatusUpdateSchema req_body = Err issues ->
        fst r = Sent (respond 400 (body_invalid "Invalid payload" issues)))
  /\ (isFinite id = true ->
      success (safeParse requestStatusUpdateSchema req_body) = true ->
      existsb (refused faults)
        [getConnection; beginTransaction; select_status; rollback] = true ->
      fst r = Sent (respond 500 (body_message "Failed to update status"))
      \/ exists e, fst r = Uncaught e).
Proof.
  intros Hs r.
  pose proof (patch_status_effect engine zone now faults id req_body s) as H.
  cbv zeta in H. fold r in H.
  destruct id as [| |q]; cbn [isFinite];
    try (rewrite H; cbn;
         split; [reflexivity|];
         split; [intros; contradiction|];
         split; [split; [discriminate|intros (? & _); discriminate]|];
         split; [reflexivity|];
         split; intros; discriminate).
  cbn [stored] in Hs.
  destruct (safeParse requestStatusUpdateSchema req_body) as [u|issues];
    cbn [success].
  - rewrite Hs, andb_false_r in H. destruct H as (Hst & Hout & Hj & _).
    cbn [negb orb] in Hout.
    split; [exact Hst|].
    split.
    { intros e t Hin.
      destruct (Hj e t Hin) as [->|[_ Hno]]; [reflexivity|discriminate]. }
    rewrite Hout. unfold refused. cbn [existsb].
    destruct (faults getConnection);
      destruct (faults beginTransaction);
      destruct (faults select_status);
      destruct (faults rollback);
      cbn;
      (split; [split; [discriminate || auto|
                      intros (_ & _ & ?); discriminate || reflexivity]|]);
      (split; [discriminate|]);
      (split; [discriminate|]);
      intros _ _ ?; try discriminate; eauto.
  - rewrite H. cbn.
    split; [reflexivity|].
    split; [intros; contradiction|].
    split; [split; [discriminate|intros (_ & ? & _); discriminate]|].
    split; [discriminate|].
    split; [|discriminate].
    intros issues' _ Hi. injection Hi as <-. reflexivity.
Qed.

(** Request 7 is not stored: the update is answered 404. *)
Lemma unknown_request_is_not_found_witness :
  fst (run (patch_status example_engine utc noon no_faults
              (Fin (inject_Z 7))
              (obj [("status", jstr "Completed")]%string)) one_request)
  = Sent (respond 404 (body_message "Request not found")).
Proof.
  apply (proj2 (proj1 (proj2 (proj2
           (unknown_request_is_not_found example_engine utc noon no_faults
              (Fin (inject_Z 7))
              (obj [("status", jstr "Completed")]%string) one_request
              eq_refl))))).
  repeat split; reflexivity.
Defined.

(** C4 as stated fails for calls the handler refuses before it looks the
    request up. Request 7 is not stored and the body names no known
    status: the answer is the 400 of validation, not 404. The same holds
    for a key that is not a number, answered "Invalid id". *)
Lemma unknown_request_invalid_body :
  stored (Fin (inject_Z 7)) (committed one_request) = false
  /\ fst (run (patch_status example_engine utc noon no_faults
                 (Fin (inject_Z 7))
                 (obj [("status", jstr "Done")]%string)) one_request)
     = Sent (respond 400
               (body_invalid "Invalid payload"
                  [mk_issue [Key "status"] invalid_enum_value]))
  /\ stored NaN (committed one_request) = false
  /\ fst (run (patch_status example_engine utc noon no_faults NaN
                 (obj [("status", jstr "Completed")]%string)) one_request)
     = Sent (respond 400 (body_message "Invalid id")).
Proof. repeat split; reflexivity. Qed.

(** Request 7 is not stored, the body is valid and the store refuses the
    rollback that precedes the 404: the catch block awaits the rollback
    again, and its error leaves the handler with the transaction open
    and the store as it was. *)
Example unknown_request_rollback_refused :
  run (patch_status example_engine utc noon rollback_refused
         (Fin (inject_Z 7)) (obj [("status", jstr "Completed")]%string))
    one_request
  = (Uncaught (lit "ER_QUERY_INTERRUPTED: Query execution was interrupted"),
     {| store := one_request;
        pending := Some (committed one_request);
        journal :=
          List.map (fun e => (e, committed one_request))
            [Released; Refused rollback; Refused rollback;
             Done select_status; Done beginTransaction;
             Done getConnection];
        console := [] |}).
Proof. reflexivity. Qed.



(** C9. The frame of a status update. An update that is answered [200]
    leaves both line-item tables as they were and every request row the
    key does not select as it was; in a row it selects, the identifier,
    the submitted columns (submitter, kind, priority, dates, descriptive
    fields) and created-at keep their values, status and updated-at are
    set, the executor is set when the body has the field (to null for a
    null) and kept otherwise, started-at changes only for [In Progress],
    completed-at only for [Completed], and the issue note only for
    [Issue], where it becomes the note of the body or null. *)
Theorem status_update_frame (engine : Engine) (zone : Zone) (now : Z)
  (faults : call -> option jsstring) (id : jsnum) (req_body : json)
  (s : Store) :
  let r := run (patch_status engine zone now faults id req_body) s in
  let t := committed s in
  let t' := committed (store (snd r)) in
  fst r = Sent (respond 200 body_ok) ->
  exists q u,
    id = Fin q
    /\ safeParse requestStatusUpdateSchema req_body = Ok u
    /\ lots t' = lots t
    /\ sampling_lots t' = sampling_lots t
    /\ auto_increment (store (snd r)) = auto_increment s
    /\ requests t'
       = List.map (fun x =>
           if key_is q (Requests.id x)
           then
             Requests.make
               (Requests.id x) (Requests.submitted x)
               (Requests.created_at x)
               (toMySqlDateTime engine zone (DDate (Some now)))
               (Some (status u))
               (match executor u with
                | Undef => Requests.executor x
                | Null => None
                | Val e => Some e
                end)
               (match status u, note u with
                | Issue, Val n => Some n
                | Issue, _ => None
                | _, _ => Requests.issue_note x
                end)
               (match status u, Requests.started_at x with
                | InProgress, None =>
                    toMySqlDateTime engine zone (DDate (Some now))
                | _, old => old
                end)
               (match status u, Requests.completed_at x with
                | Completed, None =>
                    toMySqlDateTime engine zone (DDate (Some now))
                | _, old => old
                end)
           else x) (requests t).
Proof.
  intros r t t' Hok.
  destruct (patch_status_ok engine zone now faults id req_body s Hok)
    as (q & u & -> & Hp & Hr & Hh).
  destruct (patch_status_store engine zone now faults q u req_body s
              Hp Hr Hh) as (Hs & _).
  fold r in Hs. exists q, u. unfold t'. rewrite Hs.
  cbn [committed auto_increment updated add_history with_requests lots
       sampling_lots requests].
  repeat split; auto.
  rewrite update_where_rows. apply map_ext. intros x.
  destruct (key_is q (Requests.id x)); [|reflexivity].
  unfold row_after. destruct u as [st ex nt]. cbn [status executor note].
  destruct st, ex, nt, (Requests.started_at x), (Requests.completed_at x);
    reflexivity.
Qed.

(** Request 1 is moved into [In Progress]: its lot is as it was. *)
Lemma status_update_frame_witness :
  lots (committed (patch_all example_engine utc [start_at_noon] one_request))
  = lots (committed one_request).
Proof.
  destruct (status_update_frame example_engine utc noon no_faults
              (Fin (inject_Z 1))
              (obj [("status", jstr "In Progress")]%string) one_request
              eq_refl) as (q & u & _ & _ & Hl & _).
  exact Hl.
Defined.

(* ================================================================== *)
(** ** The validator *)
(* ================================================================== *)

Lemma reads_as_column (v : option json) (x : nullish jsstring) :
  reads_as v x -> or_null x = text_column v.
Proof. intros []; reflexivity. Qed.

Lemma field_reads_as (k : string) (o : list (jsstring * json))
  (x : nullish jsstring) :
  field k (optional_nullable z_string) o = Ok x -> reads_as (get k o) x.
Proof.
  unfold field. intros H. apply at_seg_ok_inv in H.
  apply optional_nullable_string. exact H.
Qed.

(** C6, as the code has it. The optional descriptive text fields are
    [z.string().optional().nullable()] with no minimum length: the field
    schema accepts exactly an absent value, a null and any string, the
    empty string included. In every payload that validates each of the
    seven fields is one of the three, and the column of the stored row is
    the string when it is a string and null when it is absent or null. *)
Theorem descriptive_fields_are_optional_strings :
  (forall v x, optional_nullable z_string v = Ok x <-> reads_as v x)
  /\ (forall engine zone now req_body data,
        safeParse (requestSchema engine zone now) req_body = Ok data ->
        exists o,
          req_body = JObj o
          /\ let b := base_of data in
             let row := submitted_of engine zone data in
             (reads_as (get "facilityLocation" o) (facilityLocation b)
              /\ facility_location row
                 = text_column (get "facilityLocation" o))
             /\ (reads_as (get "receiverName" o) (receiverName b)
                 /\ receiver_name row = text_column (get "receiverName" o))
             /\ (reads_as (get "qawrNumber" o) (qawrNumber b)
                 /\ qawr_number row = text_column (get "qawrNumber" o))
             /\ (reads_as (get "jiraLink" o) (jiraLink b)
                 /\ jira_link row = text_column (get "jiraLink" o))
             /\ (reads_as (get "lotLocation" o) (lotLocation b)
                 /\ lot_location row = text_column (get "lotLocation" o))
             /\ (reads_as (get "attentionTo" o) (attentionTo b)
                 /\ attention_to row = text_column (get "attentionTo" o))
             /\ (reads_as (get "shippingAddress" o) (shippingAddress b)
                 /\ shipping_address row
                    = text_column (get "shippingAddress" o))).
Proof.
  split; [exact optional_nullable_string|].
  intros engine zone now req_body data Hp.
  apply requestSchema_inv in Hp as (o & -> & Hb & _).
  apply baseRequest_inv in Hb as (H1 & H2 & H3 & H4 & H5 & H6 & H7).
  exists o. split; [reflexivity|]. cbv zeta.
  apply field_reads_as in H1, H2, H3, H4, H5, H6, H7.
  unfold submitted_of.
  cbn [facility_location receiver_name qawr_number jira_link lot_location
       attention_to shipping_address].
  repeat split; auto using reads_as_column.
Qed.

(** A request whose seven descriptive text fields are empty strings
    validates and is stored with empty strings. *)
Lemma descriptive_fields_are_optional_strings_witness :
  facility_location (submitted_of example_engine utc blank_data) = Some [].
Proof.
  destruct (proj2 descriptive_fields_are_optional_strings example_engine utc
              noon blank_descriptions blank_data eq_refl)
    as (o & Ho & (_ & H) & _).
  rewrite H. injection Ho as <-. reflexivity.
Defined.

(** The claim of C6 fails: a payload that supplies the empty string for
    each descriptive text field is accepted. *)
Lemma empty_descriptive_fields_accepted :
  exists fields data,
    blank_descriptions = JObj fields
    /\ get "facilityLocation" fields = Some (JStr [])
    /\ get "receiverName" fields = Some (JStr [])
    /\ get "qawrNumber" fields = Some (JStr [])
    /\ get "jiraLink" fields = Some (JStr [])
    /\ get "lotLocation" fields = Some (JStr [])
    /\ get "attentionTo" fields = Some (JStr [])
    /\ get "shippingAddress" fields = Some (JStr [])
    /\ safeParse (requestSchema example_engine utc noon) blank_descriptions
       = Ok data
    /\ facilityLocation (base_of data) = Val [].
Proof.
  do 2 eexists. repeat split; reflexivity.
Qed.

Lemma z_number_checked (c : num_check) (v : option json) (n : jsnum) :
  z_number [int; c] v = Ok n <->
  exists q,
    v = Some (JNum (Fin q)) /\ n = Fin q /\ q_is_int q = true
    /\ check_num (Fin q) c = [].
Proof.
  split.
  - destruct v as [[| |[|neg|q]| | |]|]; try (cbn; discriminate).
    unfold z_number, run_checks. cbn [flat_map check_num isInteger].
    rewrite app_nil_r.
    destruct (q_is_int q) eqn:Hi; [|discriminate]. cbn [app].
    destruct (check_num (Fin q) c) eqn:E; [|discriminate].
    intros H. injection H as <-. exists q. auto.
  - intros (q & -> & -> & Hi & Hc).
    unfold z_number, run_checks. cbn [flat_map check_num isInteger].
    rewrite Hi, Hc. reflexivity.
Qed.

Lemma success_parse_items {A} (p : schema A) (xs : list json) (i : nat) :
  success (parse_items p i xs)
  = forallb (fun x => success (p (Some x))) xs.
Proof.
  revert i. induction xs as [|x xs IH]; intros i; [reflexivity|].
  cbn [parse_items forallb]. rewrite !success_ap, success_at_seg, IH.
  reflexivity.
Qed.

Lemma array_item_fails {A} (p : schema A) (n : Z) (k : string)
  (o : list (jsstring * json)) (xs : list json) (x : json) :
  get k o = Some (JArr xs) -> In x xs -> success (p (Some x)) = false ->
  success (field k (z_array_min p n) o) = false.
Proof.
  intros Hk Hin Hx. unfold field. rewrite success_at_seg, Hk.
  unfold z_array_min. rewrite !success_ap, success_parse_items.
  apply andb_false_intro2.
  destruct (forallb _ xs) eqn:E; [|reflexivity].
  rewrite forallb_forall in E. rewrite <- Hx. symmetry. apply E, Hin.
Qed.

Lemma lotSchema_string_quantity (item : list (jsstring * json))
  (s : jsstring) :
  get "unitsQuantity" item = Some (JStr s) ->
  success (lotSchema (Some (JObj item))) = false.
Proof.
  intros H. unfold lotSchema, z_object. rewrite !success_ap.
  unfold field at 2. rewrite H. cbn. rewrite andb_false_r. reflexivity.
Qed.

Lemma samplingLotSchema_string_quantity (item : list (jsstring * json))
  (s : jsstring) :
  get "unitQuantity" item = Some (JStr s) ->
  success (samplingLotSchema (Some (JObj item))) = false.
Proof.
  intros H. unfold samplingLotSchema, z_object. rewrite !success_ap.
  unfold field at 2. rewrite H. cbn. rewrite !andb_false_r. reflexivity.
Qed.

(** The discriminator picks the schema of its request type. *)
Lemma requestSchema_dispatch (engine : Engine) (zone : Zone) (now : Z)
  (k : RequestType) (o : list (jsstring * json)) :
  get "requestType" o = Some (JStr (lit (requestType_name k))) ->
  safeParse (requestSchema engine zone now) (JObj o)
  = match k with
    | SamplingRequest => samplingRequestSchema engine zone now
    | _ => lotRequest engine k
    end (Some (JObj o)).
Proof.
  intros H. unfold safeParse, requestSchema, z_discriminatedUnion.
  rewrite H. destruct k; reflexivity.
Qed.

Lemma check_nonnegative (q : Q) :
  check_num (Fin q) nonnegative = [] <-> 0 <= Qnum q.
Proof.
  cbn. destruct (Z.ltb_spec (Qnum q) 0); split; intros; try reflexivity;
    try discriminate; lia.
Qed.

Lemma check_positive (q : Q) :
  check_num (Fin q) positive = [] <-> 0 < Qnum q.
Proof.
  cbn. destruct (Z.leb_spec (Qnum q) 0); split; intros; try reflexivity;
    try discriminate; lia.
Qed.

Lemma legacy_quantity (engine : Engine) (s : jsstring) (n : jsnum) :
  z_coerce_number engine [int; nonnegative] (Some (JStr s)) = Ok n <->
  exists q,
    StringToNumber engine s = Fin q /\ n = Fin q /\ q_is_int q = true
    /\ 0 <= Qnum q.
Proof.
  unfold z_coerce_number. cbn [to_Number].
  destruct (StringToNumber engine s) as [|neg|q] eqn:E.
  - split; [discriminate|]. intros (q & H & _). discriminate.
  - split; [|intros (q & H & _); discriminate].
    cbn. destruct neg; discriminate.
  - pose proof (z_number_checked nonnegative (Some (JNum (Fin q))) n) as H.
    cbn [z_number] in H. rewrite H. clear H.
    split.
    + intros (q' & Hq & -> & Hi & Hc). injection Hq as <-.
      exists q. rewrite <- check_nonnegative. auto.
    + intros (q' & Hq & -> & Hi & Hc). injection Hq as <-.
      exists q. rewrite check_nonnegative. auto.
Qed.

(** C7, as the code has it. The quantity of a lot and of a sampling lot
    are [z.number().int()] with a sign check and no coercion: the field
    accepts exactly a JSON number that is an integer, not negative for a
    lot (where it may also be absent or null) and strictly positive for a
    sampling lot, and returns that same number. A payload in which the
    quantity of a line item is a string,
    numeric or not, fails validation. Only the lot of the flat schema of
    [src/schema.ts] coerces: it accepts a string exactly when [Number]
    makes a non-negative integer of it. *)
Theorem quantities_are_json_integers :
  (forall v x,
     optional_nullable (z_number [int; nonnegative]) v = Ok x <->
     (v = None /\ x = Undef)
     \/ (v = Some JNull /\ x = Null)
     \/ exists q, v = Some (JNum (Fin q)) /\ x = Val (Fin q)
                  /\ q_is_int q = true /\ 0 <= Qnum q)
  /\ (forall v n,
        z_number [int; positive] v = Ok n <->
        exists q, v = Some (JNum (Fin q)) /\ n = Fin q /\ q_is_int q = true
                  /\ 0 < Qnum q)
  /\ (forall engine zone now k o xs item s,
        k <> SamplingRequest ->
        get "requestType" o = Some (JStr (lit (requestType_name k))) ->
        get "lots" o = Some (JArr xs) ->
        In (JObj item) xs ->
        get "unitsQuantity" item = Some (JStr s) ->
        success (safeParse (requestSchema engine zone now) (JObj o)) = false)
  /\ (forall engine zone now o xs item s,
        get "requestType" o = Some (JStr (lit "Sampling Request")) ->
        get "samplingLots" o = Some (JArr xs) ->
        In (JObj item) xs ->
        get "unitQuantity" item = Some (JStr s) ->
        success (safeParse (requestSchema engine zone now) (JObj o)) = false)
  /\ (forall engine s n,
        z_coerce_number engine [int; nonnegative] (Some (JStr s)) = Ok n <->
        exists q, StringToNumber engine s = Fin q /\ n = Fin q
                  /\ q_is_int q = true /\ 0 <= Qnum q).
Proof.
  split; [|split; [|split; [|split]]].
  - intros v x. split.
    + destruct v as [w|]; [|intros H; injection H as <-; auto].
      destruct w as [| |n| | |];
        try (intros H; injection H as <-; auto; fail);
        try (cbn; discriminate).
      unfold optional_nullable.
      destruct (z_number [int; nonnegative] (Some (JNum n))) as [m|] eqn:E;
        [|discriminate].
      intros H. injection H as <-.
      apply z_number_checked in E as (q & Hq & -> & Hi & Hc).
      right. right. exists q. rewrite <- check_nonnegative. auto.
    + intros [[-> ->]|[[-> ->]|(q & -> & -> & Hi & Hc)]]; try reflexivity.
      unfold optional_nullable.
      replace (z_number [int; nonnegative] (Some (JNum (Fin q))))
        with (Ok (Fin q)) ; [reflexivity|].
      symmetry. apply z_number_checked. exists q.
      rewrite check_nonnegative. auto.
  - intros v n. rewrite z_number_checked.
    split; intros (q & H1 & H2 & H3 & H4); exists q;
      [rewrite <- check_positive | rewrite check_positive]; auto.
  - intros engine zone now k o xs item s Hk Ht Hl Hin Hq.
    rewrite (requestSchema_dispatch engine zone now k o Ht).
    assert (Hgoal : success (lotRequest engine k (Some (JObj o))) = false).
    { unfold lotRequest, z_object. rewrite !success_ap.
      rewrite (array_item_fails lotSchema 1 "lots" o xs (JObj item) Hl Hin
                 (lotSchema_string_quantity item s Hq)).
      apply andb_false_r. }
    destruct k; try exact Hgoal. congruence.
  - intros engine zone now o xs item s Ht Hl Hin Hq.
    rewrite (requestSchema_dispatch engine zone now SamplingRequest o Ht).
    unfold samplingRequestSchema, z_object. rewrite !success_ap.
    rewrite (array_item_fails samplingLotSchema 1 "samplingLots" o xs
               (JObj item) Hl Hin
               (samplingLotSchema_string_quantity item s Hq)).
    apply andb_false_r.
  - exact legacy_quantity.
Qed.

(** The quantity "5" of the one lot of a Lot Transfer request: the
    payload is rejected. *)
Lemma quantities_are_json_integers_witness :
  success (safeParse (requestSchema example_engine utc noon)
             quantity_as_string) = false.
Proof.
  unfold quantity_as_string, obj. cbn [List.map fst snd].
  eapply (proj1 (proj2 (proj2 quantities_are_json_integers))
            example_engine utc noon LotTransfer);
    [discriminate | reflexivity | reflexivity | left; reflexivity
    | reflexivity].
Defined.

(** The claim of C7 fails: the numeric string "5" as the quantity of a
    lot is not accepted, the payload gets an issue on that field. *)
Lemma numeric_string_quantity_rejected :
  safeParse (requestSchema example_engine utc noon) quantity_as_string
  = Err [mk_issue [Key "lots"; Idx 0; Key "unitsQuantity"] invalid_type].
Proof. reflexivity. Qed.

(** A lot of the flat schema with the quantity "5". *)
Example legacy_lot_coerces :
  Legacy.lotSchema example_engine
    (Some (obj [("lotId", jstr "L1"); ("unitsQuantity", jstr "5")]%string))
  = Ok (Legacy.make (lit "L1") (Fin 5) Undef).
Proof. reflexivity. Qed.







(** At noon a release date at the first instant of the same day is
    accepted, and so is the last instant of the day. *)
Example qr_date_today_accepted :
  success (safeParse (requestSchema example_engine utc noon)
             (sampling_released "2024-05-06T00:00:00.000Z")) = true
  /\ success (safeParse (requestSchema example_engine utc noon)
                (sampling_released "2024-05-06T23:59:59.999Z")) = true.
Proof. split; reflexivity. Qed.

Lemma trim_start_head (s : jsstring) :
  match trim_start s with [] => True | c :: _ => is_space c = false end.
Proof.
  induction s as [|c s IH]; cbn [trim_start]; [exact I|].
  destruct (is_space c) eqn:E; [exact IH|exact E].
Qed.

Lemma trim_start_fixed (s : jsstring) :
  match s with [] => True | c :: _ => is_space c = false end ->
  trim_start s = s.
Proof.
  destruct s as [|c s]; [reflexivity|]. cbn [trim_start].
  intros ->. reflexivity.
Qed.

Lemma trim_start_suffix (s : jsstring) :
  exists pre, s = pre ++ trim_start s.
Proof.
  induction s as [|c s (pre & IH)]; [exists []; reflexivity|].
  cbn [trim_start]. destruct (is_space c).
  - exists (c :: pre). cbn. rewrite <- IH. reflexivity.
  - exists []. reflexivity.
Qed.

Lemma trim_start_keeps_last (l : jsstring) (c : N) :
  is_space c = false -> trim_start (l ++ [c]) <> [].
Proof.
  intros Hc. induction l as [|x l IH]; cbn [app trim_start].
  - rewrite Hc. discriminate.
  - destruct (is_space x); [exact IH|discriminate].
Qed.

Lemma trim_end_prefix (s : jsstring) : exists suf, s = trim_end s ++ suf.
Proof.
  unfold trim_end. destruct (trim_start_suffix (rev s)) as (pre & H).
  exists (rev pre). rewrite <- rev_app_distr, <- H, rev_involutive.
  reflexivity.
Qed.

Lemma trim_end_head (c : N) (s : jsstring) :
  is_space c = false -> exists rest, trim_end (c :: s) = c :: rest.
Proof.
  intros Hc. destruct (trim_end_prefix (c :: s)) as (suf & H).
  destruct (trim_end (c :: s)) as [|d rest] eqn:E.
  - exfalso. unfold trim_end in E. cbn [rev] in E.
    apply (trim_start_keeps_last (rev s) c Hc).
    rewrite <- (rev_involutive (trim_start (rev s ++ [c]))), E.
    reflexivity.
  - injection H as <- _. eauto.
Qed.

Lemma trim_tidy (s : jsstring) : tidy (trim s).
Proof.
  unfold tidy, trim. split.
  - pose proof (trim_start_head s) as H.
    destruct (trim_start s) as [|c x]; [exact I|].
    destruct (trim_end_head c x H) as (rest & ->). exact H.
  - unfold trim_end. rewrite rev_involutive. apply trim_start_head.
Qed.

Lemma tidy_trim (s : jsstring) : tidy s -> trim s = s.
Proof.
  intros [Hh Hl]. unfold trim. rewrite (trim_start_fixed s Hh).
  unfold trim_end. rewrite (trim_start_fixed (rev s) Hl).
  apply rev_involutive.
Qed.

Lemma trim_start_strips (s : jsstring) :
  exists pre, s = pre ++ trim_start s /\ forallb is_space pre = true.
Proof.
  induction s as [|c s (pre & IH & Hpre)]; [exists []; split; reflexivity|].
  cbn [trim_start]. destruct (is_space c) eqn:E.
  - exists (c :: pre). cbn [app forallb]. rewrite <- IH, E, Hpre.
    split; reflexivity.
  - exists []. split; reflexivity.
Qed.

Lemma forallb_rev {A} (f : A -> bool) (l : list A) :
  forallb f (rev l) = forallb f l.
Proof.
  induction l as [|x l IH]; [reflexivity|].
  cbn [rev forallb]. rewrite forallb_app, IH. cbn [forallb].
  rewrite andb_true_r. apply andb_comm.
Qed.

Lemma trim_end_strips (s : jsstring) :
  exists post, s = trim_end s ++ post /\ forallb is_space post = true.
Proof.
  unfold trim_end. destruct (trim_start_strips (rev s)) as (pre & H & Hpre).
  exists (rev pre). split.
  - rewrite <- rev_app_distr, <- H, rev_involutive. reflexivity.
  - rewrite forallb_rev. exact Hpre.
Qed.

(** [trim] strips the white space at the two ends and nothing else. *)
Lemma trim_stripped (s : jsstring) : stripped s (trim s).
Proof.
  destruct (trim_start_strips s) as (pre & Hs & Hpre).
  destruct (trim_end_strips (trim_start s)) as (post & He & Hpost).
  exists pre, post. fold (trim s) in He.
  split; [rewrite <- He; exact Hs|].
  split; [exact Hpre|]. split; [exact Hpost|apply trim_tidy].
Qed.

(** Stripping leaves no choice: a text has one stripped form. *)
Lemma stripped_trim (text stored : jsstring) :
  stripped text stored -> stored = trim text.
Proof.
  intros (pre & post & -> & Hpre & Hpost & Hh & Hl).
  assert (Hstart : forall l x, forallb is_space l = true ->
                     trim_start (l ++ x) = trim_start x).
  { induction l as [|c l IH]; intros x Hc; [reflexivity|].
    cbn [forallb] in Hc. apply andb_true_iff in Hc as [Hc Hl'].
    cbn [app trim_start]. rewrite Hc. auto. }
  unfold trim. rewrite (Hstart pre _ Hpre).
  destruct stored as [|c x].
  - cbn [app]. unfold trim_end.
    assert (E : trim_start post = []).
    { rewrite <- (app_nil_r post), (Hstart post [] Hpost). reflexivity. }
    rewrite E. cbn [rev trim_start].
    reflexivity.
  - cbn [app trim_start]. rewrite Hh. unfold trim_end.
    change (c :: x ++ post) with ((c :: x) ++ post).
    rewrite rev_app_distr, (Hstart (rev post)), (trim_start_fixed _ Hl),
      rev_involutive by (rewrite forallb_rev; exact Hpost).
    reflexivity.
Qed.

Lemma parse_items_items {A} (p : schema A) :
  forall xs i l,
    parse_items p i xs = Ok l -> Forall2 (fun x a => p (Some x) = Ok a) xs l.
Proof.
  induction xs as [|x xs IH]; intros i l; cbn [parse_items].
  - intros H. injection H as <-. constructor.
  - intros H. ap_inv H.
    match goal with
    | Hx : at_seg _ _ = Ok _ |- _ => apply at_seg_ok_inv in Hx
    end.
    constructor; eauto.
Qed.

Lemma field_array_items {A} (p : schema A) (k : string)
  (o : list (jsstring * json)) (l : list A) :
  field k (z_array_min p 1) o = Ok l ->
  Forall2 (fun x a => p (Some x) = Ok a) (line_items (JObj o) k) l.
Proof.
  intros H. unfold field in H. apply at_seg_ok_inv in H.
  unfold z_array_min in H. unfold line_items.
  destruct (get k o) as [[| | | |xs|]|]; try discriminate.
  cbv zeta in H. ap_inv H.
  eapply parse_items_items; eassumption.
Qed.

Lemma lotSchema_lotId (item : list (jsstring * json)) (l : Lot.t) :
  lotSchema (Some (JObj item)) = Ok l ->
  get "lotId" item = Some (JStr (Lot.lotId l)) /\ Lot.lotId l <> [].
Proof.
  unfold lotSchema, z_object. intros H. ap_inv H. cbn [Lot.lotId].
  match goal with
  | Hk : field "lotId" _ _ = Ok _ |- _ =>
      unfold field in Hk; apply at_seg_ok_inv in Hk;
      unfold z_string_min, z_string in Hk;
      destruct (get "lotId" item) as [[| | |s| |]|]; try discriminate;
      destruct (js_length s <? 1) eqn:E; try discriminate;
      injection Hk as <-
  end.
  split; [reflexivity|]. intros ->. discriminate.
Qed.

Lemma samplingLotSchema_lotId (item : list (jsstring * json))
  (l : SamplingLot.t) :
  samplingLotSchema (Some (JObj item)) = Ok l ->
  get "lotId" item = Some (JStr (SamplingLot.lotId l))
  /\ SamplingLot.lotId l <> [].
Proof.
  unfold samplingLotSchema, z_object. intros H. ap_inv H.
  cbn [SamplingLot.lotId].
  match goal with
  | Hk : field "lotId" _ _ = Ok _ |- _ =>
      unfold field in Hk; apply at_seg_ok_inv in Hk;
      unfold z_string_min, z_string in Hk;
      destruct (get "lotId" item) as [[| | |s| |]|]; try discriminate;
      destruct (js_length s <? 1) eqn:E; try discriminate;
      injection Hk as <-
  end.
  split; [reflexivity|]. intros ->. discriminate.
Qed.

(** The rows of a bulk insert against the line items of the payload. *)
Lemma lot_rows_stripped (rid : Z) (items : list json) (ls : list Lot.t) :
  Forall2 (fun x l => lotSchema (Some x) = Ok l) items ls ->
  Forall2
    (fun x row =>
       exists id,
         lot_id_of x = Some id /\ id <> []
         /\ stripped id (Lots.lot_id row))
    items (lot_rows rid ls).
Proof.
  induction 1 as [|x l items ls Hx _ IH]; cbn [lot_rows List.map];
    constructor; [|exact IH].
  assert (exists item, x = JObj item) as (item & ->).
  { unfold lotSchema, z_object in Hx.
    destruct x; try discriminate. eauto. }
  apply lotSchema_lotId in Hx as (Hg & Hne).
  exists (Lot.lotId l). cbn [lot_id_of Lots.lot_id]. rewrite Hg.
  split; [reflexivity|]. split; [exact Hne|apply trim_stripped].
Qed.

Lemma sampling_lot_rows_stripped (rid : Z) (items : list json)
  (ls : list SamplingLot.t) :
  Forall2 (fun x l => samplingLotSchema (Some x) = Ok l) items ls ->
  Forall2
    (fun x row =>
       exists id,
         lot_id_of x = Some id /\ id <> []
         /\ stripped id (SamplingLots.lot_id row))
    items (sampling_lot_rows rid ls).
Proof.
  induction 1 as [|x l items ls Hx _ IH];
    cbn [sampling_lot_rows List.map]; constructor; [|exact IH].
  assert (exists item, x = JObj item) as (item & ->).
  { unfold samplingLotSchema, z_object in Hx.
    destruct x; try discriminate. eauto. }
  apply samplingLotSchema_lotId in Hx as (Hg & Hne).
  exists (SamplingLot.lotId l). cbn [lot_id_of SamplingLots.lot_id].
  rewrite Hg.
  split; [reflexivity|]. split; [exact Hne|apply trim_stripped].
Qed.

(** C10. The stored lot identifier is the stripped one. When a validated
    payload is saved, the rows added to the child table of its kind are
    one per line item of the payload, in order, of a lot and of a
    sampling lot alike. The lot identifier of the item is a non-empty
    string, and the lot identifier of its row is that string with the
    white space at its two ends cut off: what is cut is white space only,
    the rest is kept as it is, inner white space included, and the stored
    text neither starts nor ends with white space. A text has only one
    such stripped form. So a lot identifier of white space only passes
    validation, the string being non-empty, and is stored as the empty
    string. *)
Theorem lot_identifier_is_trimmed :
  (forall engine zone now db_now faults req_body data s,
     safeParse (requestSchema engine zone now) req_body = Ok data ->
     existsb (refused faults) (getConnection :: create_unit data) = false ->
     let r := run (post_requests engine zone now db_now faults req_body) s in
     let t' := committed (store (snd r)) in
     match data with
     | LotInput _ _ _ =>
         exists rows,
           lots t' = lots (committed s) ++ rows
           /\ Forall2
                (fun item row =>
                   exists id,
                     lot_id_of item = Some id /\ id <> []
                     /\ stripped id (Lots.lot_id row))
                (line_items req_body "lots") rows
     | SamplingInput _ _ _ _ _ =>
         exists rows,
           sampling_lots t' = sampling_lots (committed s) ++ rows
           /\ Forall2
                (fun item row =>
                   exists id,
                     lot_id_of item = Some id /\ id <> []
                     /\ stripped id (SamplingLots.lot_id row))
                (line_items req_body "samplingLots") rows
     end)
  /\ (forall text stored stored',
        stripped text stored -> stripped text stored' -> stored = stored')
  /\ (forall text stored,
        stripped text stored -> forallb is_space text = true -> stored = [])
  /\ (exists req_body,
        List.map lot_id_of (line_items req_body "lots") = [Some (lit "  ")]
        /\ success (safeParse (requestSchema example_engine utc noon)
                      req_body)
           = true
        /\ List.map Lots.lot_id
             (lots (committed
                (store (snd (run (post_requests example_engine utc noon
                                    noon_sql no_faults req_body)
                               empty_store)))))
           = [[]]).
Proof.
  split; [|split; [|split]].
  - intros engine zone now db_now faults req_body data s Hp Hno r t'.
    destruct (post_requests_effect engine zone now db_now faults _ _ s Hp)
      as (_ & Hfin & _).
    fold r in Hfin. fold t' in Hfin. rewrite Hno in Hfin. rewrite Hfin.
    apply requestSchema_inv in Hp as (o & -> & _ & Hd).
    unfold created.
    destruct data as [k b ls|b st qr pn sl];
      cbn [lots sampling_lots add_lots add_sampling_lots with_requests];
      eexists; (split; [reflexivity|]).
    + destruct Hd as (_ & _ & Hl).
      apply lot_rows_stripped, field_array_items, Hl.
    + destruct Hd as (_ & _ & Hl).
      apply sampling_lot_rows_stripped, field_array_items, Hl.
  - intros text stored stored' H H'.
    rewrite (stripped_trim _ _ H), (stripped_trim _ _ H'). reflexivity.
  - intros text stored (pre & post & -> & _ & _ & Hh & _) Hall.
    rewrite !forallb_app in Hall.
    apply andb_true_iff in Hall as [_ Hall].
    apply andb_true_iff in Hall as [Hall _].
    destruct stored as [|c x]; [reflexivity|].
    cbn [forallb] in Hall. apply andb_true_iff in Hall as [Hc _].
    rewrite Hc in Hh. discriminate.
  - exists blank_lot_id. repeat split; reflexivity.
Qed.

(** The lot "  L 1" followed by a tab and a no-break space is saved: the
    row has the lot identifier of the payload, stripped. *)
Lemma lot_identifier_is_trimmed_witness :
  exists rows,
    lots (committed
            (store (snd (run (post_requests example_engine utc noon noon_sql
                                no_faults padded_lot_id) empty_store))))
    = [] ++ rows
    /\ Forall2
         (fun item row =>
            exists id,
              lot_id_of item = Some id /\ id <> []
              /\ stripped id (Lots.lot_id row))
         (line_items padded_lot_id "lots") rows.
Proof.
  exact (proj1 lot_identifier_is_trimmed example_engine utc noon noon_sql
           no_faults padded_lot_id
           (LotInput LotTransfer
              (Build_Base (lit "alice") P1 1714979289000 Undef Undef Undef
                 Undef Undef Undef Undef Undef Undef)
              [Lot.make [32; 32; 76; 32; 49; 9; 160]%N (Val (Fin 5)) Undef])
           empty_store eq_refl eq_refl).
Defined.

(** The stored identifier of that lot is "L 1", the inner space kept. *)
Example padded_lot_id_stored :
  List.map Lots.lot_id
    (lots (committed
             (store (snd (run (post_requests example_engine utc noon noon_sql
                                 no_faults padded_lot_id) empty_store)))))
  = [lit "L 1"].
Proof. reflexivity. Qed.

(* ================================================================== *)
(** ** Fresh identifiers *)
(* ================================================================== *)

Lemma well_keyed_fresh (s : Store) :
  well_keyed s -> rows_of (committed s) (auto_increment s) = ([], [], []).
Proof.
  intros (Hr & Hl & Hs). unfold rows_of.
  assert (Hnone : forall {A} (f : A -> Z) (l : list A),
             (forall x, In x l -> f x < auto_increment s) ->
             List.filter (fun x => f x =? auto_increment s) l = []).
  { intros A f l H. induction l as [|x l IH]; [reflexivity|].
    cbn [List.filter].
    destruct (Z.eqb_spec (f x) (auto_increment s)) as [E|E].
    - specialize (H x (or_introl eq_refl)). lia.
    - apply IH. intros y Hy. apply H. right. exact Hy. }
  rewrite (Hnone _ Requests.id _ Hr), (Hnone _ Lots.request_id _ Hl),
    (Hnone _ SamplingLots.request_id _ Hs).
  reflexivity.
Qed.

Lemma post_requests_well_keyed (engine : Engine) (zone : Zone) (now : Z)
  (db_now : jsstring) (faults : call -> option jsstring) (req_body : json)
  (s : Store) :
  well_keyed s ->
  well_keyed
    (store (snd (run (post_requests engine zone now db_now faults req_body)
                   s))).
Proof.
  intros Hk.
  destruct (safeParse (requestSchema engine zone now) req_body)
    as [data|issues] eqn:Hp.
  - destruct (post_requests_effect engine zone now db_now faults _ _ s Hp)
      as (_ & Hfin & _ & _ & _ & _ & Hle & Hinc).
    destruct Hk as (Hr & Hl & Hs).
    unfold well_keyed. rewrite Hfin.
    destruct (existsb (refused faults) (getConnection :: create_unit data)).
    + repeat split; intros x Hx;
        [apply Hr in Hx | apply Hl in Hx | apply Hs in Hx]; lia.
    + rewrite (Hinc eq_refl). unfold created.
      destruct data as [k b ls|b st qr pn sl];
        cbn [requests lots sampling_lots add_lots add_sampling_lots
             with_requests];
        repeat split; intros x Hx;
        try (apply in_app_or in Hx as [Hx|Hx]);
        try (apply Hr in Hx; lia);
        try (apply Hl in Hx; lia);
        try (apply Hs in Hx; lia);
        try (destruct Hx as [<-|[]]; cbn; lia);
        try (unfold lot_rows in Hx; apply in_map_iff in Hx as (y & <- & _);
             cbn; lia);
        try (unfold sampling_lot_rows in Hx;
             apply in_map_iff in Hx as (y & <- & _); cbn; lia).
  - unfold run, post_requests. rewrite Hp. exact Hk.
Qed.

Lemma assign_id (a : assignment) (r : Requests.row) :
  Requests.id (assign r a) = Requests.id r.
Proof. destruct r, a; reflexivity. Qed.

Lemma fold_assign_id (fields : list assignment) (r : Requests.row) :
  Requests.id (fold_left assign fields r) = Requests.id r.
Proof.
  revert r. induction fields as [|a fields IH]; intros r; [reflexivity|].
  cbn [fold_left]. rewrite IH. apply assign_id.
Qed.

Lemma patch_status_well_keyed (engine : Engine) (zone : Zone) (now : Z)
  (faults : call -> option jsstring) (id : jsnum) (req_body : json)
  (s : Store) :
  well_keyed s ->
  well_keyed
    (store (snd (run (patch_status engine zone now faults id req_body) s))).
Proof.
  intros Hk.
  pose proof (patch_status_effect engine zone now faults id req_body s) as H.
  cbv zeta in H.
  destruct id as [| |q]; try (rewrite H; exact Hk).
  destruct (safeParse requestStatusUpdateSchema req_body) as [u|];
    [|rewrite H; exact Hk].
  destruct H as (-> & _).
  destruct (negb _ && _); [|exact Hk].
  destruct Hk as (Hr & Hl & Hs). unfold well_keyed, updated.
  cbn [committed auto_increment requests lots sampling_lots add_history
       with_requests].
  repeat split; auto.
  intros x Hx. unfold update_where in Hx.
  apply in_map_iff in Hx as (y & <- & Hy).
  destruct (key_is q (Requests.id y)); rewrite ?fold_assign_id; auto.
Qed.

(** Every store the endpoints lead to hands out fresh identifiers. *)
Lemma reachable_well_keyed (engine : Engine) (zone : Zone) (s : Store) :
  reachable engine zone s -> well_keyed s.
Proof.
  induction 1.
  - repeat split; intros x [].
  - apply post_requests_well_keyed. assumption.
  - apply patch_status_well_keyed. assumption.
Qed.

(* ================================================================== *)
(** ** A request from intake to an issue *)
(* ================================================================== *)

(** The Lot Transfer request of alice is created from an empty store,
    then set to [Issue] with the note "damaged". *)
Example intake_then_issue :
  let created :=
    run (post_requests example_engine utc noon noon_sql no_faults
           lot_transfer) empty_store in
  let noted :=
    run (patch_status example_engine utc (noon + hour) no_faults
           (Fin (inject_Z 1))
           (obj [("status", jstr "Issue"); ("note", jstr "damaged")]%string))
      (store (snd created)) in
  let t := committed (store (snd noted)) in
  fst created = Sent (respond 200 (body_id 1))
  /\ lots (committed (store (snd created)))
     = [Lots.make 1 (lit "L1") (Some (Fin 5)) None]
  /\ fst noted = Sent (respond 200 body_ok)
  /\ List.map Requests.status (requests t) = [Some Issue]
  /\ List.map Requests.issue_note (requests t) = [Some (lit "damaged")]
  /\ List.map Requests.updated_at (requests t)
     = [Some (lit "2024-05-06 13:00:00")]
  /\ request_status_history t
     = [History.make 1 (Some New) Issue None (Some (lit "damaged"))].
Proof. cbv zeta. repeat split; reflexivity. Qed.

(* ================================================================== *)
(** ** toMySqlDateTime *)
(* ================================================================== *)

Lemma in_range (P : Z -> bool) (lo len : Z) :
  forallb P (List.map (fun i => lo + Z.of_nat i) (seq 0 (Z.to_nat len)))
  = true ->
  forall n, lo <= n < lo + len -> P n = true.
Proof.
  intros H n Hn. rewrite forallb_forall in H. apply H.
  apply in_map_iff. exists (Z.to_nat (n - lo)). split; [lia|].
  apply in_seq. lia.
Qed.

Lemma pad_renders (n : Z) : 0 <= n <= 99 -> renders 2 n (pad n) = true.
Proof.
  intros H.
  apply (in_range (fun n => renders 2 n (pad n)) 0 100);
    [vm_compute; reflexivity | lia].
Qed.

Lemma year_renders (n : Z) :
  1000 <= n <= 9999 -> renders 4 n (js_of_Z n) = true.
Proof.
  intros H.
  apply (in_range (fun n => renders 4 n (js_of_Z n)) 1000 9000);
    [vm_compute; reflexivity | lia].
Qed.

Lemma renders_two (n : Z) (s : jsstring) :
  renders 2 n s = true -> exists a b, s = [a; b] /\ digits [a; b] = Some n.
Proof.
  unfold renders.
  destruct s as [|a [|b [|c s]]]; cbn [List.length Nat.eqb andb];
    try discriminate.
  destruct (digits [a; b]) as [m|] eqn:E; [|discriminate].
  intros H. apply Z.eqb_eq in H. subst. eauto.
Qed.

Lemma renders_four (n : Z) (s : jsstring) :
  renders 4 n s = true ->
  exists a b c d, s = [a; b; c; d] /\ digits [a; b; c; d] = Some n.
Proof.
  unfold renders.
  destruct s as [|a [|b [|c [|d [|e s]]]]]; cbn [List.length Nat.eqb andb];
    try discriminate.
  destruct (digits [a; b; c; d]) as [m|] eqn:E; [|discriminate].
  intros H. apply Z.eqb_eq in H. subst. do 4 eexists. eauto.
Qed.

(** X1. For a date whose local year has four digits, [toMySqlDateTime]
    gives the 19 code units [YYYY-MM-DD HH:MM:SS]: the separators are in
    place and each group of digits reads back as the calendar field it
    renders (the month as [getMonth() + 1]). *)
Theorem toMySqlDateTime_format (engine : Engine) (zone : Zone) (t : Z) :
  1000 <= getFullYear zone t <= 9999 ->
  0 <= getMonth zone t <= 11 ->
  1 <= getDate zone t <= 31 ->
  0 <= getHours zone t <= 23 ->
  0 <= getMinutes zone t <= 59 ->
  0 <= getSeconds zone t <= 59 ->
  exists s,
    toMySqlDateTime engine zone (DDate (Some t)) = Some s
    /\ List.length s = 19%nat
    /\ slice 4 1 s = lit "-" /\ slice 7 1 s = lit "-"
    /\ slice 10 1 s = lit " "
    /\ slice 13 1 s = lit ":" /\ slice 16 1 s = lit ":"
    /\ digits (slice 0 4 s) = Some (getFullYear zone t)
    /\ digits (slice 5 2 s) = Some (getMonth zone t + 1)
    /\ digits (slice 8 2 s) = Some (getDate zone t)
    /\ digits (slice 11 2 s) = Some (getHours zone t)
    /\ digits (slice 14 2 s) = Some (getMinutes zone t)
    /\ digits (slice 17 2 s) = Some (getSeconds zone t).
Proof.
  intros Hy Hm Hd Hh Hmi Hs.
  destruct (renders_four _ _ (year_renders _ Hy))
    as (y1 & y2 & y3 & y4 & Ey & Dy).
  assert (Hm' : 0 <= getMonth zone t + 1 <= 99) by lia.
  assert (Hd' : 0 <= getDate zone t <= 99) by lia.
  assert (Hh' : 0 <= getHours zone t <= 99) by lia.
  assert (Hmi' : 0 <= getMinutes zone t <= 99) by lia.
  assert (Hs' : 0 <= getSeconds zone t <= 99) by lia.
  destruct (renders_two _ _ (pad_renders _ Hm')) as (m1 & m2 & Em & Dm).
  destruct (renders_two _ _ (pad_renders _ Hd')) as (d1 & d2 & Ed & Dd).
  destruct (renders_two _ _ (pad_renders _ Hh')) as (h1 & h2 & Eh & Dh).
  destruct (renders_two _ _ (pad_renders _ Hmi')) as (i1 & i2 & Ei & Di).
  destruct (renders_two _ _ (pad_renders _ Hs')) as (s1 & s2 & Es & Ds).
  unfold toMySqlDateTime. rewrite Ey, Em, Ed, Eh, Ei, Es.
  eexists. split; [reflexivity|].
  cbn [app lit List.map list_ascii_of_string slice firstn skipn List.length].
  repeat split; assumption || reflexivity.
Qed.

(** Noon of 2024-05-06 in UTC. *)
Lemma toMySqlDateTime_format_witness :
  exists s,
    toMySqlDateTime example_engine utc (DDate (Some noon)) = Some s
    /\ List.length s = 19%nat
    /\ digits (slice 5 2 s) = Some 5.
Proof.
  destruct (toMySqlDateTime_format example_engine utc noon)
    as (s & H & Hl & _ & _ & _ & _ & _ & _ & Hm & _);
    try (vm_compute; split; discriminate).
  exists s. repeat split; assumption.
Defined.

(** The year is not padded: year 999 gives 18 code units. *)
Example toMySqlDateTime_short_year :
  option_map (@List.length N)
    (toMySqlDateTime example_engine utc
       (DDate (Some (days_from_civil 999 12 31 * ms_per_day))))
  = Some 18%nat.
Proof. vm_compute. reflexivity. Qed.

(* ================================================================== *)
(** ** More on the schemas *)
(* ================================================================== *)

Lemma statusEnum_reads (v : option json) (st : Status) :
  statusEnum v = Ok st <-> v = Some (JStr (lit (status_name st))).
Proof.
  split.
  - unfold statusEnum, z_enum.
    destruct v as [[| | |s| |]|]; try discriminate.
    unfold member.
    destruct (js_eqb (lit "New") s) eqn:E1;
      [|destruct (js_eqb (lit "In Progress") s) eqn:E2;
        [|destruct (js_eqb (lit "Completed") s) eqn:E3;
          [|destruct (js_eqb (lit "Issue") s) eqn:E4; [|discriminate]]]];
      intros H; injection H as <-;
      match goal with
      | E : js_eqb _ s = true |- _ => apply js_eqb_eq in E as <-
      end; reflexivity.
  - intros ->. destruct st; reflexivity.
Qed.

Lemma z_string_min_1 (v : option json) (s : jsstring) :
  z_string_min 1 v = Ok s <-> v = Some (JStr s) /\ s <> [].
Proof.
  unfold z_string_min, z_string.
  destruct v as [[| | |s'| |]|];
    try (split; [discriminate | intros [H _]; discriminate]).
  destruct s' as [|c s'].
  - split; [discriminate|]. intros [H Hne]. injection H as <-. congruence.
  - assert (E : (js_length (c :: s') <? 1) = false)
      by (apply Z.ltb_ge; unfold js_length; cbn [List.length]; lia).
    rewrite E. split.
    + intros H. injection H as <-. split; [reflexivity|discriminate].
    + intros [H _]. injection H as <-. reflexivity.
Qed.

Lemma executor_field_reads (v : option json) (x : nullish jsstring) :
  optional_nullable (z_string_min 1) v = Ok x <-> executor_reads v x.
Proof.
  split.
  - destruct v as [w|]; [|intros H; injection H as <-; constructor].
    destruct w as [| | |s| |];
      try (intros H; injection H as <-; constructor);
      try (cbn; discriminate).
    unfold optional_nullable.
    destruct (z_string_min 1 (Some (JStr s))) as [s'|] eqn:E;
      [|discriminate].
    intros H. injection H as <-.
    apply z_string_min_1 in E as [E Hne]. injection E as <-.
    constructor. exact Hne.
  - intros [| |s Hs]; try reflexivity.
    unfold optional_nullable.
    replace (z_string_min 1 (Some (JStr s))) with (@Ok jsstring s);
      [reflexivity|].
    symmetry. apply z_string_min_1. auto.
Qed.

(** X2. The body of a status update validates exactly when it is an
    object whose [status] is one of the four names, written exactly,
    whose [executor] is absent, null or a string that is not empty, and
    whose [note] is absent, null or any string; the parsed value is what
    was read. *)
Theorem requestStatusUpdateSchema_reads (req_body : json)
  (u : RequestStatusUpdateInput) :
  safeParse requestStatusUpdateSchema req_body = Ok u <->
  exists o,
    req_body = JObj o
    /\ get "status" o = Some (JStr (lit (status_name (status u))))
    /\ executor_reads (get "executor" o) (executor u)
    /\ reads_as (get "note" o) (note u).
Proof.
  unfold safeParse, requestStatusUpdateSchema, z_object. split.
  - destruct req_body as [| | | | |o]; try discriminate.
    intros H. ap_inv H. exists o. cbn [status executor note].
    repeat match goal with
           | Hk : field _ _ _ = Ok _ |- _ =>
               unfold field in Hk; apply at_seg_ok_inv in Hk
           end.
    split; [reflexivity|]. repeat split.
    + apply statusEnum_reads. assumption.
    + apply executor_field_reads. assumption.
    + apply optional_nullable_string. assumption.
  - intros (o & -> & Hs & He & Hn). destruct u as [st ex nt].
    cbn [status executor note] in *.
    apply statusEnum_reads in Hs. apply executor_field_reads in He.
    apply optional_nullable_string in Hn.
    unfold field. rewrite Hs, He, Hn. reflexivity.
Qed.

(** The empty string is refused as executor and accepted as note. *)
Example executor_empty_note_empty :
  success (safeParse requestStatusUpdateSchema
             (obj [("status", jstr "Issue"); ("executor", jstr "")]%string))
  = false
  /\ safeParse requestStatusUpdateSchema
       (obj [("status", jstr "Issue"); ("note", jstr "")]%string)
     = Ok (Build_RequestStatusUpdateInput Issue Undef (Val [])).
Proof. split; reflexivity. Qed.

(** X3. A body that is not an object, or an object whose [requestType]
    is none of the four names, gets exactly one issue, on the root or on
    [requestType]; no other field is looked at. *)
Theorem unknown_request_kind (engine : Engine) (zone : Zone) (now : Z)
  (req_body : json) :
  ((forall o, req_body <> JObj o) ->
   safeParse (requestSchema engine zone now) req_body
   = Err [mk_issue [] invalid_type])
  /\ (forall o,
        req_body = JObj o ->
        (forall k,
           get "requestType" o
           <> Some (JStr (lit (requestType_name k)))) ->
        safeParse (requestSchema engine zone now) req_body
        = Err [mk_issue [Key "requestType"] invalid_union_discriminator]).
Proof.
  unfold safeParse, requestSchema, z_discriminatedUnion. split.
  - intros H. destruct req_body as [| | | | |o]; try reflexivity.
    destruct (H o eq_refl).
  - intros o -> H.
    destruct (get "requestType" o) as [[| | |s| |]|]; try reflexivity.
    unfold member.
    destruct (js_eqb (lit "Lot Transfer") s) eqn:E1;
      [apply js_eqb_eq in E1 as <-; destruct (H LotTransfer eq_refl)|].
    destruct (js_eqb (lit "Shipment Request") s) eqn:E2;
      [apply js_eqb_eq in E2 as <-; destruct (H ShipmentRequest eq_refl)|].
    destruct (js_eqb (lit "Scrap Request") s) eqn:E3;
      [apply js_eqb_eq in E3 as <-; destruct (H ScrapRequest eq_refl)|].
    destruct (js_eqb (lit "Sampling Request") s) eqn:E4;
      [apply js_eqb_eq in E4 as <-; destruct (H SamplingRequest eq_refl)|].
    reflexivity.
Qed.

(** A request type in lower case is not a request type. *)
Lemma unknown_request_kind_witness :
  safeParse (requestSchema example_engine utc noon)
    (obj [("requestType", jstr "lot transfer");
          ("username", jstr "")]%string)
  = Err [mk_issue [Key "requestType"] invalid_union_discriminator].
Proof.
  refine (proj2 (unknown_request_kind example_engine utc noon _) _ eq_refl _).
  intros k. destruct k; discriminate.
Defined.

(** X4. Every violation is collected: when a key a request of its type
    must have is missing, the payload is refused and the issues name that
    key, whatever else is wrong with the payload. *)
Theorem missing_key_is_reported (engine : Engine) (zone : Zone) (now : Z)
  (k : RequestType) (o : list (jsstring * json)) (key : string)
  (c : zcode) :
  get "requestType" o = Some (JStr (lit (requestType_name k))) ->
  In (key, c) (required_keys k) ->
  get key o = None ->
  let outcome := safeParse (requestSchema engine zone now) (JObj o) in
  success outcome = false /\ In (mk_issue [Key key] c) (issues_of outcome).
Proof.
  intros Ht Hin Hnone outcome.
  assert (Hi : In (mk_issue [Key key] c) (issues_of outcome)).
  { unfold outcome.
    rewrite (requestSchema_dispatch engine zone now k o Ht).
    unfold required_keys in Hin.
    destruct k; cbn [app] in Hin;
      unfold lotRequest, samplingRequestSchema, z_object, baseRequest;
      rewrite !issues_ap;
      repeat (destruct Hin as [Hin|Hin];
              [injection Hin as <- <-; unfold field; rewrite Hnone;
               cbn; rewrite !in_app_iff; cbn; tauto|]);
      destruct Hin. }
  split; [|exact Hi].
  destruct outcome; [destruct Hi|reflexivity].
Qed.

(** A Sampling request with nothing but its type: the project name is
    among the missing. *)
Lemma missing_key_is_reported_witness :
  In (mk_issue [Key "projectName"] invalid_type)
    (issues_of
       (safeParse (requestSchema example_engine utc noon)
          (obj [("requestType", jstr "Sampling Request")]%string))).
Proof.
  unfold obj. cbn [List.map fst snd].
  eapply (fun o H1 H2 H3 =>
            proj2 (missing_key_is_reported example_engine utc noon
                     SamplingRequest o "projectName" invalid_type
                     H1 H2 H3));
    [reflexivity | cbn; tauto | reflexivity].
Defined.

Lemma parse_items_each {A} (p : schema A) (P : A -> Prop) :
  (forall v a, p v = Ok a -> P a) ->
  forall xs i l, parse_items p i xs = Ok l -> Forall P l.
Proof.
  intros Hp. induction xs as [|x xs IH]; intros i l; cbn [parse_items].
  - intros H. injection H as <-. constructor.
  - intros H. ap_inv H.
    match goal with
    | Hx : at_seg _ _ = Ok _ |- _ => apply at_seg_ok_inv in Hx
    end.
    constructor; eauto.
Qed.

Lemma field_array_each {A} (p : schema A) (P : A -> Prop) (k : string)
  (o : list (jsstring * json)) (l : list A) :
  (forall v a, p v = Ok a -> P a) ->
  field k (z_array_min p 1) o = Ok l -> Forall P l.
Proof.
  intros Hp H. unfold field in H. apply at_seg_ok_inv in H.
  unfold z_array_min in H.
  destruct (get k o) as [[| | | |xs|]|]; try discriminate.
  cbv zeta in H. ap_inv H.
  eapply parse_items_each; eassumption.
Qed.

Lemma field_string_min_1 (k : string) (o : list (jsstring * json))
  (s : jsstring) :
  field k (z_string_min 1) o = Ok s -> s <> [].
Proof.
  unfold field. intros H. apply at_seg_ok_inv in H.
  apply z_string_min_1 in H. tauto.
Qed.

Lemma lotSchema_ok (v : option json) (l : Lot.t) :
  lotSchema v = Ok l -> lot_ok l.
Proof.
  unfold lotSchema, z_object.
  destruct v as [[| | | | |o]|]; try discriminate.
  intros H. ap_inv H. unfold lot_ok. cbn [Lot.lotId Lot.unitsQuantity].
  split; [eapply field_string_min_1; eassumption|].
  match goal with
  | Hq : field "unitsQuantity" _ _ = Ok ?x |- _ =>
      unfold field in Hq; apply at_seg_ok_inv in Hq;
      unfold optional_nullable in Hq;
      destruct (get "unitsQuantity" o) as [[| |n| | |]|];
      try (injection Hq as <-; exact I); try discriminate;
      destruct (z_number [int; nonnegative] (Some (JNum n))) as [m|] eqn:E;
      [|discriminate]; injection Hq as <-;
      apply z_number_checked in E as (q & _ & -> & Hi & Hc);
      apply check_nonnegative in Hc; exists q; auto
  end.
Qed.

Lemma samplingLotSchema_ok (v : option json) (l : SamplingLot.t) :
  samplingLotSchema v = Ok l -> sampling_lot_ok l.
Proof.
  unfold samplingLotSchema, z_object.
  destruct v as [[| | | | |o]|]; try discriminate.
  intros H. ap_inv H. unfold sampling_lot_ok.
  cbn [SamplingLot.lotId SamplingLot.unitQuantity SamplingLot.reliabilityTest
       SamplingLot.testCondition SamplingLot.attributeToTag].
  repeat split; try (eapply field_string_min_1; eassumption).
  match goal with
  | Hq : field "unitQuantity" _ _ = Ok ?x |- _ =>
      unfold field in Hq; apply at_seg_ok_inv in Hq;
      apply z_number_checked in Hq as (q & _ & -> & Hi & Hc);
      apply check_positive in Hc; exists q; auto
  end.
Qed.

Lemma baseRequest_more (engine : Engine) (o : list (jsstring * json))
  (b : Base) :
  baseRequest engine o = Ok b ->
  username b <> []
  /\ field "returnable" (optional_nullable z_boolean) o = Ok (returnable b)
  /\ field "domesticInternational"
       (optional_nullable
          (z_enum [("Domestic", Domestic);
                   ("International", International)]%string)) o
     = Ok (domesticInternational b).
Proof.
  unfold baseRequest. intros H. ap_inv H.
  cbn [username returnable domesticInternational].
  repeat split; try assumption.
  eapply field_string_min_1; eassumption.
Qed.

(** X5. What a handler may rely on after validation: the submitter is
    not empty and there is at least one line item; every lot has a
    non-empty identifier and a quantity that is absent, null or a
    non-negative integer; a Sampling request has a non-empty sampling type
    and project name, a release date that passes the day comparison, and
    sampling lots whose four texts are non-empty and whose quantity is a
    strictly positive integer. *)
Theorem validated_request_ok (engine : Engine) (zone : Zone) (now : Z)
  (req_body : json) (data : RequestInput) :
  safeParse (requestSchema engine zone now) req_body = Ok data ->
  request_ok zone now data.
Proof.
  intros Hp. pose proof Hp as Hinv.
  apply requestSchema_inv in Hinv as (o & -> & Hb & Hd).
  apply baseRequest_more in Hb as (Hu & _).
  split; [exact Hu|].
  destruct data as [k b ls|b st qr pn sl].
  - destruct Hd as (_ & Hk & Hl). split; [exact Hk|]. split.
    + eapply field_array_nonempty; eassumption.
    + eapply field_array_each; [exact lotSchema_ok|eassumption].
  - destruct Hd as (Ht & Hq & Hs).
    rewrite (requestSchema_dispatch engine zone now SamplingRequest o Ht)
      in Hp.
    unfold samplingRequestSchema, z_object in Hp. ap_inv Hp.
    match goal with
    | H : SamplingInput _ _ _ _ _ = SamplingInput _ _ _ _ _ |- _ =>
        injection H as -> -> -> -> ->
    end.
    repeat split; try (eapply field_string_min_1; eassumption).
    + unfold field, refine in Hq. apply at_seg_ok_inv in Hq.
      destruct (z_coerce_date engine (get "qrDate" o)) as [d|];
        [|discriminate].
      destruct (qr_not_past zone now d) eqn:E; [|discriminate].
      injection Hq as <-. exact E.
    + eapply field_array_nonempty; eassumption.
    + eapply field_array_each; [exact samplingLotSchema_ok|eassumption].
Qed.

(** The one lot of the Lot Transfer request of alice. *)
Lemma validated_request_ok_witness :
  request_ok utc noon
    (LotInput LotTransfer
       (Build_Base (lit "alice") P1 1714979289000 Undef Undef Undef Undef
          Undef Undef Undef Undef Undef)
       [Lot.make (lit "L1") (Val (Fin 5)) Undef]).
Proof.
  exact (validated_request_ok example_engine utc noon lot_transfer _ eq_refl).
Defined.

Lemma returnable_field_reads (v : option json) (x : nullish bool) :
  optional_nullable z_boolean v = Ok x <-> returnable_reads v x.
Proof.
  split.
  - destruct v as [[| b | | | |]|]; cbn; intros H;
      try discriminate; injection H as <-; constructor.
  - intros []; reflexivity.
Qed.

Lemma shipping_field_reads (v : option json) (x : nullish Shipping) :
  optional_nullable
    (z_enum [("Domestic", Domestic); ("International", International)]%string)
    v = Ok x
  <-> shipping_reads v x.
Proof.
  split.
  - destruct v as [[| | |s| |]|]; cbn -[js_eqb lit]; intros H;
      try discriminate; try (injection H as <-; constructor).
    destruct (js_eqb (lit "Domestic") s) eqn:E1;
      [|destruct (js_eqb (lit "International") s) eqn:E2;
        [|discriminate]];
      injection H as <-;
      match goal with
      | E : js_eqb _ s = true |- _ => apply js_eqb_eq in E as <-
      end.
    + exact (shipping_given Domestic).
    + exact (shipping_given International).
  - intros [| |[]]; reflexivity.
Qed.

(** X6. The two flags of a request: in every payload that validates,
    [returnable] is absent, null or a JSON boolean and
    [domesticInternational] is absent, null or one of the two names;
    the stored columns are the boolean and the choice, and null when the
    flag is absent or null. A string such as "Yes" is not a boolean. *)
Theorem request_flags_read (engine : Engine) (zone : Zone) (now : Z)
  (req_body : json) (data : RequestInput) :
  safeParse (requestSchema engine zone now) req_body = Ok data ->
  exists o,
    req_body = JObj o
    /\ returnable_reads (get "returnable" o) (returnable (base_of data))
    /\ c_returnable (submitted_of engine zone data)
       = match get "returnable" o with
         | Some (JBool b) => Some b
         | _ => None
         end
    /\ shipping_reads (get "domesticInternational" o)
         (domesticInternational (base_of data))
    /\ domestic_international (submitted_of engine zone data)
       = or_null (domesticInternational (base_of data))
    /\ forall s, get "returnable" o <> Some (JStr s).
Proof.
  intros Hp. apply requestSchema_inv in Hp as (o & -> & Hb & _).
  apply baseRequest_more in Hb as (_ & Hr & Hs).
  unfold field in Hr, Hs. apply at_seg_ok_inv in Hr, Hs.
  apply returnable_field_reads in Hr. apply shipping_field_reads in Hs.
  exists o. unfold submitted_of.
  cbn [c_returnable domestic_international].
  repeat split; auto.
  - destruct Hr; reflexivity.
  - intros s Hstr. rewrite Hstr in Hr. inversion Hr.
Qed.

(** A Shipment request marked returnable "Yes", as a string, is refused
    on that field. *)
Example returnable_yes_refused :
  safeParse (requestSchema example_engine utc noon)
    (obj [("username", jstr "alice");
          ("requestType", jstr "Shipment Request");
          ("taskPriority", jstr "P1");
          ("dateOfRequest", jstr "2024-05-06T07:08:09.000Z");
          ("returnable", jstr "Yes");
          ("lots", JArr [obj [("lotId", jstr "L1");
                              ("unitsQuantity", JNum (Fin 5))]])]%string)
  = Err [mk_issue [Key "returnable"] invalid_type].
Proof. reflexivity. Qed.

(** The Lot Transfer request of alice has no flag. *)
Lemma request_flags_read_witness :
  exists o,
    lot_transfer = JObj o /\ get "returnable" o = None.
Proof.
  destruct (request_flags_read example_engine utc noon lot_transfer _
              eq_refl) as (o & Ho & _).
  exists o. split; [exact Ho|]. injection Ho as <-. reflexivity.
Defined.

(* ================================================================== *)
(** ** More on the create handler *)
(* ================================================================== *)

(** X7. A request that is saved writes one parent row and the rows of
    one child table only: a lot-carrying request adds one row per lot to
    [lots], leaves [sampling_lots] alone and stores null in the three
    sampling columns; a Sampling request adds one row per sampling lot to
    [sampling_lots], leaves [lots] alone and stores its sampling type,
    release date and project name. The request date is never null. The
    handler never writes the status history, saved or not. *)
Theorem create_writes_one_child_table (engine : Engine) (zone : Zone)
  (now : Z) (db_now : jsstring) (faults : call -> option jsstring)
  (req_body : json) (data : RequestInput) (s : Store) :
  safeParse (requestSchema engine zone now) req_body = Ok data ->
  let r := run (post_requests engine zone now db_now faults req_body) s in
  let t := committed s in
  let t' := committed (store (snd r)) in
  let row := submitted_of engine zone data in
  request_status_history t' = request_status_history t
  /\ (existsb (refused faults) (getConnection :: create_unit data) = false ->
      requests t' = requests t ++ [new_row (auto_increment s) row db_now]
      /\ date_of_request row <> None
      /\ match data with
         | LotInput _ _ ls =>
             lots t' = lots t ++ lot_rows (auto_increment s) ls
             /\ List.length (lot_rows (auto_increment s) ls) = List.length ls
             /\ sampling_lots t' = sampling_lots t
             /\ sampling_type row = None /\ qr_date row = None
             /\ project_name row = None
         | SamplingInput _ st qr pn sl =>
             sampling_lots t'
             = sampling_lots t ++ sampling_lot_rows (auto_increment s) sl
             /\ List.length (sampling_lot_rows (auto_increment s) sl)
                = List.length sl
             /\ lots t' = lots t
             /\ sampling_type row = Some st /\ qr_date row <> None
             /\ project_name row = Some pn
         end).
Proof.
  intros Hp r t t' row.
  destruct (post_requests_effect engine zone now db_now faults _ _ s Hp)
    as (_ & Hfin & _).
  fold r in Hfin. fold t' in Hfin. fold t in Hfin. rewrite Hfin.
  split.
  - destruct (existsb _ _); [reflexivity|].
    unfold created. destruct data; reflexivity.
  - intros Hno. rewrite Hno. unfold created, row, submitted_of.
    destruct data as [k b ls|b st qr pn sl];
      cbn [requests lots sampling_lots add_lots add_sampling_lots
           with_requests date_of_request sampling_type qr_date project_name];
      unfold lot_rows, sampling_lot_rows; rewrite ?length_map;
      repeat split; try apply toMySqlDateTime_date.
Qed.

(** The Sampling request of bob, released on the day of the clock. *)
Lemma create_writes_one_child_table_witness :
  lots
    (committed
       (store (snd (run (post_requests example_engine utc noon noon_sql
                           no_faults
                           (sampling_released "2024-05-06T00:00:00.000Z"))
                      empty_store))))
  = [].
Proof.
  destruct (create_writes_one_child_table example_engine utc noon noon_sql
              no_faults (sampling_released "2024-05-06T00:00:00.000Z")
              (SamplingInput
                 (Build_Base (lit "bob") P2 1714979289000 Undef Undef Undef
                    Undef Undef Undef Undef Undef Undef)
                 (lit "Reliability") 1714953600000 (lit "Falcon")
                 [SamplingLot.make (lit "S1") (Fin 3) (lit "HTOL")
                    (lit "125C") (lit "A")])
              empty_store eq_refl) as (_ & H).
  destruct (H eq_refl) as (_ & _ & _ & _ & Hl & _).
  exact Hl.
Defined.

(* ================================================================== *)
(** ** Connections *)
(* ================================================================== *)

(** X8. Both handlers give every connection back. When validation fails
    no store call is made at all. When the pool refuses a connection
    that refusal is the only event. Otherwise the last event is the
    release of the connection, also when the catch block throws; it is
    the only release and it comes right after the commit or after a
    rollback, completed or refused. Unless that rollback was refused, no
    transaction is open on the connection when it is released. *)
Theorem connections_are_released (engine : Engine) (zone : Zone) (now : Z)
  (db_now : jsstring) (faults : call -> option jsstring) (s : Store) :
  (forall req_body,
     let r := run (post_requests engine zone now db_now faults req_body) s in
     (success (safeParse (requestSchema engine zone now) req_body) = false ->
      events (snd r) = [])
     /\ (success (safeParse (requestSchema engine zone now) req_body) = true ->
         refused faults getConnection = true ->
         events (snd r) = [Refused getConnection])
     /\ (success (safeParse (requestSchema engine zone now) req_body) = true ->
         refused faults getConnection = false ->
         exists ended rest,
           events (snd r) = Released :: ended :: rest
           /\ (ended = Done commit \/ ended = Done rollback
               \/ ended = Refused rollback)
           /\ ~ In Released rest
           /\ (ended <> Refused rollback -> pending (snd r) = None)))
  /\ (forall id req_body,
        let r := run (patch_status engine zone now faults id req_body) s in
        (isFinite id
         && success (safeParse requestStatusUpdateSchema req_body) = false ->
         events (snd r) = [])
        /\ (isFinite id
            && success (safeParse requestStatusUpdateSchema req_body) = true ->
            refused faults getConnection = true ->
            events (snd r) = [Refused getConnection])
        /\ (isFinite id
            && success (safeParse requestStatusUpdateSchema req_body) = true ->
            refused faults getConnection = false ->
            exists ended rest,
              events (snd r) = Released :: ended :: rest
              /\ (ended = Done commit \/ ended = Done rollback
                  \/ ended = Refused rollback)
              /\ ~ In Released rest
              /\ (ended <> Refused rollback -> pending (snd r) = None))).
Proof.
  split.
  - intros req_body r. unfold r, run, post_requests.
    destruct (safeParse (requestSchema engine zone now) req_body)
      as [data|issues] eqn:Hp; cbn [success].
    + pose proof (validated_has_line_items _ _ _ _ _ Hp) as Hne.
      split; [discriminate|].
      unfold pool_getConnection, conn_beginTransaction, conn_commit,
        conn_rollback, INSERT_requests, INSERT_lots, INSERT_sampling_lots,
        try_catch_finally, bind, await, effect, ret, refused, events.
      destruct data as [k b [|l ls]|b st qr pn [|l ls]]; try congruence;
        cbn [data_lots];
        destruct (faults getConnection);
        destruct (faults beginTransaction);
        destruct (faults insert_requests);
        try destruct (faults insert_lots);
        try destruct (faults insert_sampling_lots);
        destruct (faults commit);
        destruct (faults rollback);
        cbn; (split; intros _ Hg; try discriminate; try reflexivity);
        do 2 eexists; (split; [reflexivity|]);
        (split; [auto|]);
        (split;
         [|intros Hend; try reflexivity; exfalso; apply Hend; reflexivity]);
        cbn; intuition discriminate.
    + split; [reflexivity|]. split; discriminate.
  - intros id req_body r. unfold r, run, patch_status.
    destruct id as [| |q]; cbn [isFinite andb];
      try (split; [reflexivity|split; discriminate]).
    destruct (safeParse requestStatusUpdateSchema req_body) as [u|issues];
      cbn [success]; [|split; [reflexivity|split; discriminate]].
    split; [discriminate|].
    unfold pool_getConnection, conn_beginTransaction, conn_commit,
      conn_rollback, SELECT_status, UPDATE_requests, INSERT_history,
      try_catch_finally, bind, await, effect, ret, refused, events.
    destruct s as [t0 n].
    destruct (faults getConnection);
      destruct (faults beginTransaction);
      destruct (faults select_status);
      destruct (faults update_requests);
      destruct (faults insert_history);
      destruct (faults commit);
      destruct (faults rollback);
      cbn;
      destruct (List.filter (fun r => key_is q (Requests.id r))
                  (requests t0));
      cbn; (split; intros _ Hg; try discriminate; try reflexivity);
      do 2 eexists; (split; [reflexivity|]);
      (split; [auto|]);
      (split;
       [|intros Hend; try reflexivity; exfalso; apply Hend; reflexivity]);
      cbn; intuition discriminate.
Qed.

(** The lots are refused and then the rollback: the connection is
    released all the same, last of all. *)
Lemma connections_are_released_witness :
  exists ended rest,
    events
      (snd (run (post_requests example_engine utc noon noon_sql
                   lots_and_rollback_refused lot_transfer) empty_store))
    = Released :: ended :: rest
    /\ ended = Refused rollback.
Proof.
  destruct (proj2 (proj2 (proj1 (connections_are_released example_engine utc
                                   noon noon_sql lots_and_rollback_refused
                                   empty_store)
                            lot_transfer)) eq_refl eq_refl)
    as (ended & rest & He & _).
  exists ended, rest. split; [exact He|].
  injection He as <- _. reflexivity.
Defined.

(* ================================================================== *)
(** ** More on the status handler *)
(* ================================================================== *)

(** X9. The handler has no transition graph. Whatever the status of a
    stored request, [Completed] included, a valid update to any status,
    its own included, that the store does not refuse is answered [200]
    and leaves the request in the requested status. *)
Theorem any_transition_is_accepted (engine : Engine) (zone : Zone) (now : Z)
  (faults : call -> option jsstring) (q : Q) (req_body : json)
  (u : RequestStatusUpdateInput) (s : Store) (rid : Z) (r : Requests.row) :
  find_request rid (committed s) = Some r ->
  key_is q rid = true ->
  safeParse requestStatusUpdateSchema req_body = Ok u ->
  existsb (refused faults) update_calls = false ->
  let out := run (patch_status engine zone now faults (Fin q) req_body) s in
  fst out = Sent (respond 200 body_ok)
  /\ exists r',
       find_request rid (committed (store (snd out))) = Some r'
       /\ Requests.status r' = Some (status u).
Proof.
  intros Hf Hk Hp Hr out.
  destruct (old_status_found q rid _ r Hk Hf) as (_ & Hh).
  split.
  - apply (patch_status_answers engine zone now faults q u _ s Hp Hr Hh).
  - destruct (patch_status_store engine zone now faults q u _ s Hp Hr Hh)
      as (Hs & _).
    fold out in Hs. rewrite Hs. cbn [committed].
    rewrite (find_request_updated q u _ rid _ r Hf), Hk.
    eexists. split; reflexivity.
Qed.

(** Request 1 is completed and then set back to [New]. *)
Lemma any_transition_is_accepted_witness :
  fst (run (patch_status example_engine utc (noon + hour) no_faults
              (Fin (inject_Z 1)) (obj [("status", jstr "New")]%string))
         (patch_all example_engine utc [complete_later] one_request))
  = Sent (respond 200 body_ok).
Proof.
  exact (proj1 (any_transition_is_accepted example_engine utc (noon + hour)
                  no_faults (inject_Z 1)
                  (obj [("status", jstr "New")]%string)
                  (Build_RequestStatusUpdateInput New Undef Undef)
                  (patch_all example_engine utc [complete_later] one_request)
                  1 _ eq_refl eq_refl eq_refl eq_refl)).
Defined.

Lemma hit_elsewhere (q : Q) (rid : Z) (rows : list Requests.row) :
  key_is q rid = false ->
  existsb (fun r => key_is q (Requests.id r)) rows = true ->
  q_to_Z q <> rid.
Proof.
  intros Hk Hh. apply existsb_exists in Hh as (x & _ & Hx).
  rewrite (key_is_same q (Requests.id x) rid Hx) in Hk.
  rewrite (key_is_value q _ Hx). intros <-.
  rewrite Z.eqb_refl in Hk. discriminate.
Qed.

Section History.

Variable engine : Engine.
Variable zone : Zone.

(** One call of the endpoint, seen from the history of request [rid]. *)
Lemma patch_step_history_of (s : Store) (c : patch_call) (rid : Z)
  (r : Requests.row) :
  find_request rid (committed s) = Some r ->
  history_of rid (committed (patch_step engine zone s c))
  = history_of rid (committed s)
    ++ match moves rid c with
       | Some u =>
           [History.make rid (Requests.status r) (status u)
              (or_null (executor u)) (or_null (note u))]
       | None => []
       end.
Proof.
  intros Hf. unfold history_of. rewrite patch_step_committed. unfold moves.
  destruct (target c) as [| |q]; try (symmetry; apply app_nil_r).
  destruct (safeParse requestStatusUpdateSchema (payload c)) as [u|];
    try (symmetry; apply app_nil_r).
  destruct (negb (existsb (refused (refusing c)) update_calls)) eqn:Hr.
  - destruct (key_is q rid) eqn:Hk.
    + destruct (old_status_found q rid _ r Hk Hf) as (Hold & ->).
      cbn [andb]. unfold updated.
      cbn [request_status_history add_history].
      rewrite filter_app, Hold, (key_is_value q rid Hk).
      cbn [List.filter History.request_id]. rewrite Z.eqb_refl. reflexivity.
    + cbn [andb].
      destruct (existsb _ (requests (committed s))) eqn:Hh;
        [|symmetry; apply app_nil_r].
      unfold updated. cbn [request_status_history add_history].
      rewrite filter_app. cbn [List.filter History.request_id].
      pose proof (hit_elsewhere q rid _ Hk Hh) as Hne.
      apply Z.eqb_neq in Hne. rewrite Hne. reflexivity.
  - cbn [andb]. rewrite andb_false_r. symmetry. apply app_nil_r.
Qed.

End History.

(** X10. The history of a request is a chain. Over any sequence of calls
    of the status endpoint, the entries added for a request are one per
    call that went through for it, in the order of the calls; the first
    starts from the status the request had, each next one from the status
    the one before left, and the last ends in the status the request has
    afterwards. Calls for other requests add nothing to it. *)
Theorem history_is_a_chain (engine : Engine) (zone : Zone)
  (calls : list patch_call) (s : Store) (rid : Z) (r : Requests.row) :
  find_request rid (committed s) = Some r ->
  exists r' added,
    find_request rid (committed (patch_all engine zone calls s)) = Some r'
    /\ history_of rid (committed (patch_all engine zone calls s))
       = history_of rid (committed s) ++ added
    /\ chained (Requests.status r) added (Requests.status r')
    /\ List.length added = List.length (List.filter (goes_through rid) calls).
Proof.
  revert s r. induction calls as [|c cs IH]; intros s r Hf.
  - exists r, []. cbn. rewrite app_nil_r. auto.
  - pose proof (patch_step_row engine zone s c rid r Hf) as Hrow.
    pose proof (patch_step_history_of engine zone s c rid r Hf) as Hh.
    destruct (IH _ _ Hrow) as (r' & added & Hf' & Ha & Hc & Hl).
    cbn [patch_all fold_left] in *. fold (patch_all engine zone cs) in *.
    unfold patch_all in *. cbn [fold_left].
    exists r'. rewrite Ha, Hh, <- app_assoc.
    eexists. split; [exact Hf'|]. split; [reflexivity|].
    cbn [List.filter]. unfold goes_through at 1.
    destruct (moves rid c) as [u|]; cbn [app chained List.length].
    + cbn [row_after Requests.status History.old_status History.new_status]
        in *.
      repeat split; auto.
    + auto.
Qed.

(** Request 1 is started at noon and completed an hour later. *)
Lemma history_is_a_chain_witness :
  exists added,
    history_of 1
      (committed
         (patch_all example_engine utc [start_at_noon; complete_later]
            one_request))
    = history_of 1 (committed one_request) ++ added
    /\ List.length added = 2%nat.
Proof.
  destruct (history_is_a_chain example_engine utc
              [start_at_noon; complete_later] one_request 1 request_1
              eq_refl) as (r' & added & _ & Ha & _ & Hl).
  exists added. split; [exact Ha|exact Hl].
Defined.

Lemma last_cons_default {A} (l : list A) (a d : A) :
  List.last (a :: l) d = List.last l a.
Proof.
  revert a d. induction l as [|b l IH]; intros a d; [reflexivity|].
  change (List.last (a :: b :: l) d) with (List.last (b :: l) d).
  rewrite (IH b d), (IH b a). reflexivity.
Qed.

(** X11. The issue note reflects the latest entry into [Issue]. Over any
    sequence of calls, the note of a request ends as the note (or null)
    of the last call that moved it into [Issue], and as it was when no
    call did: moving the request to another status never clears it. *)
Theorem issue_note_is_latest (engine : Engine) (zone : Zone)
  (calls : list patch_call) (s : Store) (rid : Z) (r : Requests.row) :
  find_request rid (committed s) = Some r ->
  exists r',
    find_request rid (committed (patch_all engine zone calls s)) = Some r'
    /\ Requests.issue_note r'
       = List.last (issue_notes rid calls) (Requests.issue_note r).
Proof.
  revert s r. induction calls as [|c cs IH]; intros s r Hf.
  - exists r. auto.
  - pose proof (patch_step_row engine zone s c rid r Hf) as Hrow.
    destruct (IH _ _ Hrow) as (r' & Hf' & Hn).
    exists r'. split; [exact Hf'|]. rewrite Hn.
    cbn [issue_notes].
    destruct (moves rid c) as [[st ex nt]|]; [|reflexivity].
    destruct st; cbn [status status_eqb note row_after Requests.issue_note];
      try reflexivity.
    symmetry. apply last_cons_default.
Qed.

(** Request 1 is set to [Issue] with a note and then started: the note
    stays. *)
Lemma issue_note_is_latest_witness :
  exists r',
    find_request 1
      (committed
         (patch_all example_engine utc
            [status_call noon 1
               [("status", jstr "Issue"); ("note", jstr "damaged")]%string;
             start_again]
            one_request)) = Some r'
    /\ Requests.issue_note r' = Some (lit "damaged").
Proof.
  exact (issue_note_is_latest example_engine utc
           [status_call noon 1
              [("status", jstr "Issue"); ("note", jstr "damaged")]%string;
            start_again]
           one_request 1 request_1 eq_refl).
Defined.

(* ================================================================== *)
(** ** Trimmed texts *)
(* ================================================================== *)

(** X12. The texts the create handler trims are stored with no white
    space at either end: the lot identifier of every lot row, and the lot
    identifier, reliability test, test condition and attribute of every
    sampling-lot row. Trimming a text a second time changes nothing, and
    a text with no white space at its ends is stored as it is. *)
Theorem trimmed_columns_are_tidy :
  (forall s, tidy (trim s) /\ trim (trim s) = trim s)
  /\ (forall s, tidy s -> trim s = s)
  /\ (forall rid ls row, In row (lot_rows rid ls) -> tidy (Lots.lot_id row))
  /\ (forall rid sl row,
        In row (sampling_lot_rows rid sl) ->
        tidy (SamplingLots.lot_id row)
        /\ tidy (SamplingLots.reliability_test row)
        /\ tidy (SamplingLots.test_condition row)
        /\ tidy (SamplingLots.attribute_to_tag row)).
Proof.
  split; [|split; [|split]].
  - intros s. split; [apply trim_tidy|apply tidy_trim, trim_tidy].
  - exact tidy_trim.
  - intros rid ls row H. unfold lot_rows in H.
    apply in_map_iff in H as (l & <- & _). apply trim_tidy.
  - intros rid sl row H. unfold sampling_lot_rows in H.
    apply in_map_iff in H as (l & <- & _).
    repeat split; apply trim_tidy.
Qed.

(** The lot identifier " L1 " is stored as "L1". *)
Lemma trimmed_columns_are_tidy_witness :
  tidy (Lots.lot_id (Lots.make 1 (trim (lit " L1 ")) None None))
  /\ trim (lit " L1 ") = lit "L1".
Proof.
  split.
  - apply (proj1 (proj2 (proj2 trimmed_columns_are_tidy)) 1
             [Lot.make (lit " L1 ") Undef Undef]).
    left. reflexivity.
  - reflexivity.
Defined.

(* ================================================================== *)
(** ** src/schema.ts and src/server.ts *)
(* ================================================================== *)

Lemma coerce_number_checked (engine : Engine) (c : num_check)
  (v : option json) (n : jsnum) :
  z_coerce_number engine [int; c] v = Ok n <->
  exists q,
    to_Number engine v = Fin q /\ n = Fin q /\ q_is_int q = true
    /\ check_num (Fin q) c = [].
Proof.
  unfold z_coerce_number.
  destruct (to_Number engine v) as [|neg|q] eqn:E.
  - split; [discriminate|]. intros (q & H & _). discriminate.
  - split; [|intros (q & H & _); discriminate].
    cbn. destruct (check_num (Inf neg) c); discriminate.
  - pose proof (z_number_checked c (Some (JNum (Fin q))) n) as H.
    cbn [z_number] in H. rewrite H. clear H.
    split; intros (q' & Hq & -> & Hi & Hc); injection Hq as <-;
      exists q; auto.
Qed.

Lemma flat_lot_inv (engine : Engine) (item : list (jsstring * json))
  (l : Legacy.Lot) :
  Legacy.lotSchema engine (Some (JObj item)) = Ok l ->
  get "lotId" item = Some (JStr (Legacy.lotId l))
  /\ Legacy.lotId l <> []
  /\ exists q,
       to_Number engine (get "unitsQuantity" item) = Fin q
       /\ Legacy.unitsQuantity l = Fin q
       /\ q_is_int q = true /\ 0 <= Qnum q.
Proof.
  unfold Legacy.lotSchema, z_object. intros H. ap_inv H.
  cbn [Legacy.lotId Legacy.unitsQuantity].
  repeat match goal with
         | Hk : field _ _ _ = Ok _ |- _ =>
             unfold field in Hk; apply at_seg_ok_inv in Hk
         end.
  match goal with
  | Hk : z_string_min 1 _ = Ok _ |- _ =>
      apply z_string_min_1 in Hk as [Hk Hne]
  end.
  match goal with
  | Hq : z_coerce_number _ _ _ = Ok _ |- _ =>
      apply coerce_number_checked in Hq as (q & Hq & -> & Hi & Hc);
      apply check_nonnegative in Hc
  end.
  repeat split; auto. exists q. auto.
Qed.

(** X13. The lot of the flat schema always has a quantity: the value of
    the payload goes through [Number] first and must then be an integer
    that is not negative. So a missing quantity is refused, while a null
    and [false] count as 0 and [true] as 1. *)
Theorem flat_quantity_is_coerced (engine : Engine)
  (item : list (jsstring * json)) :
  (forall l,
     Legacy.lotSchema engine (Some (JObj item)) = Ok l ->
     exists q,
       to_Number engine (get "unitsQuantity" item) = Fin q
       /\ Legacy.unitsQuantity l = Fin q
       /\ q_is_int q = true /\ 0 <= Qnum q)
  /\ (get "unitsQuantity" item = None ->
      success (Legacy.lotSchema engine (Some (JObj item))) = false)
  /\ (forall l,
        Legacy.lotSchema engine (Some (JObj item)) = Ok l ->
        (get "unitsQuantity" item = Some JNull ->
         Legacy.unitsQuantity l = Fin 0)
        /\ (forall b, get "unitsQuantity" item = Some (JBool b) ->
            Legacy.unitsQuantity l = Fin (if b then 1 else 0))).
Proof.
  split; [|split].
  - intros l H. apply flat_lot_inv in H. tauto.
  - intros Hnone. unfold Legacy.lotSchema, z_object.
    rewrite !success_ap. unfold field at 2. rewrite Hnone. cbn.
    rewrite andb_false_r. reflexivity.
  - intros l H. apply flat_lot_inv in H as (_ & _ & q & Hn & -> & _).
    split.
    + intros E. rewrite E in Hn. cbn in Hn. congruence.
    + intros b E. rewrite E in Hn. cbn in Hn. congruence.
Qed.

(** A lot with a null quantity. *)
Lemma flat_quantity_is_coerced_witness :
  Legacy.unitsQuantity (Legacy.make (lit "L2") (Fin 0) Undef) = Fin 0.
Proof.
  refine (proj1 (proj2 (proj2 (flat_quantity_is_coerced example_engine
                                 [(lit "lotId", jstr "L2");
                                  (lit "unitsQuantity", JNull)]))
                  _ eq_refl) eq_refl).
Defined.

Lemma flat_request_inv (engine : Engine) (req_body : json)
  (d : Flat.RequestInput) :
  safeParse (Flat.requestSchema engine) req_body = Ok d ->
  exists o,
    req_body = JObj o
    /\ field "returnable" (optional_nullable z_coerce_boolean) o
       = Ok (Flat.returnable d)
    /\ field "jiraNumber" (optional_nullable z_string) o
       = Ok (Flat.jiraNumber d)
    /\ field "lots" (z_array_min (Legacy.lotSchema engine) 1) o
       = Ok (Flat.lots d).
Proof.
  unfold safeParse, Flat.requestSchema, z_object.
  destruct req_body as [| | | | |o]; try discriminate.
  intros H. ap_inv H. exists o.
  cbn [Flat.returnable Flat.jiraNumber Flat.lots]. auto.
Qed.

(** X14. The flat schema never refuses [returnable]: an absent flag and
    a null stay as they are, every other value goes through [Boolean].
    A string that is not empty is therefore read as true, whatever it
    says, "No" and "false" included. *)
Theorem flat_returnable_is_coerced (engine : Engine) (req_body : json)
  (d : Flat.RequestInput) :
  safeParse (Flat.requestSchema engine) req_body = Ok d ->
  exists o,
    req_body = JObj o
    /\ Flat.returnable d
       = match get "returnable" o with
         | None => Undef
         | Some JNull => Null
         | Some v => Val (to_Boolean (Some v))
         end
    /\ (forall date_to_sql c s,
          get "returnable" o = Some (JStr (c :: s)) ->
          c_returnable (Flat.submitted_of date_to_sql d) = Some true).
Proof.
  intros H. apply flat_request_inv in H as (o & -> & Hr & _).
  exists o. split; [reflexivity|].
  unfold field in Hr. apply at_seg_ok_inv in Hr.
  assert (E : Flat.returnable d
              = match get "returnable" o with
                | None => Undef
                | Some JNull => Null
                | Some v => Val (to_Boolean (Some v))
                end).
  { destruct (get "returnable" o) as [[| | | | |]|]; cbn in Hr;
      injection Hr as <-; reflexivity. }
  split; [exact E|].
  intros date_to_sql c s Hs. unfold Flat.submitted_of. cbn [c_returnable].
  rewrite E, Hs. reflexivity.
Qed.

(** The shipment marked returnable "No" is read as returnable. *)
Lemma flat_returnable_is_coerced_witness :
  exists d,
    safeParse (Flat.requestSchema example_engine) flat_shipment = Ok d
    /\ Flat.returnable d = Val true.
Proof.
  eexists. split; [reflexivity|].
  destruct (flat_returnable_is_coerced example_engine flat_shipment _
              eq_refl) as (o & Ho & Hr & _).
  rewrite Hr. injection Ho as <-. reflexivity.
Defined.

Lemma js_eqb_refl (s : jsstring) : js_eqb s s = true.
Proof. apply js_eqb_eq. reflexivity. Qed.

Lemma map_constant {A B} (b : B) (l : list A) :
  List.map (fun _ => b) l = repeat b (List.length l).
Proof. induction l as [|x l IH]; cbn; [|rewrite IH]; reflexivity. Qed.

Lemma lotValues_length (rid : Z) (ls : list Legacy.Lot) :
  List.length (List.concat (Flat.lotValues rid ls))
  = (List.length ls * 4)%nat.
Proof.
  unfold Flat.lotValues.
  induction ls as [|l ls IH]; [reflexivity|].
  cbn [List.map List.concat]. rewrite length_app, IH. reflexivity.
Qed.

Lemma rows_of_lotValues (rid : Z) (ls : list Legacy.Lot) :
  rows_of_values (List.length ls) (List.concat (Flat.lotValues rid ls))
  = Some (flat_lot_rows rid ls).
Proof.
  unfold Flat.lotValues, flat_lot_rows.
  induction ls as [|l ls IH]; [reflexivity|].
  cbn [List.map List.concat List.length rows_of_values app firstn skipn].
  rewrite IH. cbn [lot_of_values].
  destruct (Legacy.serialNumber l); reflexivity.
Qed.

Lemma flat_placeholders_groups (rid : Z) (ls : list Legacy.Lot) :
  Flat.placeholders (Flat.lotValues rid ls)
  = join (lit ",") (repeat (lit "(?,?,?,?)") (List.length ls)).
Proof.
  unfold Flat.placeholders. rewrite map_constant.
  unfold Flat.lotValues. rewrite length_map. reflexivity.
Qed.

Lemma bulk_rows_lotValues (rid : Z) (ls : list Legacy.Lot) :
  ls <> [] ->
  bulk_rows (Flat.placeholders (Flat.lotValues rid ls))
    (List.concat (Flat.lotValues rid ls))
  = Some (flat_lot_rows rid ls).
Proof.
  intros Hne. unfold bulk_rows. cbv zeta.
  rewrite lotValues_length, Nat.div_mul by discriminate.
  rewrite flat_placeholders_groups, js_eqb_refl, rows_of_lotValues.
  destruct ls; [congruence|reflexivity].
Qed.

Lemma flat_lots_nonempty (engine : Engine) (req_body : json)
  (d : Flat.RequestInput) :
  safeParse (Flat.requestSchema engine) req_body = Ok d -> Flat.lots d <> [].
Proof.
  intros H. apply flat_request_inv in H as (o & _ & _ & _ & Hl).
  eapply field_array_nonempty. exact Hl.
Qed.

(** X15. The bulk insert of the flat handler is well formed and reads
    back. For the lots of a request, the text after [VALUES] has one
    group of four placeholders per lot and the bound values are four per
    lot; the store reads them back as one row per lot, in order, with the
    lot identifier as validated (not trimmed), the quantity (never null)
    and the serial number or null. With no lot the statement would be
    refused; a validated request always has one. *)
Theorem flat_bulk_insert_reads_back (rid : Z) :
  (forall ls,
     List.length (List.concat (Flat.lotValues rid ls))
     = (List.length ls * 4)%nat
     /\ Flat.placeholders (Flat.lotValues rid ls)
        = join (lit ",") (repeat (lit "(?,?,?,?)") (List.length ls)))
  /\ (forall ls,
        ls <> [] ->
        bulk_rows (Flat.placeholders (Flat.lotValues rid ls))
          (List.concat (Flat.lotValues rid ls))
        = Some (flat_lot_rows rid ls))
  /\ bulk_rows (Flat.placeholders (Flat.lotValues rid []))
       (List.concat (Flat.lotValues rid [])) = None
  /\ (forall engine req_body d,
        safeParse (Flat.requestSchema engine) req_body = Ok d ->
        bulk_rows (Flat.placeholders (Flat.lotValues rid (Flat.lots d)))
          (List.concat (Flat.lotValues rid (Flat.lots d)))
        = Some (flat_lot_rows rid (Flat.lots d))).
Proof.
  split; [|split; [|split]].
  - intros ls.
    split; [apply lotValues_length|apply flat_placeholders_groups].
  - apply bulk_rows_lotValues.
  - reflexivity.
  - intros engine req_body d H.
    apply bulk_rows_lotValues. eapply flat_lots_nonempty. exact H.
Qed.

(** Two lots make eight values and two groups. *)
Lemma flat_bulk_insert_reads_back_witness :
  bulk_rows (lit "(?,?,?,?),(?,?,?,?)")
    [SqlInt 1; SqlText (lit " L1 "); SqlNum (Fin 7); SqlNull;
     SqlInt 1; SqlText (lit "L2"); SqlNum (Fin 0); SqlNull]
  = Some [Lots.make 1 (lit " L1 ") (Some (Fin 7)) None;
          Lots.make 1 (lit "L2") (Some (Fin 0)) None].
Proof.
  exact (proj1 (proj2 (flat_bulk_insert_reads_back 1))
           [Legacy.make (lit " L1 ") (Fin 7) Null;
            Legacy.make (lit "L2") (Fin 0) Undef]
           ltac:(discriminate)).
Defined.

Section FlatServer.

Variable engine : Engine.
Variable zod_message : list issue -> jsstring.
Variable date_to_sql : Z -> jsstring.
Variable db_now : jsstring.
Variable parse_error : jsstring.
Variable faults : call -> option jsstring.

(** X16. What [src/server.ts] answers. A payload the flat schema
    refuses gets 400 with the text of the zod error and no store call is
    made. A valid payload gets 201 with the new identifier when no store
    call is refused; otherwise it gets 400 with, verbatim, the error of
    the first store call that was refused, the refusal of a connection
    included, or with the error of the rollback when the rollback of the
    catch block is refused as well: no error leaves the handler. The
    error is logged in every case. After a refusal the store is as it
    was; at every moment a reader sees the store without the request or
    with its row and all its lots. No transaction stays open unless the
    rollback was refused. *)
Theorem flat_handler_answers (req_body : json) (s : Store) :
  let r :=
    Flat.post_requests engine zod_message date_to_sql db_now parse_error
      faults req_body (open s) in
  match safeParse (Flat.requestSchema engine) req_body with
  | Err issues =>
      r = (inr (Flat.respond 400 (Flat.body_error (zod_message issues))),
           console_error (zod_message issues) (open s))
  | Ok d =>
      let t1 :=
        flat_created date_to_sql db_now d (auto_increment s) (committed s) in
      fst r
      = inr match flat_error faults with
            | Some e => Flat.respond 400 (Flat.body_error e)
            | None => Flat.respond 201 (Flat.body_id (auto_increment s))
            end
      /\ committed (store (snd r))
         = match flat_error faults with
           | Some _ => committed s
           | None => t1
           end
      /\ console (snd r)
         = match flat_error faults with
           | Some e => [e]
           | None => []
           end
      /\ (forall e t, In (e, t) (journal (snd r)) ->
            t = committed s \/ t = t1)
      /\ (faults rollback = None \/ flat_error faults = None ->
          pending (snd r) = None)
  end.
Proof.
  unfold Flat.post_requests, Flat.try_catch.
  destruct (safeParse (Flat.requestSchema engine) req_body) as [d|issues]
    eqn:Hp; [|reflexivity].
  pose proof (bulk_rows_lotValues (auto_increment s) (Flat.lots d)
                (flat_lots_nonempty engine req_body d Hp)) as Hb.
  unfold flat_created, flat_error.
  unfold pool_getConnection, conn_beginTransaction, conn_commit,
    conn_rollback, INSERT_requests, Flat.INSERT_lots, Flat.throw,
    try_catch_finally, bind, await, effect, ret.
  cbn [first_refusal].
  destruct (faults getConnection);
    destruct (faults beginTransaction);
    destruct (faults insert_requests);
    destruct (faults insert_lots);
    destruct (faults commit);
    destruct (faults rollback);
    cbn -[bulk_rows Flat.placeholders Flat.lotValues];
    rewrite ?Hb;
    cbn -[bulk_rows Flat.placeholders Flat.lotValues];
    (split; [reflexivity|]); (split; [reflexivity|]);
    (split; [reflexivity|]);
    (split; [|intros [H|H]; reflexivity || discriminate]);
    intros e t Hin;
    repeat (destruct Hin as [Hin|Hin];
            [injection Hin as _ <-; auto|]);
    try contradiction.
Qed.

End FlatServer.

(** The store refuses the lots: the flat handler answers 400 with the
    message of the store. *)
Example flat_handler_echoes :
  fst (flat_run lots_refused flat_shipment empty_store)
  = inr (Flat.respond 400
           (Flat.body_error
              (lit "ER_DATA_TOO_LONG: Data too long for column")))
  /\ committed (store (snd (flat_run lots_refused flat_shipment empty_store)))
     = no_tables.
Proof. split; reflexivity. Qed.

(** Nothing is refused: the two lots are stored as validated, the
    identifier untrimmed, the null quantity as 0, the flag "No" as true. *)
Example flat_handler_stores :
  let t := committed (store (snd (flat_run no_faults flat_shipment
                                     empty_store))) in
  fst (flat_run no_faults flat_shipment empty_store)
  = inr (Flat.respond 201 (Flat.body_id 1))
  /\ lots t
     = [Lots.make 1 (lit " L1 ") (Some (Fin 7)) None;
        Lots.make 1 (lit "L2") (Some (Fin 0)) None]
  /\ List.map (fun r => c_returnable (Requests.submitted r)) (requests t)
     = [Some true].
Proof. cbv zeta. repeat split; reflexivity. Qed.

(** The store refuses the lots and then the rollback: the flat handler
    answers with the error of the rollback, and the connection goes back
    to the pool with the parent row pending. *)
Example flat_handler_echoes_rollback :
  fst (flat_run lots_and_rollback_refused flat_shipment empty_store)
  = inr (Flat.respond 400
           (Flat.body_error
              (lit "ER_QUERY_INTERRUPTED: Query execution was interrupted")))
  /\ option_map (fun w => (List.map Requests.id (requests w), lots w))
       (pending (snd (flat_run lots_and_rollback_refused flat_shipment
                        empty_store)))
     = Some ([1], []).
Proof. split; reflexivity. Qed.

(* ================================================================== *)
(** ** The two schemas side by side *)
(* ================================================================== *)

Lemma coerce_of_number (engine : Engine) (v : option json)
  (q : nullish jsnum) :
  optional_nullable (z_number [int; nonnegative]) v = Ok q ->
  match flat_quantity q with
  | Some n => z_coerce_number engine [int; nonnegative] v = Ok n
  | None => success (z_coerce_number engine [int; nonnegative] v) = false
  end.
Proof.
  destruct v as [[| |n| | |]|]; cbn [optional_nullable z_number rmap fail];
    try discriminate;
    try (intros H; injection H as <-; reflexivity).
  unfold z_coerce_number. cbn [to_Number].
  destruct n as [|neg|x]; [discriminate| |];
    (destruct (run_checks _ _) as [m|] eqn:E; cbn [rmap];
     [|discriminate]);
    intros H; injection H as <-; reflexivity.
Qed.

Lemma flat_lot_of_lot (engine : Engine) (v : option json) (l : Lot.t) :
  lotSchema v = Ok l ->
  match flat_lot l with
  | Some l' => Legacy.lotSchema engine v = Ok l'
  | None => success (Legacy.lotSchema engine v) = false
  end.
Proof.
  unfold lotSchema, Legacy.lotSchema, z_object.
  destruct v as [[| | | | |item]|]; try discriminate.
  intros H. ap_inv H.
  match goal with
  | Hq : field "unitsQuantity" _ _ = Ok ?q |- _ =>
      unfold field in Hq; apply at_seg_ok_inv in Hq;
      apply (coerce_of_number engine) in Hq
  end.
  match goal with
  | Hi : field "lotId" _ _ = Ok _, Hs : field "serialNumber" _ _ = Ok _
    |- _ => rewrite Hi, Hs
  end.
  unfold flat_lot. cbn [Lot.unitsQuantity Lot.lotId Lot.serialNumber].
  destruct (flat_quantity _) as [n|].
  - unfold field at 1.
    match goal with Hq : z_coerce_number _ _ _ = Ok _ |- _ => rewrite Hq end.
    reflexivity.
  - rewrite !success_ap. unfold field at 1. rewrite success_at_seg.
    match goal with Hq : success _ = false |- _ => rewrite Hq end.
    reflexivity.
Qed.

Lemma flat_lots_of_items (engine : Engine) (xs : list json) :
  forall (i : nat) (ls : list Lot.t),
    parse_items lotSchema i xs = Ok ls ->
    match flat_lots ls with
    | Some ls' => parse_items (Legacy.lotSchema engine) i xs = Ok ls'
    | None => success (parse_items (Legacy.lotSchema engine) i xs) = false
    end.
Proof.
  induction xs as [|x xs IH]; intros i ls H; cbn [parse_items] in *.
  - injection H as <-. reflexivity.
  - ap_inv H.
    match goal with
    | Hx : at_seg _ (lotSchema _) = Ok _ |- _ =>
        apply at_seg_ok_inv in Hx;
        apply (flat_lot_of_lot engine) in Hx
    end.
    match goal with
    | Hr : parse_items lotSchema _ _ = Ok _ |- _ => apply IH in Hr
    end.
    cbn [flat_lots].
    destruct (flat_lot _) as [l'|].
    + match goal with Hx : Legacy.lotSchema _ _ = Ok _ |- _ => rewrite Hx end.
      destruct (flat_lots _) as [rest'|].
      * match goal with
        | Hr : parse_items _ _ _ = Ok _ |- _ => rewrite Hr
        end.
        reflexivity.
      * rewrite !success_ap.
        match goal with Hr : success _ = false |- _ => rewrite Hr end.
        apply andb_false_r.
    + rewrite !success_ap, success_at_seg.
      match goal with Hx : success _ = false |- _ => rewrite Hx end.
      reflexivity.
Qed.

Lemma flat_lots_of_field (engine : Engine) (o : list (jsstring * json))
  (ls : list Lot.t) :
  field "lots" (z_array_min lotSchema 1) o = Ok ls ->
  match flat_lots ls with
  | Some ls' =>
      field "lots" (z_array_min (Legacy.lotSchema engine) 1) o = Ok ls'
  | None =>
      success (field "lots" (z_array_min (Legacy.lotSchema engine) 1) o)
      = false
  end.
Proof.
  unfold field. intros H. apply at_seg_ok_inv in H.
  unfold z_array_min in *.
  destruct (get "lots" o) as [[| | | |xs|]|]; try discriminate.
  cbv zeta in *. ap_inv H.
  match goal with
  | Hr : parse_items lotSchema _ _ = Ok _ |- _ =>
      apply (flat_lots_of_items engine) in Hr
  end.
  match goal with
  | Hs : (if _ then _ else _) = Ok _ |- _ => rewrite Hs
  end.
  destruct (flat_lots _) as [ls'|].
  - match goal with Hr : parse_items _ _ _ = Ok _ |- _ => rewrite Hr end.
    reflexivity.
  - rewrite success_at_seg, !success_ap.
    match goal with Hr : success _ = false |- _ => rewrite Hr end.
    apply andb_false_r.
Qed.

Lemma coerce_of_boolean (v : option json) (r : nullish bool) :
  optional_nullable z_boolean v = Ok r ->
  optional_nullable z_coerce_boolean v = Ok r.
Proof.
  destruct v as [[| b | | | |]|]; cbn; intros H; try discriminate;
    injection H as <-; reflexivity.
Qed.

(** X17. The two schemas side by side. Take a payload that [schema.ts]
    accepts as a request with lots and whose [jiraNumber], a key that
    schema does not read, is absent, null or a string. The flat schema of
    [src/schema.ts] accepts it exactly when every lot states a quantity:
    it then reads the same fields, the flag [returnable] unchanged, a
    null quantity as 0; an absent quantity, which [schema.ts] allows,
    makes [Number] give [NaN] and the flat schema refuse the payload. *)
Theorem flat_schema_on_validated (engine : Engine) (zone : Zone) (now : Z)
  (req_body : json) (k : RequestType) (b : Base) (ls : list Lot.t)
  (jira : nullish jsstring) :
  safeParse (requestSchema engine zone now) req_body = Ok (LotInput k b ls) ->
  (forall o, req_body = JObj o -> reads_as (get "jiraNumber" o) jira) ->
  match flat_lots ls with
  | Some ls' =>
      safeParse (Flat.requestSchema engine) req_body
      = Ok (flat_request k b jira ls')
  | None => success (safeParse (Flat.requestSchema engine) req_body) = false
  end.
Proof.
  intros Hp Hj.
  apply requestSchema_inv in Hp as (o & -> & Hb & Hk & Hns & Hl).
  specialize (Hj o eq_refl). apply optional_nullable_string in Hj.
  apply (flat_lots_of_field engine) in Hl.
  cbn [base_of] in Hb. unfold baseRequest in Hb. ap_inv Hb.
  unfold safeParse, Flat.requestSchema, z_object, flat_request.
  cbn [username taskPriority dateOfRequest facilityLocation receiverName
       qawrNumber lotLocation attentionTo returnable domesticInternational
       shippingAddress].
  assert (Hty : field "requestType"
                  (z_enum [("Lot Transfer", LotTransfer);
                           ("Scrap Request", ScrapRequest);
                           ("Shipment Request", ShipmentRequest)]%string) o
                = Ok k).
  { unfold field. rewrite Hk. destruct k; try reflexivity.
    exfalso. apply Hns. reflexivity. }
  assert (Hjn : field "jiraNumber" (optional_nullable z_string) o = Ok jira).
  { unfold field. rewrite Hj. reflexivity. }
  assert (Hret : forall r,
            field "returnable" (optional_nullable z_boolean) o = Ok r ->
            field "returnable" (optional_nullable z_coerce_boolean) o = Ok r).
  { intros r H. unfold field in *. apply at_seg_ok_inv in H.
    rewrite (coerce_of_boolean _ _ H). reflexivity. }
  repeat match goal with
         | H : field "returnable" (optional_nullable z_boolean) _ = Ok _
           |- _ => apply Hret in H
         end.
  repeat match goal with
         | H : field _ _ o = Ok _ |- _ => rewrite H; clear H
         end.
  destruct (flat_lots ls) as [ls'|].
  - rewrite Hl. reflexivity.
  - rewrite success_ap, Hl. apply andb_false_r.
Qed.

(** The Lot Transfer of alice, its one lot with quantity 5. *)
Lemma flat_schema_on_validated_witness :
  safeParse (Flat.requestSchema example_engine) lot_transfer
  = Ok (flat_request LotTransfer
          (Build_Base (lit "alice") P1 1714979289000 Undef Undef Undef
             Undef Undef Undef Undef Undef Undef)
          Undef [Legacy.make (lit "L1") (Fin 5) Undef]).
Proof.
  refine (flat_schema_on_validated example_engine utc noon lot_transfer
            LotTransfer _ [Lot.make (lit "L1") (Val (Fin 5)) Undef] Undef
            eq_refl _).
  intros o H. injection H as <-. constructor.
Defined.

(* ================================================================== *)
(** ** Outside the try block *)
(* ================================================================== *)

(** X18. In [server.ts] both handlers take their connection before the
    [try] block. When the pool refuses it for a request that validates,
    the handler ends with the error of the pool uncaught: no response is
    sent, nothing is logged, and the store is as it was. *)
Theorem refused_connection_is_unanswered (engine : Engine) (zone : Zone)
  (now : Z) (db_now : jsstring) (faults : call -> option jsstring)
  (s : Store) (e : jsstring) :
  faults getConnection = Some e ->
  (forall req_body,
     success (safeParse (requestSchema engine zone now) req_body) = true ->
     let r := run (post_requests engine zone now db_now faults req_body) s in
     fst r = Uncaught e
     /\ store (snd r) = s
     /\ console (snd r) = [])
  /\ (forall id req_body,
        isFinite id = true ->
        success (safeParse requestStatusUpdateSchema req_body) = true ->
        let r := run (patch_status engine zone now faults id req_body) s in
        fst r = Uncaught e
        /\ store (snd r) = s
        /\ console (snd r) = []).
Proof.
  intros Hg. split.
  - intros req_body Hp r. unfold r, run, post_requests.
    destruct (safeParse (requestSchema engine zone now) req_body)
      as [data|]; [|discriminate].
    unfold pool_getConnection, bind, await, effect. rewrite Hg.
    cbn. auto.
  - intros id req_body Hi Hp r. unfold r, run, patch_status.
    destruct id as [| |q]; try discriminate.
    destruct (safeParse requestStatusUpdateSchema req_body) as [u|];
      [|discriminate].
    unfold pool_getConnection, bind, await, effect. rewrite Hg.
    cbn. auto.
Qed.

(** The pool is exhausted when alice sends her Lot Transfer. *)
Lemma refused_connection_is_unanswered_witness :
  fst (run (post_requests example_engine utc noon noon_sql pool_exhausted
              lot_transfer) empty_store)
  = Uncaught (lit "ER_CON_COUNT_ERROR: Too many connections").
Proof.
  exact (proj1 (proj1 (refused_connection_is_unanswered example_engine utc
                         noon noon_sql pool_exhausted empty_store _ eq_refl)
                  lot_transfer eq_refl)).
Defined.

(** X19. A status update is all or nothing. The handler answers 200 only
    when the row and its history entry are both committed; with any
    other outcome the store is exactly as it was, and at every moment a
    reader sees the store before the update or after the whole of it. An
    identifier that is not a finite number is answered 400 before the
    body is looked at. No transaction stays open after a 200, nor after
    any other outcome unless the rollback was refused. *)
Theorem status_update_is_all_or_nothing (engine : Engine) (zone : Zone)
  (now : Z) (faults : call -> option jsstring) (id : jsnum)
  (req_body : json) (s : Store) :
  let r := run (patch_status engine zone now faults id req_body) s in
  let nowSQL := toMySqlDateTime engine zone (DDate (Some now)) in
  (fst r = Sent (respond 200 body_ok) ->
   exists q u,
     id = Fin q
     /\ safeParse requestStatusUpdateSchema req_body = Ok u
     /\ store (snd r)
        = {| committed := updated q u nowSQL (committed s);
             auto_increment := auto_increment s |})
  /\ (fst r <> Sent (respond 200 body_ok) -> store (snd r) = s)
  /\ (isFinite id = false ->
      r = (Sent (respond 400 (body_message "Invalid id")), open s))
  /\ (forall e t, In (e, t) (journal (snd r)) ->
        t = committed s
        \/ (t = committed (store (snd r))
            /\ fst r = Sent (respond 200 body_ok)))
  /\ (faults rollback = None \/ fst r = Sent (respond 200 body_ok) ->
      pending (snd r) = None).
Proof.
  intros r nowSQL.
  pose proof (patch_status_effect engine zone now faults id req_body s) as H.
  cbv zeta in H. fold r in H. fold nowSQL in H.
  destruct id as [|neg|q]; cbn [isFinite];
    try (rewrite H; cbn;
         repeat split; try discriminate; try congruence;
         intros; contradiction).
  destruct (safeParse requestStatusUpdateSchema req_body) as [u|issues].
  - destruct H as (Hs & Ho & Hj & Hpend).
    assert (Hok : fst r = Sent (respond 200 body_ok)
                  <-> negb (existsb (refused faults) update_calls)
                      && existsb (fun r => key_is q (Requests.id r))
                           (requests (committed s)) = true).
    { rewrite Ho. unfold update_calls, refused. cbn [existsb].
      destruct (faults getConnection);
        destruct (faults beginTransaction);
        destruct (faults select_status);
        destruct (existsb _ (requests (committed s)));
        destruct (faults update_requests);
        destruct (faults insert_history);
        destruct (faults commit);
        destruct (faults rollback);
        cbn; split; try discriminate; reflexivity. }
    split; [|split; [|split; [|split]]].
    + intros H200. apply Hok in H200. rewrite H200 in Hs.
      exists q, u. auto.
    + intros Hn. rewrite Hs.
      destruct (negb _ && _) eqn:E; [|reflexivity].
      exfalso. apply Hn, Hok. reflexivity.
    + discriminate.
    + intros e t Hin. destruct (Hj e t Hin) as [->|[-> Hc]]; [auto|].
      right. split; [|apply Hok; exact Hc].
      rewrite Hs, Hc. reflexivity.
    + intros [Hr|H200]; apply Hpend; [left; exact Hr|].
      right. apply Hok. exact H200.
  - rewrite H. cbn. repeat split; try discriminate; try congruence.
    intros; contradiction.
Qed.

(** Request 1 is started: the answer is 200 and its row is updated. *)
Lemma status_update_is_all_or_nothing_witness :
  exists q u,
    Fin (inject_Z 1) = Fin q
    /\ safeParse requestStatusUpdateSchema
         (obj [("status", jstr "In Progress")]%string) = Ok u
    /\ store (snd (run (patch_status example_engine utc noon no_faults
                          (Fin (inject_Z 1))
                          (obj [("status", jstr "In Progress")]%string))
                     one_request))
       = {| committed :=
              updated q u
                (toMySqlDateTime example_engine utc (DDate (Some noon)))
                (committed one_request);
            auto_increment := auto_increment one_request |}.
Proof.
  exact (proj1 (status_update_is_all_or_nothing example_engine utc noon
                  no_faults (Fin (inject_Z 1))
                  (obj [("status", jstr "In Progress")]%string)
                  one_request) eq_refl).
Defined.
